(** * RosBagExtractor: the lidar extraction of [src/sensors/lidar.py]

    A shallow embedding of [Lidar] and [LidarExtraction] and the properties
    of the decoders, the point-cloud writer and the manifest.

    Python objects are modelled as follows.
    - A float is a binary64 [float] of the kernel; an int is a [Z].
    - An exception is a value of [exn]; a computation that may raise
      returns a [result].
    - The effects of a run (the list [data] shared by [extract] and the
      three decoders, the files written, what is printed, the attribute
      [path_save] assigned by [initialize]) live in a [world] that is
      threaded through the monad [M].  An exception leaves the effects
      made before it in place, as in Python.
    - The libraries the code calls (yaml, laser_geometry, the timestamp
      helper of [utils.tools], [getPathSave] of the base class) are
      variables of the section [Extraction], and so is the outcome of a
      write of Open3D, which depends on the file system.
    - The two calls of Open3D that decide what [savePLY] does are
      modelled: the conversion [Vector3dVector], which raises on an array
      that has not the shape (n, 3), and [write_point_cloud], which
      reports a failed write by its result and raises nothing. *)

From Stdlib Require Import List String Ascii ZArith Lia Bool Arith.
From Stdlib Require Import Permutation Sorted Mergesort Orders.
From Stdlib Require Import PrimFloat FloatOps SpecFloat.
From Stdlib Require Import DecimalString DecimalPos DecimalZ.
Import ListNotations.

Local Open Scope string_scope.
Local Open Scope list_scope.

Set Implicit Arguments.

(** ** Python values *)

(** The exceptions the modelled code can raise.  [LibraryError] stands for
    whatever an external library raises (a YAML error, a projection error);
    all of them are subclasses of Python's [Exception]. *)
Inductive exn : Type :=
| ValueError (msg : string)
| TypeError (msg : string)
| KeyError (key : string)
| OverflowError (msg : string)
| AssertionError (msg : string)
| AttributeError (msg : string)
| RuntimeError (msg : string)
| LibraryError (msg : string).

Inductive result (A : Type) : Type :=
| OK (a : A)
| Raise (e : exn).

Arguments OK {A} a.
Arguments Raise {A} e.

Definition rbind {A B : Type} (c : result A) (k : A -> result B) : result B :=
  match c with
  | OK a => k a
  | Raise e => Raise e
  end.

Notation "x <~ c ;; k" := (rbind c (fun x => k))
  (at level 61, c at next level, right associativity).

(** A [for] loop that builds a list, one element per iteration, and stops
    at the first exception. *)
Fixpoint collect {A B : Type} (body : A -> result B) (l : list A) : result (list B) :=
  match l with
  | [] => OK []
  | a :: rest =>
      b <~ body a ;;
      bs <~ collect body rest ;;
      OK (b :: bs)
  end.

(** A field value unpacked from a point: struct.unpack yields a Python
    float for a floating-point field and an int for an integer field. *)
Inductive value : Type :=
| VFloat (f : float)
| VInt (z : Z).

(** [math.isnan]: an int is never NaN. *)
Definition py_isnan (v : value) : bool :=
  match v with
  | VFloat f => is_nan f
  | VInt _ => false
  end.

(** [float(z)] for an int [z], rounded to the nearest binary64. *)
Definition float_of_Z (z : Z) : float :=
  SF2Prim (binary_normalize prec emax z 0 false).

(** [v * f] for a float [f]: an int operand is converted first, which
    raises OverflowError when it does not fit. *)
Definition py_mul (v : value) (f : float) : result float :=
  match v with
  | VFloat x => OK (x * f)%float
  | VInt z =>
      let x := float_of_Z z in
      if is_infinity x then Raise (OverflowError "int too large to convert to float")
      else OK (x * f)%float
  end.

(** [int(f)]: truncation toward zero; NaN and the infinities raise. *)
Definition py_int (f : float) : result Z :=
  match Prim2SF f with
  | S754_zero _ => OK 0%Z
  | S754_infinity _ => Raise (OverflowError "cannot convert float infinity to integer")
  | S754_nan => Raise (ValueError "cannot convert float NaN to integer")
  | S754_finite s m e =>
      let a := Z.shiftl (Zpos m) e in
      OK (if s then (- a)%Z else a)
  end.

(** [str(z)] for an int. *)
Definition py_str_int (z : Z) : string :=
  NilZero.string_of_int (Z.to_int z).

(** The message of the ValueError raised by a tuple unpacking of [got]
    values into [expected] names. *)
Definition unpack_error (expected got : nat) : exn :=
  if (got <? expected)%nat then
    ValueError ("not enough values to unpack (expected "
                ++ py_str_int (Z.of_nat expected) ++ ", got "
                ++ py_str_int (Z.of_nat got) ++ ")")
  else
    ValueError ("too many values to unpack (expected "
                ++ py_str_int (Z.of_nat expected) ++ ")").

(** ** Python strings *)

(** [s.replace(old, new)] for a non-empty [old]: its occurrences are
    replaced from left to right, without overlap.  [skip] counts the
    characters of an occurrence just replaced that are still to be passed
    over. *)
Fixpoint replace_from (skip : nat) (old new s : string) : string :=
  match s with
  | EmptyString => EmptyString
  | String c s' =>
      match skip with
      | S k => replace_from k old new s'
      | O =>
          if prefix old s
          then new ++ replace_from (String.length old - 1) old new s'
          else String c (replace_from 0 old new s')
      end
  end.

Definition str_replace (old new s : string) : string :=
  replace_from 0 old new s.

(** [pat] occurs in [s] at some position. *)
Fixpoint occurs_in (pat s : string) : bool :=
  prefix pat s ||
  match s with
  | EmptyString => false
  | String _ s' => occurs_in pat s'
  end.

Fixpoint last_char (s : string) : option ascii :=
  match s with
  | EmptyString => None
  | String c EmptyString => Some c
  | String _ s' => last_char s'
  end.

(** [os.path.join(a, b)] on a POSIX system. *)
Definition os_path_join (a b : string) : string :=
  if prefix "/" b then b
  else
    match last_char a with
    | None => a ++ b
    | Some c => if (c =? "/")%char then a ++ b else a ++ "/" ++ b
    end.

(** ** numpy and Open3D *)

(** A numpy array of float64, as the list of its rows.  [np.array([])],
    the empty list, has the shape (0,): it has one dimension and no
    columns. *)
Definition ndarray : Type := list (list float).

Definition to_float (v : value) : float :=
  match v with
  | VFloat f => f
  | VInt z => float_of_Z z
  end.

(** [np.array(rows)] on a list of rows of numbers. *)
Definition np_array (rows : list (list value)) : ndarray :=
  map (map to_float) rows.

(** [a.any()]: some element is truthy, that is, differs from zero (NaN is
    truthy, both zeros are not). *)
Definition np_any (a : ndarray) : bool :=
  existsb (existsb (fun x => negb (x =? 0)%float)) a.

(** What [o3d.utility.Vector3dVector] raises on an array it cannot
    convert: the cast error of pybind11, a RuntimeError to Python, for
    which the model keeps no message. *)
Definition not_n_by_3 : exn := RuntimeError EmptyString.

(** The arrays of shape (n, 3) that [np.array] builds from a list of
    rows: at least one row, every row of three values. *)
Definition is_n_by_3 (a : ndarray) : bool :=
  match a with
  | [] => false
  | _ :: _ => forallb (fun row => (List.length row =? 3)%nat) a
  end.

(** [o3d.utility.Vector3dVector(a)]: the conversion accepts an array of
    shape (n, 3) and raises a RuntimeError on any other, [np.array([])]
    included. *)
Definition Vector3dVector (a : ndarray) : result ndarray :=
  if is_n_by_3 a then OK a else Raise not_n_by_3.

(** An Open3D point cloud: the points, and the normals when assigned. *)
Record PointCloud : Type := {
  points : ndarray;
  normals : option ndarray
}.

Inductive file : Type :=
| PlyFile (cloud : PointCloud)
| CsvFile (lines : list string).

(** ** ROS messages *)

(** A sensor_msgs/PointCloud2: the names of its fields in the order of
    their offsets, and for every point one value per field. *)
Record PointCloud2 : Type := {
  pc_fields : list string;
  pc_points : list (list value)
}.

(** A message read from a bag: [msg_text] is what [str(msg)] renders,
    [msg_cloud] is the cloud when the message is a PointCloud2. *)
Record message : Type := {
  msg_text : string;
  msg_cloud : option PointCloud2
}.

(** [sensor_msgs.msg.LaserScan], holding what the constructor was given;
    [yaml_node] is the type of a parsed YAML value. *)
Record LaserScan (yaml_node : Type) : Type := {
  header : yaml_node;
  angle_min : yaml_node;
  angle_max : yaml_node;
  angle_increment : yaml_node;
  time_increment : yaml_node;
  scan_time : yaml_node;
  range_min : yaml_node;
  range_max : yaml_node;
  ranges : yaml_node;
  intensities : yaml_node
}.

(** A recorded bag: its file name and its records (topic, message). *)
Record Bag : Type := {
  filename : string;
  records : list (string * message)
}.

(** [bag.read_messages(topics=[topic])]. *)
Definition read_messages (bag : Bag) (topic : string) : list message :=
  map snd (filter (fun r => (fst r =? topic)%string) (records bag)).

(** The values of a point that belong to the requested fields, in the
    order of the cloud's fields (sensor_msgs.point_cloud2 builds its
    struct format that way). *)
Definition select_fields (fields field_names : list string) (pt : list value) : list value :=
  map snd (filter (fun fv => existsb (String.eqb (fst fv)) field_names) (combine fields pt)).

Definition has_nan (p : list value) : bool := existsb py_isnan p.

(** [pc2.read_points(cloud, field_names, skip_nans=True)]: a point is
    skipped when one of the requested values is NaN. *)
Definition read_points (cloud : PointCloud2) (field_names : list string) : list (list value) :=
  filter (fun p => negb (has_nan p))
         (map (select_fields (pc_fields cloud) field_names) (pc_points cloud)).

(** [Point._make(l)] of the namedtuple over [field_names]. *)
Definition Point_make (field_names : list string) (l : list value) : result (list value) :=
  if (List.length l =? List.length field_names)%nat then OK l
  else Raise (TypeError ("Expected " ++ py_str_int (Z.of_nat (List.length field_names))
                         ++ " arguments, got " ++ py_str_int (Z.of_nat (List.length l)))).

(** [pc2.read_points_list(cloud=msg, field_names, skip_nans=True)]. *)
Definition read_points_list (msg : message) (field_names : list string) : result (list (list value)) :=
  match msg_cloud msg with
  | None => Raise (AssertionError "cloud is not a sensor_msgs.msg.PointCloud2")
  | Some cloud => collect (Point_make field_names) (read_points cloud field_names)
  end.

(** ** The world and the monad of effects *)

Inductive event : Type :=
| EvLoadHokuyo (payload : string)
| EvAppend (name : string)
| EvWritePLY (path : string)
| EvWriteCSV (path : string).

(** - [w_path_save]: the attribute [self.path_save], unset until
      [initialize] runs;
    - [w_data]: the list [data] of [extract];
    - [w_disk]: the files written, oldest first (a later entry of the
      same path overwrites an earlier one);
    - [w_stdout]: the lines printed by [print];
    - [w_log]: the calls of [loadHokuyo], the appends to [data], the calls
      of [o3d.io.write_point_cloud] and the writes of the manifest, in the
      order they happen. *)
Record world : Type := {
  w_path_save : option string;
  w_data : list string;
  w_disk : list (string * file);
  w_stdout : list string;
  w_log : list event
}.

Definition M (A : Type) : Type := world -> result A * world.

Definition ret {A : Type} (a : A) : M A := fun w => (OK a, w).

Definition bind {A B : Type} (c : M A) (k : A -> M B) : M B :=
  fun w =>
    match c w with
    | (OK a, w') => k a w'
    | (Raise e, w') => (Raise e, w')
    end.

Notation "x <- c ;; k" := (bind c (fun x => k))
  (at level 61, c at next level, right associativity).
Notation "c ;; k" := (bind c (fun _ => k))
  (at level 61, right associativity).

Definition lift {A : Type} (r : result A) : M A := fun w => (r, w).

(** [try: c  except Exception as e: handler]. *)
Definition try_except {A : Type} (c : M A) (handler : exn -> M A) : M A :=
  fun w =>
    match c w with
    | (OK a, w') => (OK a, w')
    | (Raise e, w') => handler e w'
    end.

Fixpoint for_each {A : Type} (body : A -> M unit) (l : list A) : M unit :=
  match l with
  | [] => ret tt
  | a :: rest => body a ;; for_each body rest
  end.

Definition log_event (e : event) : M unit :=
  fun w => (OK tt, {| w_path_save := w_path_save w; w_data := w_data w;
                      w_disk := w_disk w; w_stdout := w_stdout w;
                      w_log := w_log w ++ [e] |}).

Definition print (line : string) : M unit :=
  fun w => (OK tt, {| w_path_save := w_path_save w; w_data := w_data w;
                      w_disk := w_disk w; w_stdout := w_stdout w ++ [line];
                      w_log := w_log w |}).

(** [data.append(name)]. *)
Definition data_append (name : string) : M unit :=
  fun w => (OK tt, {| w_path_save := w_path_save w; w_data := w_data w ++ [name];
                      w_disk := w_disk w; w_stdout := w_stdout w;
                      w_log := w_log w ++ [EvAppend name] |}).

(** [data = []]. *)
Definition data_new : M unit :=
  fun w => (OK tt, {| w_path_save := w_path_save w; w_data := [];
                      w_disk := w_disk w; w_stdout := w_stdout w;
                      w_log := w_log w |}).

Definition data_get : M (list string) := fun w => (OK (w_data w), w).

Definition set_path_save (p : string) : M unit :=
  fun w => (OK tt, {| w_path_save := Some p; w_data := w_data w;
                      w_disk := w_disk w; w_stdout := w_stdout w;
                      w_log := w_log w |}).

Definition no_path_save : exn :=
  AttributeError "'LidarExtraction' object has no attribute 'path_save'".

(** Reading [self.path_save]. *)
Definition get_path_save : M string :=
  fun w =>
    match w_path_save w with
    | Some p => (OK p, w)
    | None => (Raise no_path_save, w)
    end.

Definition write_file (path : string) (f : file) (e : event) : M unit :=
  fun w => (OK tt, {| w_path_save := w_path_save w; w_data := w_data w;
                      w_disk := w_disk w ++ [(path, f)]; w_stdout := w_stdout w;
                      w_log := w_log w ++ [e] |}).

(** The world in which nothing has happened yet, but for [path_save]. *)
Definition blank (p : option string) : world :=
  {| w_path_save := p; w_data := []; w_disk := []; w_stdout := []; w_log := [] |}.

(** The world [w] followed by what [d] records. *)
Definition extend (w d : world) : world :=
  {| w_path_save := w_path_save w;
     w_data := w_data w ++ w_data d;
     w_disk := w_disk w ++ w_disk d;
     w_stdout := w_stdout w ++ w_stdout d;
     w_log := w_log w ++ w_log d |}.

(** ** The manifest order *)

(** [np.sort] on an array of strings orders them by code point, which
    [String.leb] does. *)
Module FilenameOrder <: TotalLeBool.
Definition t := string.
Definition leb := String.leb.
Theorem leb_total : forall a1 a2, leb a1 a2 = true \/ leb a2 a1 = true.
Proof. exact String.leb_total. Qed.
End FilenameOrder.

Module NpSort := Sort FilenameOrder.

Definition np_sort (a : list string) : list string := NpSort.sort a.

(** [np.savetxt] of a one-dimensional array of strings with the format
    [CLOUD_FORMAT], which prints a string as it is, a header and no footer:
    the lines of the file, the header line first, after the comment
    prefix. *)
Definition np_savetxt_lines (data : list string) (header comments : string) : list string :=
  (comments ++ header)%string :: data.

(** ** [class Lidar] *)

Module Lidar.
Definition HOKUYO : string := "hokuyo".
Definition OUSTER : string := "ouster".
Definition VELODYNE : string := "velodyne".
Definition list : list string := [HOKUYO; OUSTER; VELODYNE].
End Lidar.

(** [x in l] for a list of strings. *)
Definition py_in (x : string) (l : list string) : bool :=
  existsb (String.eqb x) l.

(** ** [class LidarExtraction] *)

(** The attributes set by the constructor.  [path_save], assigned later
    by [initialize], is [w_path_save] of the world. *)
Record LidarExtraction : Type := {
  topic : string;
  bags : list Bag;
  path_root : string;
  name : string;
  sensor : string;
  available_point_time : bool
}.

Definition CLOUD_HEADER : string := "timestamp [ns]".
Definition CLOUD_FORMAT : string := "%s".

Definition dquote : string := String (ascii_of_nat 34) EmptyString.

(** Modelled from the spec: the constructor of [BaseExtraction]
    (sensors/base.py, not among the sources) is taken to store its four
    arguments and to do nothing else; the spec has the configuration error
    raised at construction, before any processing and with no output. *)
Definition BaseExtraction_init (topic : string) (bags : list Bag)
    (path_root name : string) : M (string * list Bag * string * string) :=
  ret (topic, bags, path_root, name).

(** [LidarExtraction.__init__(self, topic, bags, path_root, lidar)]; the
    default [lidar=Lidar.VELODYNE] is left to the caller. *)
Definition __init__ (topic : string) (bags : list Bag) (path_root lidar : string)
    : M LidarExtraction :=
  base <- BaseExtraction_init topic bags path_root lidar ;;
  let '(topic, bags, path_root, _) := base in
  if negb (py_in lidar Lidar.list) then
    lift (Raise (ValueError (dquote ++ lidar ++ dquote ++ " lidar sensor type not supported")))
  else
    ret {| topic := topic; bags := bags; path_root := path_root;
           sensor := lidar; name := lidar; available_point_time := false |}.

(** Modelled from the spec: [isAvailable] of [BaseExtraction] (not among
    the sources) tells whether segments and messages are available for the
    configured topic: some bag holds at least one message on it. *)
Definition isAvailable (self : LidarExtraction) : bool :=
  existsb (fun bag => negb (List.length (read_messages bag (topic self)) =? 0)%nat)
          (bags self).

(** What [msg_to_timestamp] is applied to: the message itself (Ouster,
    Velodyne) or its text (Hokuyo). *)
Inductive pyobj : Type :=
| PyStr (s : string)
| PyMsg (m : message).

(** The assignments [cloud.points = a] and [cloud.normals = a]. *)
Definition set_points (cloud : PointCloud) (a : ndarray) : PointCloud :=
  {| points := a; normals := normals cloud |}.

Definition set_normals (cloud : PointCloud) (a : ndarray) : PointCloud :=
  {| points := points cloud; normals := Some a |}.

(** [saveCSV(self, data)]. *)
Definition saveCSV (self : LidarExtraction) (data : list string) : M unit :=
  path_save <- get_path_save ;;
  let filename := os_path_join path_save "data.csv" in
  write_file filename (CsvFile (np_savetxt_lines data CLOUD_HEADER "# "))
             (EvWriteCSV filename).

(** The body of the loop of [singleOuster]. *)
Definition ouster_point (pt : list value) : result (list value * list value) :=
  match pt with
  | [x; y; z; i; t; r] =>
      let t_ms := t in
      let xyz := [x; y; z] in
      let irt := [i; r; t_ms] in
      OK (xyz, irt)
  | _ => Raise (unpack_error 6 (List.length pt))
  end.

(** The body of the loop of [singleVelodyne]. *)
Definition velodyne_point (available_point_time : bool) (pt : list value)
    : result (list value * list value) :=
  if available_point_time then
    match pt with
    | [x; y; z; i; r] =>
        let xyz := [x; y; z] in
        let irt := [i; r; VInt 0] in
        OK (xyz, irt)
    | _ => Raise (unpack_error 5 (List.length pt))
    end
  else
    match pt with
    | [x; y; z; i; r; t_s] =>
        let xyz := [x; y; z] in
        f <~ py_mul t_s 1e9 ;;
        t_ms <~ py_int f ;;
        let irt := [i; r; VInt t_ms] in
        OK (xyz, irt)
    | _ => Raise (unpack_error 6 (List.length pt))
    end.

(** The body of the loop of [singleHokuyo]. *)
Definition hokuyo_point (pt : list value) : result (list value) :=
  match pt with
  | [x; y; z] =>
      let xyz := [x; y; z] in
      OK xyz
  | _ => Raise (unpack_error 3 (List.length pt))
  end.

(** ** Sample inputs

    Stand-ins for the libraries the extractor calls, and small messages and
    bags, on which the decoders are run and the theorems applied at the
    end of the file. *)

Module Demo.

(** A YAML text is kept as it is; [node[key]] succeeds when the text has
    the key. *)
Definition yaml_safe_load (s : string) : result string := OK s.

Definition yaml_getitem (node key : string) : result string :=
  if occurs_in (key ++ ":") node then OK node else Raise (KeyError key).

(** The cloud of a scan of two beams, the second of which is out of range. *)
Definition scan_cloud : PointCloud2 :=
  {| pc_fields := ["x"; "y"; "z"; "intensity"; "index"];
     pc_points := [[VFloat 1; VFloat 2; VFloat 0; VFloat 9; VInt 0];
                   [VFloat nan; VFloat nan; VFloat 0; VFloat 9; VInt 1]] |}.

(** A projector that cannot consume a range written "nan". *)
Definition projectLaser (scan : LaserScan string) : result PointCloud2 :=
  if occurs_in "nan" (ranges scan)
  then Raise (LibraryError "could not convert string to float")
  else OK scan_cloud.

(** A timestamp rule: the length of the text of the message. *)
Definition msg_to_timestamp (o : pyobj) : Z :=
  match o with
  | PyStr s => Z.of_nat (String.length s)
  | PyMsg m => Z.of_nat (String.length (msg_text m))
  end.

Definition getPathSave (self : LidarExtraction) : string :=
  os_path_join (path_root self) (name self).

(** A file system in which nothing can be written under [/ro]. *)
Definition write_ok (path : string) (cloud : PointCloud) : bool :=
  negb (prefix "/ro/" path).

Definition lidar (sensor0 : string) (flag : bool) (bags0 : list Bag) : LidarExtraction :=
  {| topic := "/scan"; bags := bags0; path_root := "/tmp"; name := sensor0;
     sensor := sensor0; available_point_time := flag |}.

(** The world before a run, the world of a run under way, and the world
    of a run whose output directory cannot be written. *)
Definition w_init : world := blank None.
Definition w_run : world := blank (Some "out").
Definition w_ro : world := blank (Some "/ro/out").

Definition scan_text (rs : string) : string :=
  ("header: 7, angle_min: 0, angle_max: 1, angle_increment: 1, "
   ++ "time_increment: 0, scan_time: 0, range_min: 0, range_max: 60, "
   ++ "ranges: " ++ rs ++ ", intensities: []")%string.

(** A scan with a not-a-number range, and a text that is no scan. *)
Definition nan_scan : message :=
  {| msg_text := scan_text "[1.0, nan]"; msg_cloud := None |}.
Definition no_scan : message :=
  {| msg_text := "ranges: [nan]"; msg_cloud := None |}.

(** The binary64 nearest to 0.002. *)
Definition t_2ms : float := 0x1.0624dd2f1a9fcp-9.

(** The binary64 nearest to 1.9e-9. *)
Definition t_1_9ns : float := 0x1.05224e95818a7p-29.

(** A Velodyne cloud of one point whose time is 0.002 s. *)
Definition velodyne_cloud : PointCloud2 :=
  {| pc_fields := ["x"; "y"; "z"; "intensity"; "ring"; "time"];
     pc_points := [[VFloat 1; VFloat 2; VFloat 3; VFloat 9; VInt 4; VFloat t_2ms]] |}.
Definition velodyne_msg : message :=
  {| msg_text := "abc"; msg_cloud := Some velodyne_cloud |}.

(** An Ouster cloud of two points, one with a NaN coordinate. *)
Definition ouster_cloud : PointCloud2 :=
  {| pc_fields := ["x"; "y"; "z"; "intensity"; "t"; "ring"];
     pc_points := [[VFloat 1; VFloat 2; VFloat 3; VFloat 5; VInt 4; VInt 7];
                   [VFloat 1; VFloat nan; VFloat 3; VFloat 5; VInt 6; VInt 7]] |}.
Definition ouster_msg : message :=
  {| msg_text := "abcdefghij"; msg_cloud := Some ouster_cloud |}.

(** An Ouster cloud whose only point has a NaN coordinate. *)
Definition ouster_empty_msg : message :=
  {| msg_text := "abcdefghi";
     msg_cloud := Some {| pc_fields := ["x"; "y"; "z"; "intensity"; "t"; "ring"];
                          pc_points := [[VFloat nan; VFloat 2; VFloat 3; VFloat 5; VInt 6; VInt 7]] |} |}.

(** An Ouster cloud of two points with all coordinates present, the
    second of which has a NaN intensity. *)
Definition ouster_mixed_cloud : PointCloud2 :=
  {| pc_fields := ["x"; "y"; "z"; "intensity"; "t"; "ring"];
     pc_points := [[VFloat 1; VFloat 2; VFloat 3; VFloat 5; VInt 4; VInt 7];
                   [VFloat 4; VFloat 5; VFloat 6; VFloat nan; VInt 6; VInt 7]] |}.
Definition ouster_mixed_msg : message :=
  {| msg_text := "abcde"; msg_cloud := Some ouster_mixed_cloud |}.

(** An Ouster cloud of two points, both without NaN; the attributes of
    the first are all zero. *)
Definition ouster_full_msg : message :=
  {| msg_text := "abcdefg";
     msg_cloud := Some {| pc_fields := ["x"; "y"; "z"; "intensity"; "t"; "ring"];
                          pc_points := [[VFloat 1; VFloat 0; VFloat 3; VFloat 0; VInt 0; VInt 0];
                                        [VFloat 4; VFloat 5; VFloat 6; VFloat 8; VInt 9; VInt 1]] |} |}.

(** Bags whose messages of the topic [/scan] all give a frame with a
    point. *)
Definition bag_a : Bag :=
  {| filename := "a.bag";
     records := [("/scan", ouster_msg); ("/imu", velodyne_msg); ("/scan", ouster_full_msg)] |}.
Definition bag_b : Bag :=
  {| filename := "b.bag"; records := [("/scan", ouster_mixed_msg)] |}.
Definition bag_ab : Bag :=
  {| filename := "ab.bag";
     records := [("/scan", ouster_mixed_msg); ("/scan", ouster_full_msg); ("/scan", ouster_msg)] |}.
Definition bag_imu : Bag :=
  {| filename := "imu.bag"; records := [("/imu", velodyne_msg)] |}.

(** A bag whose second message of the topic gives a frame of no point. *)
Definition bag_stop : Bag :=
  {| filename := "stop.bag";
     records := [("/scan", ouster_msg); ("/scan", ouster_empty_msg); ("/scan", ouster_full_msg)] |}.

(** A scan whose ranges are all numbers, and a text with no key of a
    scan and no not-a-number token. *)
Definition good_scan : message :=
  {| msg_text := scan_text "[1.0, 2.0]"; msg_cloud := None |}.
Definition bad_scan : message :=
  {| msg_text := "ranges: [1.0]"; msg_cloud := None |}.

(** A bag of two scans, the second with a not-a-number range. *)
Definition bag_scans : Bag :=
  {| filename := "scans.bag"; records := [("/scan", good_scan); ("/scan", nan_scan)] |}.

(** A Velodyne cloud whose only point has a NaN coordinate. *)
Definition velodyne_empty_msg : message :=
  {| msg_text := "ab";
     msg_cloud := Some {| pc_fields := ["x"; "y"; "z"; "intensity"; "ring"; "time"];
                          pc_points := [[VFloat nan; VFloat 2; VFloat 3; VFloat 9;
                                         VInt 4; VFloat t_2ms]] |} |}.

End Demo.

(** ** The extractor, given the libraries *)

Section Extraction.

(** A parsed YAML value, [yaml.safe_load] and the subscript [node[key]]. *)
Variable yaml_node : Type.
Variable yaml_safe_load : string -> result yaml_node.
Variable yaml_getitem : yaml_node -> string -> result yaml_node.

(** [LaserProjection().projectLaser(scan)]. *)
Variable projectLaser : LaserScan yaml_node -> result PointCloud2.

(** [utils.tools.msg_to_timestamp], the shared timestamp rule. *)
Variable msg_to_timestamp : pyobj -> Z.

(** [getPathSave] of [BaseExtraction]: the directory of the output. *)
Variable getPathSave : LidarExtraction -> string.

(** Whether Open3D manages to write a given cloud to a given file: the
    state of the file system is not part of the model. *)
Variable write_ok : string -> PointCloud -> bool.

(** [o3d.io.write_point_cloud(filename, cloud)]: the file is written and
    True returned, or, when the write fails, nothing is written and False
    returned, with a warning of Open3D; no exception is raised.  The
    container format is opaque. *)
Definition write_point_cloud (path : string) (cloud : PointCloud) : M bool :=
  if write_ok path cloud
  then write_file path (PlyFile cloud) (EvWritePLY path) ;; ret true
  else log_event (EvWritePLY path) ;; ret false.

(** [savePLY(self, name, points, normals)]; what [write_point_cloud]
    returns is dropped. *)
Definition savePLY (self : LidarExtraction) (name : string) (points normals : ndarray)
    : M unit :=
  path_save <- get_path_save ;;
  let filename := os_path_join path_save name in
  let o3d_cloud := {| points := []; normals := None |} in
  points <- lift (Vector3dVector points) ;;
  let o3d_cloud := set_points o3d_cloud points in
  o3d_cloud <- (if np_any normals
                then normals <- lift (Vector3dVector normals) ;;
                     ret (set_normals o3d_cloud normals)
                else ret o3d_cloud) ;;
  _ <- write_point_cloud filename o3d_cloud ;;
  ret tt.

Definition initialize (self : LidarExtraction) : M unit :=
  print ">> Extracting clouds:" ;;
  set_path_save (getPathSave self).

(** What [loadHokuyo(self, msg)] returns or raises: the YAML text is
    parsed, the scan is built from its ten entries and projected. *)
Definition loadHokuyo_result (msg : string) : result PointCloud2 :=
  data_yaml <~ yaml_safe_load msg ;;
  header <~ yaml_getitem data_yaml "header" ;;
  angle_min <~ yaml_getitem data_yaml "angle_min" ;;
  angle_max <~ yaml_getitem data_yaml "angle_max" ;;
  angle_increment <~ yaml_getitem data_yaml "angle_increment" ;;
  time_increment <~ yaml_getitem data_yaml "time_increment" ;;
  scan_time <~ yaml_getitem data_yaml "scan_time" ;;
  range_min <~ yaml_getitem data_yaml "range_min" ;;
  range_max <~ yaml_getitem data_yaml "range_max" ;;
  ranges <~ yaml_getitem data_yaml "ranges" ;;
  intensities <~ yaml_getitem data_yaml "intensities" ;;
  let scan := {| header := header; angle_min := angle_min;
                 angle_max := angle_max; angle_increment := angle_increment;
                 time_increment := time_increment; scan_time := scan_time;
                 range_min := range_min; range_max := range_max;
                 ranges := ranges; intensities := intensities |} in
  let cloud := projectLaser scan in
  cloud.

(** [loadHokuyo(self, msg)]; every call is recorded in the log. *)
Definition loadHokuyo (self : LidarExtraction) (msg : string) : M PointCloud2 :=
  log_event (EvLoadHokuyo msg) ;;
  lift (loadHokuyo_result msg).

Definition singleHokuyo (self : LidarExtraction) (msg : message) : M unit :=
  let msg := msg_text msg in
  mc <- try_except
          (cloud <- loadHokuyo self msg ;; ret (msg, cloud))
          (fun _ =>
             let msg := str_replace "nan" "60" msg in
             cloud <- loadHokuyo self msg ;; ret (msg, cloud)) ;;
  let '(msg, cloud) := mc in
  let timestamp := msg_to_timestamp (PyStr msg) in
  let filename := (py_str_int timestamp ++ ".ply")%string in
  data_append filename ;;
  xyz_s <- lift (collect hokuyo_point (read_points cloud ["x"; "y"; "z"])) ;;
  let xyz_s := np_array xyz_s in
  let irt_s := np_array [] in
  savePLY self filename xyz_s irt_s.

Definition singleOuster (self : LidarExtraction) (msg : message) : M unit :=
  let field_names := ["x"; "y"; "z"; "intensity"; "t"; "ring"] in
  let timestamp := msg_to_timestamp (PyMsg msg) in
  let filename := (py_str_int timestamp ++ ".ply")%string in
  data_append filename ;;
  points <- lift (read_points_list msg field_names) ;;
  rows <- lift (collect ouster_point points) ;;
  let xyz_s := np_array (map fst rows) in
  let irt_s := np_array (map snd rows) in
  savePLY self filename xyz_s irt_s.

Definition singleVelodyne (self : LidarExtraction) (msg : message) : M unit :=
  let field_names := ["x"; "y"; "z"; "intensity"; "ring"] in
  let timestamp := msg_to_timestamp (PyMsg msg) in
  let filename := (py_str_int timestamp ++ ".ply")%string in
  data_append filename ;;
  points <- lift (read_points_list msg field_names) ;;
  rows <- lift (collect (velodyne_point (available_point_time self)) points) ;;
  let xyz_s := np_array (map fst rows) in
  let irt_s := np_array (map snd rows) in
  savePLY self filename xyz_s irt_s.

(** The body of the inner loop of [extract]: the decoder is chosen by
    [self.sensor]. *)
Definition extract_message (self : LidarExtraction) (msg : message) : M unit :=
  if (sensor self =? Lidar.HOKUYO)%string then singleHokuyo self msg
  else if (sensor self =? Lidar.OUSTER)%string then singleOuster self msg
  else if (sensor self =? Lidar.VELODYNE)%string then singleVelodyne self msg
  else ret tt.

(** The body of the outer loop of [extract]. *)
Definition extract_bag (self : LidarExtraction) (ib : nat * Bag) : M unit :=
  let '(idx, bag) := ib in
  print (py_str_int (Z.of_nat idx + 1) ++ "/"
         ++ py_str_int (Z.of_nat (List.length (bags self))) ++ ": "
         ++ filename bag) ;;
  let bag_msgs := read_messages bag (topic self) in
  for_each (extract_message self) bag_msgs.

Definition extract (self : LidarExtraction) : M unit :=
  if negb (isAvailable self) then ret tt
  else
    initialize self ;;
    data_new ;;
    for_each (extract_bag self)
             (combine (seq 0 (List.length (bags self))) (bags self)) ;;
    data <- data_get ;;
    let data := np_sort data in
    saveCSV self data.

(** ** The vocabulary of the properties *)

(** A computation is additive when it only adds to the lists of the world
    and reads nothing of it but [w_path_save]: it is determined by its run
    in the blank world. *)
Definition additive {A : Type} (c : M A) : Prop :=
  forall w,
    c w = (fst (c (blank (w_path_save w))),
           extend w (snd (c (blank (w_path_save w))))).

(** What one iteration of a loop returns, and what it adds, in the world
    that is empty but for [w_path_save]; what a whole loop adds. *)
Definition outcome {A : Type} (body : A -> M unit) (p : option string) (a : A) : result unit :=
  fst (body a (blank p)).

Definition effect {A : Type} (body : A -> M unit) (p : option string) (a : A) : world :=
  snd (body a (blank p)).

Fixpoint effects {A : Type} (body : A -> M unit) (p : option string) (l : list A) : world :=
  match l with
  | [] => blank p
  | a :: rest => extend (effect body p a) (effects body p rest)
  end.

(** The cloud [savePLY] hands to the writer for the two arrays it is
    given, once they are converted. *)
Definition saved_cloud (pts nrm : ndarray) : PointCloud :=
  {| points := pts; normals := if np_any nrm then Some nrm else None |}.

(** [savePLY] can convert its arrays: the points, and the attributes when
    it assigns them. *)
Definition shapes_fit (pts nrm : ndarray) : bool :=
  is_n_by_3 pts && (negb (np_any nrm) || is_n_by_3 nrm).

(** What a call of the writer leaves on the disk. *)
Definition written (path : string) (cloud : PointCloud) : list (string * file) :=
  if write_ok path cloud then [(path, PlyFile cloud)] else [].

(** The world with [evs] added to its log. *)
Definition add_log (evs : list event) (w : world) : world :=
  {| w_path_save := w_path_save w; w_data := w_data w; w_disk := w_disk w;
     w_stdout := w_stdout w; w_log := w_log w ++ evs |}.

(** The world after [data.append(name)]. *)
Definition appended (name : string) (w : world) : world :=
  snd (data_append name w).

(** The world after [data.append(name)] and the call of the writer on
    [cloud] at [path]. *)
Definition after_frame (name path : string) (cloud : PointCloud) (w : world) : world :=
  snd (write_point_cloud path cloud (appended name w)).

(** The file name of a frame: [str(timestamp) + ".ply"]. *)
Definition ply_name (o : pyobj) : string :=
  (py_str_int (msg_to_timestamp o) ++ ".ply")%string.

(** The arrays [xyz_s] and [irt_s] each decoder computes. *)
Definition hokuyo_frame (cloud : PointCloud2) : result (ndarray * ndarray) :=
  xyz_s <~ collect hokuyo_point (read_points cloud ["x"; "y"; "z"]) ;;
  OK (np_array xyz_s, np_array []).

Definition ouster_frame (msg : message) : result (ndarray * ndarray) :=
  pts <~ read_points_list msg ["x"; "y"; "z"; "intensity"; "t"; "ring"] ;;
  rows <~ collect ouster_point pts ;;
  OK (np_array (map fst rows), np_array (map snd rows)).

Definition velodyne_frame (flag : bool) (msg : message) : result (ndarray * ndarray) :=
  pts <~ read_points_list msg ["x"; "y"; "z"; "intensity"; "ring"] ;;
  rows <~ collect (velodyne_point flag) pts ;;
  OK (np_array (map fst rows), np_array (map snd rows)).

(** A decoder from the append on: the name is appended, the arrays are
    computed, [savePLY] reads [path_save], converts the arrays and calls
    the writer.  An exception on the way leaves the name appended and
    nothing else. *)
Definition frame_step (name : string) (fr : result (ndarray * ndarray)) (w : world)
    : result unit * world :=
  match fr with
  | Raise e => (Raise e, appended name w)
  | OK (pts, nrm) =>
      match w_path_save w with
      | None => (Raise no_path_save, appended name w)
      | Some q =>
          if shapes_fit pts nrm
          then (OK tt, after_frame name (os_path_join q name) (saved_cloud pts nrm) w)
          else (Raise not_n_by_3, appended name w)
      end
  end.

(** The order of [np.sort] on file names. *)
Definition str_le (a b : string) : Prop := String.leb a b = true.

(** The name [extract_message] gives to the frame of a message. *)
Definition frame_name (self : LidarExtraction) (msg : message) : string :=
  if (sensor self =? Lidar.HOKUYO)%string then
    let s := msg_text msg in
    match loadHokuyo_result s with
    | OK _ => ply_name (PyStr s)
    | Raise _ => ply_name (PyStr (str_replace "nan" "60" s))
    end
  else ply_name (PyMsg msg).

(** The calls of [loadHokuyo] that [extract_message] makes. *)
Definition frame_loads (self : LidarExtraction) (msg : message) : list event :=
  if (sensor self =? Lidar.HOKUYO)%string then
    let s := msg_text msg in
    match loadHokuyo_result s with
    | OK _ => [EvLoadHokuyo s]
    | Raise _ => [EvLoadHokuyo s; EvLoadHokuyo (str_replace "nan" "60" s)]
    end
  else [].

(** The cloud the decoder of [self.sensor] reads its points from. *)
Definition input_cloud (self : LidarExtraction) (msg : message) : result PointCloud2 :=
  if (sensor self =? Lidar.HOKUYO)%string then
    let s := msg_text msg in
    match loadHokuyo_result s with
    | OK cloud => OK cloud
    | Raise _ => loadHokuyo_result (str_replace "nan" "60" s)
    end
  else
    match msg_cloud msg with
    | Some cloud => OK cloud
    | None => Raise (AssertionError "cloud is not a sensor_msgs.msg.PointCloud2")
    end.

(** The arrays the decoder of [self.sensor] computes from the cloud. *)
Definition frame_arrays (self : LidarExtraction) (msg : message)
    : result (ndarray * ndarray) :=
  if (sensor self =? Lidar.HOKUYO)%string then
    cloud <~ input_cloud self msg ;; hokuyo_frame cloud
  else if (sensor self =? Lidar.OUSTER)%string then ouster_frame msg
  else velodyne_frame (available_point_time self) msg.

(** [e1] happens before [e2] in a log. *)
Definition precedes (e1 e2 : event) (log : list event) : Prop :=
  exists a b c, log = a ++ e1 :: b ++ e2 :: c.

(** The messages of a run, in the order [extract] processes them. *)
Definition all_messages (self : LidarExtraction) : list message :=
  flat_map (fun bag => read_messages bag (topic self)) (bags self).

(** The lines of the manifest: those of the CSV file written last. *)
Fixpoint last_csv (disk : list (string * file)) : option (list string) :=
  match disk with
  | [] => None
  | (_, f) :: rest =>
      match last_csv rest with
      | Some lines => Some lines
      | None =>
          match f with
          | CsvFile lines => Some lines
          | PlyFile _ => None
          end
      end
  end.

(** The manifest of a world, if one has been written. *)
Definition manifest (w : world) : option (list string) := last_csv (w_disk w).

(** The world once [initialize] has run and [data] is the empty list. *)
Definition started (self : LidarExtraction) (w : world) : world :=
  {| w_path_save := Some (getPathSave self);
     w_data := [];
     w_disk := w_disk w;
     w_stdout := w_stdout w ++ [">> Extracting clouds:"];
     w_log := w_log w |}.

(** [enumerate(self.bags)]. *)
Definition numbered_bags (self : LidarExtraction) : list (nat * Bag) :=
  combine (seq 0 (List.length (bags self))) (bags self).

(** A message decodes: [extract_message] returns normally, here in the
    world that is empty but for [path_save]. *)
Definition decodes (self : LidarExtraction) (p : option string) (m : message) : Prop :=
  outcome (extract_message self) p m = OK tt.

(** The fields each decoder asks [read_points] for. *)
Definition requested_fields (self : LidarExtraction) : list string :=
  if (sensor self =? Lidar.HOKUYO)%string then ["x"; "y"; "z"]
  else if (sensor self =? Lidar.OUSTER)%string
       then ["x"; "y"; "z"; "intensity"; "t"; "ring"]
       else ["x"; "y"; "z"; "intensity"; "ring"].

(** The points the decoder of [self.sensor] reads from a cloud. *)
Definition kept_points (self : LidarExtraction) (cloud : PointCloud2) : list (list value) :=
  read_points cloud (requested_fields self).

(** The row of [xyz_s] for a point read: its first three values, as
    [np.array] stores them. *)
Definition point_xyz (p : list value) : list float :=
  map to_float (firstn 3 p).

(** A message the decoder of [self.sensor] can make a frame of: its cloud
    is there, at least one point is read from it, every point read has one
    value per requested field, and for Velodyne the flag is set. *)
Definition decodable (self : LidarExtraction) (msg : message) : bool :=
  match input_cloud self msg with
  | Raise _ => false
  | OK cloud =>
      let kept := kept_points self cloud in
      negb (List.length kept =? 0)%nat
      && forallb (fun p => (List.length p =? List.length (requested_fields self))%nat) kept
      && implb (sensor self =? Lidar.VELODYNE)%string (available_point_time self)
  end.

(** A point is valid for a list of fields when none of its values for
    these fields is NaN. *)
Definition valid_point (names : list string) (cloud : PointCloud2) (pt : list value) : bool :=
  negb (has_nan (select_fields (pc_fields cloud) names pt)).

(** The cloud without its invalid points. *)
Definition drop_invalid (names : list string) (cloud : PointCloud2) : PointCloud2 :=
  {| pc_fields := pc_fields cloud;
     pc_points := filter (valid_point names cloud) (pc_points cloud) |}.

(** The events that are calls of [loadHokuyo]. *)
Definition is_load (e : event) : bool :=
  match e with
  | EvLoadHokuyo _ => true
  | _ => false
  end.

(** The events that are calls of the point-cloud writer. *)
Definition is_write (e : event) : bool :=
  match e with
  | EvWritePLY _ => true
  | _ => false
  end.

(** The writer succeeds on the frames of the messages [msgs], in the
    directory [q]. *)
Definition writes_succeed (q : string) (self : LidarExtraction) (msgs : list message) : Prop :=
  forall m cloud,
    In m msgs -> write_ok (os_path_join q (frame_name self m)) cloud = true.

(** A disk entry that is a point-cloud file. *)
Definition is_ply (pf : string * file) : bool :=
  match snd pf with
  | PlyFile _ => true
  | CsvFile _ => false
  end.

(** The separator [os.path.join] puts after a directory. *)
Definition path_sep (q : string) : string :=
  match last_char q with
  | None => EmptyString
  | Some c => if (c =? "/")%char then EmptyString else "/"
  end.

(** The disk entry of the frame of a message, in the directory [q]. *)
Definition frame_file (q : string) (self : LidarExtraction) (m : message)
    (pf : string * file) : Prop :=
  exists cloud, pf = (os_path_join q (frame_name self m), PlyFile cloud).

(** The line [extract] prints for a bag. *)
Definition bag_line (self : LidarExtraction) (ib : nat * Bag) : string :=
  (py_str_int (Z.of_nat (fst ib) + 1) ++ "/"
   ++ py_str_int (Z.of_nat (List.length (bags self))) ++ ": "
   ++ filename (snd ib))%string.

(** * Properties *)

(** ** Effects that only add to the world

    Every operation of the decoders adds to the lists of the world and
    reads nothing of it but [w_path_save].  Such a computation is
    determined by its run in the world that is empty but for
    [w_path_save]. *)

Lemma extend_blank_r w : extend w (blank (w_path_save w)) = w.
Proof. destruct w; unfold extend, blank; simpl; rewrite !app_nil_r; reflexivity. Qed.

Lemma extend_assoc w d e : extend (extend w d) e = extend w (extend d e).
Proof. unfold extend; simpl; rewrite !app_assoc; reflexivity. Qed.

Lemma additive_path_save {A : Type} (c : M A) p :
  additive c -> w_path_save (snd (c (blank p))) = p.
Proof. intros H. rewrite (H (blank p)). reflexivity. Qed.

Lemma additive_ret {A : Type} (a : A) : additive (ret a).
Proof. intros w. unfold ret; simpl. rewrite extend_blank_r. reflexivity. Qed.

Lemma additive_lift {A : Type} (r : result A) : additive (lift r).
Proof. intros w. unfold lift; simpl. rewrite extend_blank_r. reflexivity. Qed.

Lemma additive_bind {A B : Type} (c : M A) (k : A -> M B) :
  additive c -> (forall a, additive (k a)) -> additive (bind c k).
Proof.
  intros Hc Hk w. unfold bind.
  pose proof (additive_path_save (w_path_save w) Hc) as Hp.
  rewrite (Hc w).
  destruct (c (blank (w_path_save w))) as [[a | e] d]; simpl in *.
  - rewrite (Hk a (extend w d)), (Hk a d). simpl. rewrite Hp.
    rewrite extend_assoc. reflexivity.
  - reflexivity.
Qed.

Lemma additive_try_except {A : Type} (c : M A) (h : exn -> M A) :
  additive c -> (forall e, additive (h e)) -> additive (try_except c h).
Proof.
  intros Hc Hh w. unfold try_except.
  pose proof (additive_path_save (w_path_save w) Hc) as Hp.
  rewrite (Hc w).
  destruct (c (blank (w_path_save w))) as [[a | e] d]; simpl in *.
  - reflexivity.
  - rewrite (Hh e (extend w d)), (Hh e d). simpl. rewrite Hp.
    rewrite extend_assoc. reflexivity.
Qed.

Lemma additive_log_event e : additive (log_event e).
Proof. intros w. unfold log_event, extend; simpl. rewrite !app_nil_r. reflexivity. Qed.

Lemma additive_print s : additive (print s).
Proof. intros w. unfold print, extend; simpl. rewrite !app_nil_r. reflexivity. Qed.

Lemma additive_data_append s : additive (data_append s).
Proof. intros w. unfold data_append, extend; simpl. rewrite !app_nil_r. reflexivity. Qed.

Lemma additive_write_file p f e : additive (write_file p f e).
Proof. intros w. unfold write_file, extend; simpl. rewrite !app_nil_r. reflexivity. Qed.

Lemma additive_get_path_save : additive get_path_save.
Proof.
  intros [p d k o l]. unfold get_path_save, extend; simpl.
  destruct p; simpl; rewrite !app_nil_r; reflexivity.
Qed.

Lemma additive_for_each {A : Type} (body : A -> M unit) (l : list A) :
  (forall a, additive (body a)) -> additive (for_each body l).
Proof.
  intros Hb. induction l as [| a l IH]; simpl.
  - apply additive_ret.
  - apply additive_bind; [apply Hb | intros _; exact IH].
Qed.

Create HintDb additive.
#[local] Hint Resolve additive_ret additive_lift additive_log_event additive_print
  additive_data_append additive_write_file additive_get_path_save : additive.

Ltac additive :=
  repeat first
    [ progress auto with additive
    | apply additive_bind; [| intro]
    | apply additive_try_except; [| intro]
    | apply additive_for_each; intro
    | match goal with |- additive (let '(_, _) := ?x in _) => destruct x end
    | match goal with |- additive (if ?b then _ else _) => destruct b end ].

Lemma additive_write_point_cloud p c : additive (write_point_cloud p c).
Proof. unfold write_point_cloud. additive. Qed.

#[local] Hint Resolve additive_write_point_cloud : additive.

Lemma additive_savePLY self name pts nrm : additive (savePLY self name pts nrm).
Proof. unfold savePLY. additive. Qed.

Lemma additive_saveCSV self data : additive (saveCSV self data).
Proof. unfold saveCSV. additive. Qed.

#[local] Hint Resolve additive_savePLY additive_saveCSV : additive.

Lemma additive_loadHokuyo self s : additive (loadHokuyo self s).
Proof. unfold loadHokuyo. additive. Qed.

#[local] Hint Resolve additive_loadHokuyo : additive.

Lemma additive_singleHokuyo self msg : additive (singleHokuyo self msg).
Proof. unfold singleHokuyo. additive. Qed.

Lemma additive_singleOuster self msg : additive (singleOuster self msg).
Proof. unfold singleOuster. additive. Qed.

Lemma additive_singleVelodyne self msg : additive (singleVelodyne self msg).
Proof. unfold singleVelodyne. additive. Qed.

Lemma additive_extract_message self msg : additive (extract_message self msg).
Proof.
  unfold extract_message.
  destruct (sensor self =? Lidar.HOKUYO)%string; [apply additive_singleHokuyo |].
  destruct (sensor self =? Lidar.OUSTER)%string; [apply additive_singleOuster |].
  destruct (sensor self =? Lidar.VELODYNE)%string; [apply additive_singleVelodyne |].
  apply additive_ret.
Qed.

Lemma additive_extract_bag self ib : additive (extract_bag self ib).
Proof.
  destruct ib as [idx bag]. unfold extract_bag.
  apply additive_bind; [apply additive_print | intros _].
  apply additive_for_each. intro. apply additive_extract_message.
Qed.

(** ** Loops over additive bodies *)

Section Loops.

Variable A : Type.
Variable body : A -> M unit.
Hypothesis body_additive : forall a, additive (body a).

Lemma for_each_ok (l : list A) w :
  Forall (fun a => outcome body (w_path_save w) a = OK tt) l ->
  for_each body l w = (OK tt, extend w (effects body (w_path_save w) l)).
Proof.
  revert w. induction l as [| a l IH]; intros w H; simpl.
  - unfold ret. rewrite extend_blank_r. reflexivity.
  - inversion H as [| ? ? Ha Hl]; subst.
    unfold bind. rewrite (body_additive a w).
    unfold outcome in Ha. rewrite Ha.
    rewrite IH by exact Hl.
    simpl. rewrite extend_assoc. reflexivity.
Qed.

Lemma for_each_ok_inv (l : list A) w w' :
  for_each body l w = (OK tt, w') ->
  Forall (fun a => outcome body (w_path_save w) a = OK tt) l.
Proof.
  revert w. induction l as [| a l IH]; intros w H; simpl in H.
  - constructor.
  - unfold bind in H. rewrite (body_additive a w) in H.
    unfold outcome.
    destruct (fst (body a (blank (w_path_save w)))) as [[] | e] eqn:E.
    + constructor; [exact E |].
      apply IH in H. exact H.
    + discriminate H.
Qed.

Lemma effects_data p l :
  w_data (effects body p l) = flat_map (fun a => w_data (effect body p a)) l.
Proof. induction l as [| a l IH]; simpl; [| rewrite IH]; reflexivity. Qed.

End Loops.

(** ** What a decoder does to the world *)

Lemma write_point_cloud_run path cloud w :
  snd (write_point_cloud path cloud w)
  = {| w_path_save := w_path_save w; w_data := w_data w;
       w_disk := w_disk w ++ written path cloud; w_stdout := w_stdout w;
       w_log := w_log w ++ [EvWritePLY path] |}.
Proof.
  unfold write_point_cloud, written, bind, write_file, log_event, ret.
  destruct (write_ok path cloud); cbn [snd]; rewrite ?app_nil_r; reflexivity.
Qed.

(** [savePLY] reads [path_save], then converts the arrays, then calls the
    writer, and returns normally whatever the writer returns. *)
Lemma savePLY_run self name pts nrm w :
  savePLY self name pts nrm w =
  match w_path_save w with
  | Some q =>
      if shapes_fit pts nrm
      then (OK tt, snd (write_point_cloud (os_path_join q name) (saved_cloud pts nrm) w))
      else (Raise not_n_by_3, w)
  | None => (Raise no_path_save, w)
  end.
Proof.
  unfold savePLY, get_path_save, Vector3dVector, shapes_fit, saved_cloud,
    set_points, set_normals.
  unfold bind at 1. destruct (w_path_save w) as [q |]; [| reflexivity].
  unfold bind at 1, lift at 1. destruct (is_n_by_3 pts); [| reflexivity].
  cbn [andb points normals]. unfold bind at 1.
  destruct (np_any nrm); cbn [negb orb].
  - unfold bind at 1, lift at 1. destruct (is_n_by_3 nrm); [| reflexivity].
    unfold ret at 1. unfold bind, ret.
    destruct (write_point_cloud _ _ w) as [[b | e] w1] eqn:E.
    + reflexivity.
    + exfalso. unfold write_point_cloud, bind, write_file, log_event, ret in E.
      destruct (write_ok _ _); discriminate E.
  - unfold ret at 1. unfold bind, ret.
    destruct (write_point_cloud _ _ w) as [[b | e] w1] eqn:E.
    + reflexivity.
    + exfalso. unfold write_point_cloud, bind, write_file, log_event, ret in E.
      destruct (write_ok _ _); discriminate E.
Qed.

Ltac finish_frame w :=
  unfold add_log, after_frame, appended, data_append;
  cbn [fst snd w_path_save w_data w_disk w_stdout w_log];
  destruct (w_path_save w);
  cbn [fst snd w_path_save w_data w_disk w_stdout w_log];
  try match goal with |- context [shapes_fit ?a ?b] => destruct (shapes_fit a b) end;
  rewrite ?write_point_cloud_run;
  cbn [fst snd w_path_save w_data w_disk w_stdout w_log];
  rewrite <- ?app_assoc; reflexivity.

Lemma singleOuster_run self msg w :
  singleOuster self msg w = frame_step (ply_name (PyMsg msg)) (ouster_frame msg) w.
Proof.
  unfold singleOuster, frame_step, ouster_frame, bind, lift, rbind, ply_name.
  cbn [data_append fst snd appended].
  destruct (read_points_list msg _) as [pts | e]; [| reflexivity].
  destruct (collect ouster_point pts) as [rows | e]; [| reflexivity].
  rewrite savePLY_run. finish_frame w.
Qed.

Lemma singleVelodyne_run self msg w :
  singleVelodyne self msg w =
  frame_step (ply_name (PyMsg msg)) (velodyne_frame (available_point_time self) msg) w.
Proof.
  unfold singleVelodyne, frame_step, velodyne_frame, bind, lift, rbind, ply_name.
  cbn [data_append fst snd appended].
  destruct (read_points_list msg _) as [pts | e]; [| reflexivity].
  destruct (collect _ pts) as [rows | e]; [| reflexivity].
  rewrite savePLY_run. finish_frame w.
Qed.

Lemma singleHokuyo_run self msg w :
  singleHokuyo self msg w =
  let s := msg_text msg in
  let s' := str_replace "nan" "60" s in
  match loadHokuyo_result s with
  | OK cloud =>
      frame_step (ply_name (PyStr s)) (hokuyo_frame cloud) (add_log [EvLoadHokuyo s] w)
  | Raise _ =>
      match loadHokuyo_result s' with
      | OK cloud =>
          frame_step (ply_name (PyStr s')) (hokuyo_frame cloud)
                     (add_log [EvLoadHokuyo s; EvLoadHokuyo s'] w)
      | Raise e => (Raise e, add_log [EvLoadHokuyo s; EvLoadHokuyo s'] w)
      end
  end.
Proof.
  cbv zeta. unfold singleHokuyo, try_except, loadHokuyo.
  unfold bind, log_event, lift, ret.
  destruct (loadHokuyo_result (msg_text msg)) as [cloud | e1].
  - unfold frame_step, hokuyo_frame, rbind, ply_name, data_append.
    destruct (collect hokuyo_point _) as [rows | e].
    + rewrite savePLY_run. finish_frame w.
    + finish_frame w.
  - destruct (loadHokuyo_result (str_replace "nan" "60" (msg_text msg))) as [cloud | e2].
    + unfold frame_step, hokuyo_frame, rbind, ply_name, data_append.
      destruct (collect hokuyo_point _) as [rows | e].
      * rewrite savePLY_run. finish_frame w.
      * finish_frame w.
    + finish_frame w.
Qed.

(** ** The order of file names and the sort *)

Lemma ascii_compare_lt_trans a b c :
  Ascii.compare a b = Lt -> Ascii.compare b c = Lt -> Ascii.compare a c = Lt.
Proof.
  unfold Ascii.compare. rewrite !N.compare_lt_iff. apply N.lt_trans.
Qed.

Lemma string_compare_refl a : String.compare a a = Eq.
Proof.
  pose proof (String.compare_antisym a a) as H.
  destruct (String.compare a a); simpl in H; congruence.
Qed.

Lemma string_compare_lt_trans a :
  forall b c,
    String.compare a b = Lt -> String.compare b c = Lt -> String.compare a c = Lt.
Proof.
  induction a as [| x a IH]; intros [| y b] [| z c]; simpl; try congruence.
  destruct (Ascii.compare x y) eqn:Exy; try discriminate;
    destruct (Ascii.compare y z) eqn:Eyz; try discriminate; intros Hab Hbc.
  - apply Ascii.compare_eq_iff in Exy, Eyz. subst.
    pose proof (Ascii.compare_antisym z z) as H.
    destruct (Ascii.compare z z); simpl in H; try congruence.
    eapply IH; eassumption.
  - apply Ascii.compare_eq_iff in Exy. subst. rewrite Eyz. reflexivity.
  - apply Ascii.compare_eq_iff in Eyz. subst. rewrite Exy. reflexivity.
  - rewrite (ascii_compare_lt_trans _ _ _ Exy Eyz). reflexivity.
Qed.

Lemma str_le_cases a b : str_le a b <-> String.compare a b = Lt \/ a = b.
Proof.
  unfold str_le, String.leb. split.
  - destruct (String.compare a b) eqn:E; try discriminate; intros _.
    + right. apply String.compare_eq_iff. exact E.
    + left. reflexivity.
  - intros [-> | ->]; [reflexivity | rewrite string_compare_refl; reflexivity].
Qed.

Lemma str_le_trans a b c : str_le a b -> str_le b c -> str_le a c.
Proof.
  rewrite !str_le_cases. intros [Hab | ->] [Hbc | ->]; auto.
  left. eapply string_compare_lt_trans; eassumption.
Qed.

Lemma str_le_antisym a b : str_le a b -> str_le b a -> a = b.
Proof. apply String.leb_antisym. Qed.

Lemma sorted_permutation_unique (l1 : list string) :
  forall l2,
    StronglySorted str_le l1 -> StronglySorted str_le l2 ->
    Permutation l1 l2 -> l1 = l2.
Proof.
  induction l1 as [| x l1 IH]; intros l2 S1 S2 P.
  - apply Permutation_nil in P. congruence.
  - destruct l2 as [| y l2].
    + apply Permutation_sym, Permutation_nil in P. discriminate.
    + inversion S1 as [| ? ? S1' F1]; inversion S2 as [| ? ? S2' F2]; subst.
      assert (x = y) as ->.
      { assert (In x (y :: l2)) as Hx
          by (eapply Permutation_in; [exact P | left; reflexivity]).
        assert (In y (x :: l1)) as Hy
          by (eapply Permutation_in; [apply Permutation_sym; exact P | left; reflexivity]).
        destruct Hx as [-> | Hx]; [reflexivity |].
        destruct Hy as [-> | Hy]; [reflexivity |].
        rewrite Forall_forall in F1, F2.
        apply str_le_antisym; auto. }
      f_equal. apply IH; auto.
      eapply Permutation_cons_inv. exact P.
Qed.

Lemma np_sort_sorted l : StronglySorted str_le (np_sort l).
Proof.
  unfold np_sort. apply NpSort.StronglySorted_sort.
  intros a b c. apply str_le_trans.
Qed.

Lemma np_sort_permutation l : Permutation l (np_sort l).
Proof. apply NpSort.Permuted_sort. Qed.

Lemma np_sort_invariant l1 l2 : Permutation l1 l2 -> np_sort l1 = np_sort l2.
Proof.
  intros P. apply sorted_permutation_unique; try apply np_sort_sorted.
  eapply Permutation_trans; [apply Permutation_sym, np_sort_permutation |].
  eapply Permutation_trans; [exact P | apply np_sort_permutation].
Qed.

(** ** The substitution of the not-a-number token *)

Lemma prefix_spec p : forall s, prefix p s = true <-> exists b, s = (p ++ b)%string.
Proof.
  induction p as [| a p IH]; intros s.
  - split; [intros _; exists s; reflexivity | intros _; destruct s; reflexivity].
  - destruct s as [| c s]; simpl.
    + split; [discriminate | intros [b H]; discriminate H].
    + destruct (ascii_dec a c) as [-> | N].
      * rewrite IH. split; intros [b H]; exists b; congruence.
      * split; [discriminate | intros [b H]; congruence].
Qed.

Lemma occurs_in_spec pat s :
  occurs_in pat s = true <-> exists a b, s = (a ++ pat ++ b)%string.
Proof.
  induction s as [| c s IH]; cbn [occurs_in].
  - rewrite orb_false_r, prefix_spec. split.
    + intros [b H]. exists EmptyString, b. exact H.
    + intros [[| x a] [b H]]; [exists b; exact H | discriminate H].
  - rewrite orb_true_iff, IH, prefix_spec.
    split.
    + intros [[b H] | [a [b H]]].
      * exists EmptyString, b. exact H.
      * exists (String c a), b. simpl. congruence.
    + intros [[| x a] [b H]].
      * left. exists b. exact H.
      * right. exists a, b. simpl in H. congruence.
Qed.

Lemma prefix_cons a p c s :
  prefix (String a p) (String c s) = if ascii_dec a c then prefix p s else false.
Proof. reflexivity. Qed.

Lemma prefix_nil s : prefix EmptyString s = true.
Proof. destruct s; reflexivity. Qed.

Ltac decide_ascii :=
  repeat match goal with
         | |- context [ascii_dec ?a ?b] =>
             destruct (ascii_dec a b); try discriminate; try congruence
         | H : context [ascii_dec ?a ?b] |- _ =>
             destruct (ascii_dec a b); try discriminate; try congruence
         end.

Lemma replace_nan_prefix_n s :
  prefix "n" (replace_from 0 "nan" "60" s) = true -> prefix "n" s = true.
Proof.
  destruct s as [| c s]; cbn [replace_from]; [discriminate |].
  destruct (prefix "nan" (String c s)); cbn [append];
    rewrite !prefix_cons, ?prefix_nil; intros H; decide_ascii.
Qed.

Lemma replace_nan_prefix_an s :
  prefix "an" (replace_from 0 "nan" "60" s) = true -> prefix "an" s = true.
Proof.
  destruct s as [| c s]; cbn [replace_from]; [discriminate |].
  destruct (prefix "nan" (String c s)); cbn [append];
    rewrite !prefix_cons; intros H; decide_ascii.
  apply replace_nan_prefix_n. exact H.
Qed.

Lemma replace_from_no_nan s :
  forall k, occurs_in "nan" (replace_from k "nan" "60" s) = false.
Proof.
  induction s as [| c s IH]; intros k.
  - reflexivity.
  - destruct k as [| k]; cbn [replace_from]; [| apply IH].
    destruct (prefix "nan" (String c s)) eqn:E.
    + cbn [append String.length Nat.sub occurs_in]. rewrite IH.
      rewrite !prefix_cons. decide_ascii. reflexivity.
    + cbn [occurs_in]. rewrite IH, orb_false_r.
      rewrite prefix_cons in *.
      destruct (ascii_dec "n" c); [| reflexivity].
      destruct (prefix "an" (replace_from 0 "nan" "60" s)) eqn:F; [| reflexivity].
      apply replace_nan_prefix_an in F. congruence.
Qed.

Lemma str_replace_no_nan s : occurs_in "nan" (str_replace "nan" "60" s) = false.
Proof. apply replace_from_no_nan. Qed.

(** ** One message *)

Lemma add_log_nil w : add_log [] w = w.
Proof. destruct w. unfold add_log. simpl. rewrite app_nil_r. reflexivity. Qed.

Lemma supported_cases self :
  py_in (sensor self) Lidar.list = true ->
  sensor self = Lidar.HOKUYO \/ sensor self = Lidar.OUSTER \/ sensor self = Lidar.VELODYNE.
Proof.
  unfold py_in, Lidar.list. cbn [existsb]. rewrite !orb_true_iff, !String.eqb_eq.
  intuition discriminate.
Qed.

(** [extract_message] for a supported sensor, as one case analysis: a
    Hokuyo message whose second load fails raises before anything is
    appended; otherwise the name of the frame is appended, the arrays are
    computed and handed to [savePLY]. *)
Lemma extract_message_run self msg w :
  py_in (sensor self) Lidar.list = true ->
  extract_message self msg w =
  match input_cloud self msg with
  | Raise e =>
      if (sensor self =? Lidar.HOKUYO)%string
      then (Raise e, add_log (frame_loads self msg) w)
      else frame_step (frame_name self msg) (frame_arrays self msg) w
  | OK _ =>
      frame_step (frame_name self msg) (frame_arrays self msg)
                 (add_log (frame_loads self msg) w)
  end.
Proof.
  intros S. unfold extract_message, frame_name, frame_loads, frame_arrays, input_cloud.
  destruct (supported_cases self S) as [E | [E | E]]; rewrite E; cbn [String.eqb Ascii.eqb Bool.eqb Lidar.HOKUYO Lidar.OUSTER Lidar.VELODYNE].
  - rewrite singleHokuyo_run. cbv zeta.
    destruct (loadHokuyo_result (msg_text msg)) as [c | e1]; [reflexivity |].
    destruct (loadHokuyo_result (str_replace "nan" "60" (msg_text msg))); reflexivity.
  - rewrite singleOuster_run.
    destruct (msg_cloud msg); rewrite ?add_log_nil; reflexivity.
  - rewrite singleVelodyne_run.
    destruct (msg_cloud msg); rewrite ?add_log_nil; reflexivity.
Qed.

Lemma frame_step_ok name fr w w' :
  frame_step name fr w = (OK tt, w') ->
  exists pts nrm q,
    fr = OK (pts, nrm) /\ w_path_save w = Some q /\
    shapes_fit pts nrm = true /\
    w' = after_frame name (os_path_join q name) (saved_cloud pts nrm) w.
Proof.
  unfold frame_step. destruct fr as [[pts nrm] | e]; [| discriminate].
  destruct (w_path_save w) as [q |]; [| discriminate].
  destruct (shapes_fit pts nrm) eqn:Hs; [| discriminate].
  intros H. injection H as <-. exists pts, nrm, q. auto.
Qed.

Lemma frame_step_success name pts nrm q w :
  w_path_save w = Some q ->
  shapes_fit pts nrm = true ->
  frame_step name (OK (pts, nrm)) w =
  (OK tt, after_frame name (os_path_join q name) (saved_cloud pts nrm) w).
Proof. unfold frame_step. intros -> ->. reflexivity. Qed.

Lemma frame_step_misfit name pts nrm q w :
  w_path_save w = Some q ->
  shapes_fit pts nrm = false ->
  frame_step name (OK (pts, nrm)) w = (Raise not_n_by_3, appended name w).
Proof. unfold frame_step. intros -> ->. reflexivity. Qed.

Lemma extract_message_ok self msg w w' :
  py_in (sensor self) Lidar.list = true ->
  extract_message self msg w = (OK tt, w') ->
  exists cloud pts nrm q,
    input_cloud self msg = OK cloud /\
    frame_arrays self msg = OK (pts, nrm) /\
    w_path_save w = Some q /\
    shapes_fit pts nrm = true /\
    w' = after_frame (frame_name self msg)
                     (os_path_join q (frame_name self msg))
                     (saved_cloud pts nrm)
                     (add_log (frame_loads self msg) w).
Proof.
  intros S H. rewrite (extract_message_run self msg w S) in H.
  destruct (input_cloud self msg) as [cloud | e] eqn:Ec.
  - apply frame_step_ok in H. destruct H as (pts & nrm & q & Ha & Hq & Hs & Hw).
    exists cloud, pts, nrm, q. auto.
  - exfalso. destruct (sensor self =? Lidar.HOKUYO)%string eqn:Eh; [discriminate |].
    apply frame_step_ok in H. destruct H as (pts & nrm & q & Ha & _).
    unfold frame_arrays in Ha. rewrite Eh in Ha.
    unfold input_cloud in Ec. rewrite Eh in Ec.
    unfold ouster_frame, velodyne_frame, read_points_list in Ha.
    destruct (msg_cloud msg); [discriminate |].
    destruct (sensor self =? Lidar.OUSTER)%string; discriminate.
Qed.

(** The decoders use nothing of [self] but the sensor type and the flag. *)
Lemma extract_message_config self1 self2 msg w :
  py_in (sensor self1) Lidar.list = true ->
  sensor self1 = sensor self2 ->
  available_point_time self1 = available_point_time self2 ->
  extract_message self1 msg w = extract_message self2 msg w.
Proof.
  intros S Es Ef.
  rewrite (extract_message_run self1 msg w S).
  rewrite (extract_message_run self2 msg w) by (rewrite <- Es; exact S).
  unfold input_cloud, frame_loads, frame_name, frame_arrays, input_cloud.
  rewrite Es, Ef. reflexivity.
Qed.

Lemma frame_name_config self1 self2 msg :
  sensor self1 = sensor self2 -> frame_name self1 msg = frame_name self2 msg.
Proof. intros E. unfold frame_name. rewrite E. reflexivity. Qed.

Lemma frame_name_shape self msg :
  exists o, frame_name self msg = (py_str_int (msg_to_timestamp o) ++ ".ply")%string.
Proof.
  unfold frame_name, ply_name.
  destruct (sensor self =? Lidar.HOKUYO)%string; [| eexists; reflexivity].
  cbv zeta. destruct (loadHokuyo_result (msg_text msg)); eexists; reflexivity.
Qed.

Lemma after_frame_fields name path cloud w :
  w_path_save (after_frame name path cloud w) = w_path_save w /\
  w_data (after_frame name path cloud w) = w_data w ++ [name] /\
  w_disk (after_frame name path cloud w) = w_disk w ++ written path cloud /\
  w_stdout (after_frame name path cloud w) = w_stdout w /\
  w_log (after_frame name path cloud w) = w_log w ++ [EvAppend name; EvWritePLY path].
Proof.
  unfold after_frame, appended, data_append. rewrite write_point_cloud_run.
  cbn [fst snd w_path_save w_data w_disk w_stdout w_log].
  rewrite <- app_assoc. auto.
Qed.

(** C8, as amended: for every message a supported decoder processes
    successfully, the file name is appended to [data] first, and the
    point-cloud file of the frame is written only afterwards; these are the
    last two effects of the call, after the loads of a Hokuyo scan. *)
Theorem append_then_write self msg w w' :
  py_in (sensor self) Lidar.list = true ->
  extract_message self msg w = (OK tt, w') ->
  exists q,
    w_path_save w = Some q /\
    w_log w' = w_log w ++ frame_loads self msg
               ++ [EvAppend (frame_name self msg);
                   EvWritePLY (os_path_join q (frame_name self msg))] /\
    precedes (EvAppend (frame_name self msg))
             (EvWritePLY (os_path_join q (frame_name self msg)))
             (w_log w').
Proof.
  intros S H.
  destruct (extract_message_ok self msg w S H)
    as (cloud & pts & nrm & q & _ & _ & Hq & _ & ->).
  exists q. split; [exact Hq |].
  destruct (after_frame_fields (frame_name self msg)
              (os_path_join q (frame_name self msg)) (saved_cloud pts nrm)
              (add_log (frame_loads self msg) w)) as (_ & _ & _ & _ & Hl).
  rewrite Hl. unfold add_log. cbn [w_log]. rewrite <- app_assoc.
  split; [reflexivity |].
  exists (w_log w ++ frame_loads self msg), [], []. rewrite <- app_assoc. reflexivity.
Qed.

(** ** A whole run *)

Lemma last_csv_app disk path lines :
  last_csv (disk ++ [(path, CsvFile lines)]) = Some lines.
Proof.
  induction disk as [| [p f] disk IH]; cbn [app last_csv]; [reflexivity |].
  rewrite IH. reflexivity.
Qed.

Lemma isAvailable_false self : isAvailable self = false <-> all_messages self = [].
Proof.
  unfold isAvailable, all_messages.
  induction (bags self) as [| bag l IH]; cbn [existsb flat_map].
  - tauto.
  - rewrite orb_false_iff, IH, negb_false_iff, Nat.eqb_eq, length_zero_iff_nil.
    split.
    + intros [-> ->]. reflexivity.
    + intros H. apply app_eq_nil in H. exact H.
Qed.

Lemma extract_unavailable self w :
  isAvailable self = false -> extract self w = (OK tt, w).
Proof. unfold extract. intros ->. reflexivity. Qed.

Lemma extract_available self w :
  isAvailable self = true ->
  extract self w =
  (for_each (extract_bag self) (numbered_bags self) ;;
   data <- data_get ;;
   saveCSV self (np_sort data)) (started self w).
Proof. unfold extract. intros ->. reflexivity. Qed.

Lemma map_snd_combine_seq {A : Type} (l : list A) :
  forall s, map snd (combine (seq s (List.length l)) l) = l.
Proof.
  induction l as [| a l IH]; intros s; cbn; [| rewrite IH]; reflexivity.
Qed.

Lemma flat_map_snd {A B C : Type} (f : B -> list C) (l : list (A * B)) :
  flat_map (fun ab => f (snd ab)) l = flat_map f (map snd l).
Proof. induction l as [| a l IH]; cbn; [| rewrite IH]; reflexivity. Qed.

Lemma numbered_bags_messages self :
  flat_map (fun ib => read_messages (snd ib) (topic self)) (numbered_bags self)
  = all_messages self.
Proof.
  unfold numbered_bags, all_messages.
  rewrite (flat_map_snd (fun bag => read_messages bag (topic self))).
  rewrite map_snd_combine_seq. reflexivity.
Qed.

Section Run.

Variable self : LidarExtraction.
Hypothesis supported : py_in (sensor self) Lidar.list = true.

Lemma message_effect_data p m :
  decodes self p m -> w_data (effect (extract_message self) p m) = [frame_name self m].
Proof.
  unfold decodes, outcome, effect. intros H.
  destruct (extract_message self m (blank p)) as [r w1] eqn:E. cbn [fst snd] in *. subst r.
  destruct (extract_message_ok self m (blank p) supported E)
    as (cloud & pts & nrm & q & _ & _ & _ & _ & ->).
  destruct (after_frame_fields (frame_name self m)
              (os_path_join q (frame_name self m)) (saved_cloud pts nrm)
              (add_log (frame_loads self m) (blank p))) as (_ & Hd & _).
  rewrite Hd. reflexivity.
Qed.

Lemma messages_effect_data p ms :
  Forall (decodes self p) ms ->
  w_data (effects (extract_message self) p ms) = map (frame_name self) ms.
Proof.
  intros F. rewrite effects_data.
  induction F as [| m ms Hm _ IH]; cbn [flat_map map]; [reflexivity |].
  rewrite message_effect_data by exact Hm. rewrite IH. reflexivity.
Qed.

Lemma extract_bag_outcome p ib :
  outcome (extract_bag self) p ib = OK tt <->
  Forall (decodes self p) (read_messages (snd ib) (topic self)).
Proof.
  destruct ib as [idx bag]. unfold outcome at 1, extract_bag, bind, print. cbn [snd].
  set (w1 := {| w_path_save := w_path_save (blank p); w_data := _; w_disk := _;
                w_stdout := _; w_log := _ |}).
  split.
  - intros H.
    destruct (for_each (extract_message self) (read_messages bag (topic self)) w1)
      as [r w2] eqn:E.
    cbn [fst] in H. subst r.
    apply (for_each_ok_inv (extract_message self) (additive_extract_message self)) in E. exact E.
  - intros F.
    rewrite (for_each_ok (extract_message self) (additive_extract_message self) w1) by exact F.
    reflexivity.
Qed.

Lemma extract_bag_effect_data p ib :
  outcome (extract_bag self) p ib = OK tt ->
  w_data (effect (extract_bag self) p ib)
  = map (frame_name self) (read_messages (snd ib) (topic self)).
Proof.
  intros H. apply extract_bag_outcome in H.
  destruct ib as [idx bag]. unfold effect, extract_bag, bind, print. cbn [snd] in *.
  set (w1 := {| w_path_save := w_path_save (blank p); w_data := _; w_disk := _;
                w_stdout := _; w_log := _ |}).
  rewrite (for_each_ok (extract_message self) (additive_extract_message self) w1) by exact H.
  cbn [snd extend w_data w1 blank app]. apply messages_effect_data. exact H.
Qed.

Lemma bags_outcome p ibs :
  Forall (fun ib => outcome (extract_bag self) p ib = OK tt) ibs <->
  Forall (decodes self p) (flat_map (fun ib => read_messages (snd ib) (topic self)) ibs).
Proof.
  induction ibs as [| ib ibs IH]; cbn [flat_map].
  - split; constructor.
  - rewrite Forall_app, <- IH, <- extract_bag_outcome. split.
    + intros H. inversion H; subst. auto.
    + intros [H1 H2]. constructor; assumption.
Qed.

Lemma bags_effect_data p ibs :
  Forall (fun ib => outcome (extract_bag self) p ib = OK tt) ibs ->
  w_data (effects (extract_bag self) p ibs)
  = map (frame_name self)
        (flat_map (fun ib => read_messages (snd ib) (topic self)) ibs).
Proof.
  intros F. rewrite effects_data.
  induction F as [| ib ibs Hib _ IH]; cbn [flat_map]; [reflexivity |].
  rewrite map_app, extract_bag_effect_data by exact Hib. rewrite IH. reflexivity.
Qed.

(** A run that has messages succeeds exactly when every message decodes;
    its manifest is then the header line followed by the sorted names. *)
Lemma extract_ok_inv w w' :
  isAvailable self = true ->
  extract self w = (OK tt, w') ->
  Forall (decodes self (Some (getPathSave self))) (all_messages self).
Proof.
  intros Av H. rewrite (extract_available self w Av) in H.
  unfold bind at 1 in H.
  destruct (for_each (extract_bag self) (numbered_bags self) (started self w))
    as [[[] | e] w1] eqn:E; [| discriminate].
  apply (for_each_ok_inv (extract_bag self) (additive_extract_bag self)) in E.
  cbn [started w_path_save] in E.
  apply bags_outcome in E. rewrite numbered_bags_messages in E. exact E.
Qed.

Lemma extract_ok w :
  isAvailable self = true ->
  Forall (decodes self (Some (getPathSave self))) (all_messages self) ->
  exists w',
    extract self w = (OK tt, w') /\
    manifest w' = Some (np_savetxt_lines
                          (np_sort (map (frame_name self) (all_messages self)))
                          CLOUD_HEADER "# ").
Proof.
  intros Av F. rewrite (extract_available self w Av).
  rewrite <- numbered_bags_messages in F. apply bags_outcome in F.
  unfold bind at 1.
  rewrite (for_each_ok (extract_bag self) (additive_extract_bag self) (started self w)) by exact F.
  unfold bind, data_get, saveCSV, bind, get_path_save, write_file.
  cbn [extend started w_path_save w_data w_disk w_stdout w_log app fst snd].
  eexists. split; [reflexivity |].
  unfold manifest. cbn [w_disk]. rewrite last_csv_app.
  rewrite bags_effect_data by exact F.
  rewrite numbered_bags_messages. reflexivity.
Qed.

End Run.

Lemma decodes_config self1 self2 p m :
  py_in (sensor self1) Lidar.list = true ->
  sensor self2 = sensor self1 ->
  available_point_time self2 = available_point_time self1 ->
  decodes self1 p m -> decodes self2 p m.
Proof.
  unfold decodes, outcome. intros S Es Ef H.
  rewrite <- (extract_message_config self1 self2 m (blank p)); auto.
Qed.

(** C3: the manifest a run emits is the header line followed by the file
    names in ascending order of [String.leb], and a run over any
    permutation of the same messages, with the same configuration, emits
    the same manifest. *)
Theorem manifest_sorted_and_order_invariant self1 self2 w w1 :
  py_in (sensor self1) Lidar.list = true ->
  sensor self2 = sensor self1 ->
  available_point_time self2 = available_point_time self1 ->
  getPathSave self2 = getPathSave self1 ->
  Permutation (all_messages self1) (all_messages self2) ->
  extract self1 w = (OK tt, w1) ->
  (exists w2, extract self2 w = (OK tt, w2) /\ manifest w2 = manifest w1) /\
  (isAvailable self1 = true ->
   exists rows,
     manifest w1 = Some (("# " ++ CLOUD_HEADER)%string :: rows) /\
     StronglySorted str_le rows /\
     Permutation rows (map (frame_name self1) (all_messages self1))).
Proof.
  intros S Es Ef Ep P H.
  assert (S2 : py_in (sensor self2) Lidar.list = true) by (rewrite Es; exact S).
  destruct (isAvailable self1) eqn:Av.
  - pose proof (extract_ok_inv self1 w Av H) as F.
    destruct (extract_ok S w Av F) as (w1' & H1 & M1).
    rewrite H in H1. injection H1 as <-.
    assert (Av2 : isAvailable self2 = true).
    { destruct (isAvailable self2) eqn:A2; [reflexivity |].
      apply isAvailable_false in A2. rewrite A2 in P.
      apply Permutation_sym, Permutation_nil in P.
      apply isAvailable_false in P. congruence. }
    assert (F2 : Forall (decodes self2 (Some (getPathSave self2))) (all_messages self2)).
    { rewrite Ep. eapply Permutation_Forall; [exact P |].
      eapply Forall_impl; [| exact F].
      intros m. apply decodes_config; auto. }
    destruct (extract_ok S2 w Av2 F2) as (w2 & H2 & M2).
    split.
    + exists w2. split; [exact H2 |].
      rewrite M1, M2. do 2 f_equal.
      apply np_sort_invariant.
      rewrite (map_ext _ _ (fun m => frame_name_config self2 self1 m Es)).
      apply Permutation_map, Permutation_sym, P.
    + intros _. eexists. split; [exact M1 |].
      split; [apply np_sort_sorted |].
      apply Permutation_sym, np_sort_permutation.
  - rewrite (extract_unavailable self1 w Av) in H. injection H as <-.
    split; [| discriminate].
    exists w. split; [| reflexivity].
    apply extract_unavailable. apply isAvailable_false.
    apply isAvailable_false in Av. rewrite Av in P.
    apply Permutation_nil in P. exact P.
Qed.

(** C9: when no message is available on the configured topic (there is
    no bag, or no bag holds a message of the topic), [extract] returns
    normally and leaves the world as it was: no point-cloud file, no
    manifest, nothing printed. *)
Theorem extract_skips_when_unavailable self w :
  all_messages self = [] ->
  extract self w = (OK tt, w).
Proof. intros H. apply extract_unavailable, isAvailable_false, H. Qed.

Lemma py_in_spec x l : py_in x l = true <-> In x l.
Proof.
  unfold py_in. rewrite existsb_exists. split.
  - intros (y & Hy & E). apply String.eqb_eq in E. subst. exact Hy.
  - intros H. exists x. split; [exact H | apply String.eqb_refl].
Qed.

(** C7: the constructor accepts the three sensor types of [Lidar.list]
    and raises a ValueError on any other; in both cases it leaves the
    world as it was, so the error comes before any message is processed
    and before any file is written. *)
Theorem init_checks_sensor_type topic0 bags0 path_root0 lidar w :
  (In lidar [Lidar.HOKUYO; Lidar.OUSTER; Lidar.VELODYNE] ->
   __init__ topic0 bags0 path_root0 lidar w =
   (OK {| topic := topic0; bags := bags0; path_root := path_root0;
          name := lidar; sensor := lidar; available_point_time := false |}, w)) /\
  (~ In lidar [Lidar.HOKUYO; Lidar.OUSTER; Lidar.VELODYNE] ->
   __init__ topic0 bags0 path_root0 lidar w =
   (Raise (ValueError (dquote ++ lidar ++ dquote ++ " lidar sensor type not supported")), w)).
Proof.
  unfold __init__, BaseExtraction_init, bind, ret, lift.
  change [Lidar.HOKUYO; Lidar.OUSTER; Lidar.VELODYNE] with Lidar.list.
  split; intros H.
  - apply py_in_spec in H. rewrite H. reflexivity.
  - destruct (py_in lidar Lidar.list) eqn:E; [| reflexivity].
    apply py_in_spec in E. contradiction.
Qed.

(** ** The writer *)

Lemma np_any_spec a :
  np_any a = true <->
  exists row x, In row a /\ In x row /\ (x =? 0)%float = false.
Proof.
  unfold np_any. rewrite existsb_exists. split.
  - intros (row & Hr & H). apply existsb_exists in H. destruct H as (x & Hx & H).
    apply negb_true_iff in H. exists row, x. auto.
  - intros (row & x & Hr & Hx & H). exists row. split; [exact Hr |].
    apply existsb_exists. exists x. split; [exact Hx |].
    apply negb_true_iff. exact H.
Qed.

Lemma np_any_false a :
  np_any a = false <->
  forall row x, In row a -> In x row -> (x =? 0)%float = true.
Proof.
  split.
  - intros H row x Hr Hx.
    destruct (x =? 0)%float eqn:E; [reflexivity |].
    assert (np_any a = true) by (apply np_any_spec; exists row, x; auto).
    congruence.
  - intros H. destruct (np_any a) eqn:E; [| reflexivity].
    apply np_any_spec in E. destruct E as (row & x & Hr & Hx & E).
    rewrite (H row x Hr Hx) in E. discriminate.
Qed.

Lemma hokuyo_frame_no_attributes cloud pts nrm :
  hokuyo_frame cloud = OK (pts, nrm) -> nrm = [].
Proof.
  unfold hokuyo_frame, rbind.
  destruct (collect hokuyo_point _); [| discriminate].
  intros H. injection H as _ <-. reflexivity.
Qed.

Lemma is_n_by_3_spec a :
  is_n_by_3 a = true <-> a <> [] /\ Forall (fun row => List.length row = 3%nat) a.
Proof.
  unfold is_n_by_3. destruct a as [| r a].
  - split; [discriminate | intros [H _]; contradiction].
  - rewrite forallb_forall, Forall_forall. split.
    + intros H. split; [discriminate |]. intros x Hx. apply Nat.eqb_eq, H, Hx.
    + intros [_ H] x Hx. apply Nat.eqb_eq, H, Hx.
Qed.

Lemma np_any_nonempty a : np_any a = true -> a <> [].
Proof. intros H ->. discriminate H. Qed.

Lemma shapes_fit_points pts nrm : shapes_fit pts nrm = true -> pts <> [].
Proof.
  unfold shapes_fit. intros H. apply andb_true_iff in H. destruct H as [H _].
  apply is_n_by_3_spec in H. apply H.
Qed.

(** C6: given an array of points it can convert, [savePLY] hands the
    points to the writer, with the attribute array as the normals exactly
    when some value of the array differs from zero; the normals are left
    out when the array is empty or holds only zeros.  The file is the one
    the writer leaves.  An array of points that has not the shape (n, 3),
    the empty one in particular, raises before the writer is called.  The
    cloud of a Hokuyo frame never has normals. *)
Theorem normals_written_iff_nonzero self name0 pts nrm w q :
  w_path_save w = Some q ->
  (is_n_by_3 pts = true ->
   (np_any nrm = true -> is_n_by_3 nrm = true) ->
   exists cloud w',
     savePLY self name0 pts nrm w = (OK tt, w') /\
     w_log w' = w_log w ++ [EvWritePLY (os_path_join q name0)] /\
     w_disk w' = w_disk w ++ written (os_path_join q name0) cloud /\
     points cloud = pts /\
     (normals cloud = Some nrm <->
      exists row x, In row nrm /\ In x row /\ (x =? 0)%float = false) /\
     (normals cloud = None <->
      forall row x, In row nrm -> In x row -> (x =? 0)%float = true) /\
     (nrm = np_array [] -> normals cloud = None)) /\
  (is_n_by_3 pts = false ->
   savePLY self name0 pts nrm w = (Raise not_n_by_3, w)) /\
  (forall msg w2,
      singleHokuyo self msg w = (OK tt, w2) ->
      exists path cloud,
        w_disk w2 = w_disk w ++ written path cloud /\
        normals cloud = None /\ is_n_by_3 (points cloud) = true).
Proof.
  intros Hq. split; [| split].
  - intros Hp Hn. exists (saved_cloud pts nrm). eexists.
    rewrite savePLY_run, Hq.
    assert (Hs : shapes_fit pts nrm = true).
    { unfold shapes_fit. rewrite Hp. destruct (np_any nrm); [apply Hn |]; reflexivity. }
    rewrite Hs, write_point_cloud_run.
    split; [reflexivity |]. cbn [w_log w_disk points normals saved_cloud].
    split; [reflexivity |]. split; [reflexivity |]. split; [reflexivity |].
    rewrite <- np_any_spec, <- np_any_false.
    destruct (np_any nrm) eqn:E.
    + repeat split; try congruence. intros ->. discriminate E.
    + repeat split; congruence.
  - intros Hp. rewrite savePLY_run, Hq. unfold shapes_fit. rewrite Hp. reflexivity.
  - intros msg w2 H. rewrite singleHokuyo_run in H. cbv zeta in H.
    assert (forall nm cloud evs,
               frame_step nm (hokuyo_frame cloud) (add_log evs w) = (OK tt, w2) ->
               exists path c, w_disk w2 = w_disk w ++ written path c
                              /\ normals c = None /\ is_n_by_3 (points c) = true) as K.
    { intros nm cloud evs K. apply frame_step_ok in K.
      destruct K as (p & n & q' & Ha & _ & Hs & ->).
      apply hokuyo_frame_no_attributes in Ha. subst n.
      destruct (after_frame_fields nm (os_path_join q' nm) (saved_cloud p [])
                  (add_log evs w)) as (_ & _ & Hd & _).
      rewrite Hd. eexists. eexists. split; [reflexivity |]. split; [reflexivity |].
      unfold shapes_fit in Hs. apply andb_true_iff in Hs. apply Hs. }
    destruct (loadHokuyo_result (msg_text msg)); [eapply K; exact H |].
    destruct (loadHokuyo_result (str_replace "nan" "60" (msg_text msg)));
      [eapply K; exact H | discriminate].
Qed.

(** ** The decoders *)

Lemma collect_length {A B : Type} (body : A -> result B) (l : list A) :
  forall rows, collect body l = OK rows -> List.length rows = List.length l.
Proof.
  induction l as [| a l IH]; intros rows; cbn [collect]; unfold rbind.
  - intros H. injection H as <-. reflexivity.
  - destruct (body a); [| discriminate].
    destruct (collect body l) as [bs |]; [| discriminate].
    intros H. injection H as <-. cbn [List.length]. f_equal. apply IH. reflexivity.
Qed.

Lemma collect_Forall2 {A B : Type} (body : A -> result B) (P : A -> B -> Prop) (l : list A) :
  (forall a b, body a = OK b -> P a b) ->
  forall rows, collect body l = OK rows -> Forall2 P l rows.
Proof.
  intros HP. induction l as [| a l IH]; intros rows; cbn [collect]; unfold rbind.
  - intros H. injection H as <-. constructor.
  - destruct (body a) as [b |] eqn:E; [| discriminate].
    destruct (collect body l) as [bs |]; [| discriminate].
    intros H. injection H as <-. constructor; [apply HP, E | apply IH; reflexivity].
Qed.

Lemma collect_Point_make names (l : list (list value)) :
  forall pts,
    collect (Point_make names) l = OK pts ->
    pts = l /\ Forall (fun p => List.length p = List.length names) l.
Proof.
  induction l as [| a l IH]; intros pts; cbn [collect]; unfold rbind.
  - intros H. injection H as <-. auto.
  - unfold Point_make at 1.
    destruct (List.length a =? List.length names)%nat eqn:E; [| discriminate].
    destruct (collect (Point_make names) l) as [bs |]; [| discriminate].
    intros H. injection H as <-.
    destruct (IH bs eq_refl) as [-> F].
    apply Nat.eqb_eq in E. auto.
Qed.

Lemma Point_make_rows names (l : list (list value)) :
  Forall (fun p => List.length p = List.length names) l ->
  collect (Point_make names) l = OK l.
Proof.
  induction 1 as [| p l Hp _ IH]; [reflexivity |].
  cbn [collect]. unfold rbind, Point_make at 1.
  apply Nat.eqb_eq in Hp. rewrite Hp, IH. reflexivity.
Qed.

Lemma read_points_list_inv msg names pts :
  read_points_list msg names = OK pts ->
  exists cloud,
    msg_cloud msg = Some cloud /\
    pts = read_points cloud names /\
    Forall (fun p => List.length p = List.length names) pts.
Proof.
  unfold read_points_list. destruct (msg_cloud msg) as [cloud |]; [| discriminate].
  intros H. apply collect_Point_make in H. destruct H as [-> F].
  exists cloud. auto.
Qed.

(** The loop of [singleHokuyo] cannot fail on points of three values,
    and keeps them as they are. *)
Lemma hokuyo_rows pts :
  Forall (fun p : list value => List.length p = 3%nat) pts ->
  collect hokuyo_point pts = OK pts.
Proof.
  induction 1 as [| pt pts Hl _ IH]; [reflexivity |].
  destruct pt as [| x [| y [| z [| ? ?]]]]; try discriminate Hl.
  cbn [collect hokuyo_point]. unfold rbind. rewrite IH. reflexivity.
Qed.

Lemma hokuyo_point_inv pt row :
  hokuyo_point pt = OK row -> List.length pt = 3%nat /\ row = pt.
Proof.
  destruct pt as [| x [| y [| z [| ? ?]]]]; try discriminate.
  intros H. injection H as <-. auto.
Qed.

(** The loop of [singleOuster] cannot fail on points of six values. *)
Lemma ouster_rows pts :
  Forall (fun p : list value => List.length p = 6%nat) pts ->
  exists rows,
    collect ouster_point pts = OK rows /\
    Forall2 (fun pt row => exists x y z i t r,
                 pt = [x; y; z; i; t; r] /\ row = ([x; y; z], [i; r; t]))
            pts rows.
Proof.
  induction 1 as [| pt pts Hl _ (rows & Hc & F)].
  - exists []. split; [reflexivity | constructor].
  - destruct pt as [| x [| y [| z [| i [| t [| r [| ? ?]]]]]]]; try discriminate Hl.
    exists (([x; y; z], [i; r; t]) :: rows).
    cbn [collect ouster_point]. unfold rbind. rewrite Hc.
    split; [reflexivity |].
    constructor; [| exact F]. exists x, y, z, i, t, r. auto.
Qed.

(** With the flag set, the loop of [singleVelodyne] cannot fail on points
    of five values, and the time offset of every row is the int 0. *)
Lemma velodyne_rows_flag_true pts :
  Forall (fun p : list value => List.length p = 5%nat) pts ->
  exists rows,
    collect (velodyne_point true) pts = OK rows /\
    Forall2 (fun pt row => exists x y z i r,
                 pt = [x; y; z; i; r] /\ row = ([x; y; z], [i; r; VInt 0]))
            pts rows.
Proof.
  induction 1 as [| pt pts Hl _ (rows & Hc & F)].
  - exists []. split; [reflexivity | constructor].
  - destruct pt as [| x [| y [| z [| i [| r [| ? ?]]]]]]; try discriminate Hl.
    exists (([x; y; z], [i; r; VInt 0]) :: rows).
    cbn [collect velodyne_point]. unfold rbind. rewrite Hc.
    split; [reflexivity |].
    constructor; [| exact F]. exists x, y, z, i, r. auto.
Qed.

(** What the loops of [singleOuster] and [singleVelodyne] make of a
    point: the coordinates are its first three values, and both rows have
    three values. *)
Lemma ouster_point_inv pt row :
  ouster_point pt = OK row ->
  List.length pt = 6%nat /\ fst row = firstn 3 pt /\
  List.length (fst row) = 3%nat /\ List.length (snd row) = 3%nat.
Proof.
  destruct pt as [| x [| y [| z [| i [| t [| r [| ? ?]]]]]]]; try discriminate.
  intros H. injection H as <-. auto.
Qed.

Lemma velodyne_point_inv flag pt row :
  velodyne_point flag pt = OK row ->
  List.length pt = (if flag then 5%nat else 6%nat) /\ fst row = firstn 3 pt /\
  List.length (fst row) = 3%nat /\ List.length (snd row) = 3%nat.
Proof.
  unfold velodyne_point. destruct flag.
  - destruct pt as [| x [| y [| z [| i [| r [| ? ?]]]]]]; try discriminate.
    intros H. injection H as <-. auto.
  - destruct pt as [| x [| y [| z [| i [| r [| t [| ? ?]]]]]]]; try discriminate.
    unfold rbind. destruct (py_mul t _); [| discriminate].
    destruct (py_int _); [| discriminate].
    intros H. injection H as <-. auto.
Qed.

Lemma np_array_length rows : List.length (np_array rows) = List.length rows.
Proof. apply length_map. Qed.

Lemma np_array_rows3 (rows : list (list value)) :
  Forall (fun r => List.length r = 3%nat) rows ->
  is_n_by_3 (np_array rows) = negb (List.length rows =? 0)%nat.
Proof.
  intros F. destruct rows as [| r rows]; [reflexivity |].
  cbn [List.length Nat.eqb negb]. apply is_n_by_3_spec. split; [discriminate |].
  unfold np_array. apply Forall_map. eapply Forall_impl; [| exact F].
  cbv beta. intros a Ha. rewrite length_map. exact Ha.
Qed.

(** The arrays built from rows of three values fit [savePLY] exactly when
    there is a row. *)
Lemma rows_fit (rows : list (list value * list value)) :
  Forall (fun r => List.length (fst r) = 3%nat /\ List.length (snd r) = 3%nat) rows ->
  shapes_fit (np_array (map fst rows)) (np_array (map snd rows))
  = negb (List.length rows =? 0)%nat.
Proof.
  intros F. unfold shapes_fit.
  assert (F1 : Forall (fun r : list value => List.length r = 3%nat) (map fst rows)).
  { apply Forall_map. eapply Forall_impl; [| exact F]. intros a [H _]. exact H. }
  assert (F2 : Forall (fun r : list value => List.length r = 3%nat) (map snd rows)).
  { apply Forall_map. eapply Forall_impl; [| exact F]. intros a [_ H]. exact H. }
  rewrite (np_array_rows3 F1), (np_array_rows3 F2), !length_map.
  destruct rows; [reflexivity |]. cbn [List.length Nat.eqb negb andb]. apply orb_true_r.
Qed.

Lemma decoded_rows (l : list (list value)) (rows : list (list value * list value)) :
  Forall2 (fun pt row => fst row = firstn 3 pt /\
                         List.length (fst row) = 3%nat /\ List.length (snd row) = 3%nat)
          l rows ->
  np_array (map fst rows) = map point_xyz l /\
  shapes_fit (np_array (map fst rows)) (np_array (map snd rows))
  = negb (List.length l =? 0)%nat.
Proof.
  intros F. split.
  - induction F as [| pt row l rows (H & _) _ IH]; [reflexivity |].
    cbn [map np_array] in *. unfold np_array in IH. rewrite IH, H. reflexivity.
  - rewrite rows_fit.
    + rewrite (Forall2_length F). reflexivity.
    + clear - F. induction F as [| pt row l rows (_ & H) _ IH]; constructor; assumption.
Qed.

Lemma firstn_3_all (p : list value) : List.length p = 3%nat -> firstn 3 p = p.
Proof.
  destruct p as [| x [| y [| z [| ? ?]]]]; try discriminate. reflexivity.
Qed.

(** The arrays of a frame: the coordinates are those of the points read,
    in their order, and [savePLY] can convert the arrays exactly when a
    point has been read. *)
Lemma frame_arrays_inv self msg cloud pts nrm :
  py_in (sensor self) Lidar.list = true ->
  input_cloud self msg = OK cloud ->
  frame_arrays self msg = OK (pts, nrm) ->
  pts = map point_xyz (kept_points self cloud) /\
  Forall (fun p => List.length p = List.length (requested_fields self))
         (kept_points self cloud) /\
  shapes_fit pts nrm = negb (List.length (kept_points self cloud) =? 0)%nat /\
  (kept_points self cloud <> [] ->
   sensor self = Lidar.VELODYNE -> available_point_time self = true).
Proof.
  intros S Ec Ea. unfold kept_points, requested_fields, frame_arrays in *.
  destruct (supported_cases self S) as [E | [E | E]].
  - rewrite E in *.
    cbn [String.eqb Ascii.eqb Bool.eqb Lidar.HOKUYO Lidar.OUSTER Lidar.VELODYNE] in *.
    rewrite Ec in Ea. unfold rbind, hokuyo_frame in Ea.
    destruct (collect hokuyo_point _) as [xyz |] eqn:Ex; [| discriminate].
    injection Ea as <- <-.
    apply (collect_Forall2 hokuyo_point
             (fun pt row => List.length pt = 3%nat /\ row = pt)) in Ex;
      [| exact hokuyo_point_inv].
    assert (K : xyz = read_points cloud ["x"; "y"; "z"]
                /\ Forall (fun p : list value => List.length p = 3%nat)
                          (read_points cloud ["x"; "y"; "z"])).
    { clear - Ex. induction Ex as [| pt row l rows (Hl & ->) _ (-> & IH)]; auto. }
    destruct K as [-> F3].
    split.
    { unfold np_array, point_xyz. apply map_ext_in. intros p Hp.
      rewrite Forall_forall in F3. rewrite (firstn_3_all p (F3 p Hp)). reflexivity. }
    split; [exact F3 |].
    split; [| intros _ H; discriminate H].
    unfold shapes_fit. change (np_array []) with (@nil (list float)).
    cbn [np_any existsb negb orb]. rewrite andb_true_r. apply np_array_rows3, F3.
  - rewrite E in *.
    cbn [String.eqb Ascii.eqb Bool.eqb Lidar.HOKUYO Lidar.OUSTER Lidar.VELODYNE] in *.
    unfold input_cloud in Ec. rewrite E in Ec.
    cbn [String.eqb Ascii.eqb Bool.eqb Lidar.HOKUYO Lidar.OUSTER] in Ec.
    unfold ouster_frame, rbind in Ea.
    destruct (read_points_list msg _) as [l |] eqn:El; [| discriminate].
    destruct (collect ouster_point l) as [rows |] eqn:Er; [| discriminate].
    injection Ea as <- <-.
    apply read_points_list_inv in El. destruct El as (c & Em & -> & F6).
    rewrite Em in Ec. injection Ec as ->.
    apply (collect_Forall2 ouster_point
             (fun pt row => fst row = firstn 3 pt /\
                            List.length (fst row) = 3%nat /\ List.length (snd row) = 3%nat))
      in Er; [| intros a b H; apply ouster_point_inv in H; tauto].
    destruct (decoded_rows Er) as [Hx Hs].
    split; [exact Hx |]. split; [exact F6 |].
    split; [exact Hs | intros _ H; discriminate H].
  - rewrite E in *.
    cbn [String.eqb Ascii.eqb Bool.eqb Lidar.HOKUYO Lidar.OUSTER Lidar.VELODYNE] in *.
    unfold input_cloud in Ec. rewrite E in Ec.
    cbn [String.eqb Ascii.eqb Bool.eqb Lidar.HOKUYO Lidar.VELODYNE] in Ec.
    unfold velodyne_frame, rbind in Ea.
    destruct (read_points_list msg _) as [l |] eqn:El; [| discriminate].
    destruct (collect (velodyne_point _) l) as [rows |] eqn:Er; [| discriminate].
    injection Ea as <- <-.
    apply read_points_list_inv in El. destruct El as (c & Em & -> & F5).
    rewrite Em in Ec. injection Ec as ->.
    pose proof (collect_Forall2 (velodyne_point (available_point_time self))
                  (fun pt row => List.length pt
                                 = (if available_point_time self then 5%nat else 6%nat))
                  (read_points cloud ["x"; "y"; "z"; "intensity"; "ring"])
                  (fun a b H => proj1 (velodyne_point_inv _ _ H)) Er) as Fl.
    apply (collect_Forall2 (velodyne_point (available_point_time self))
             (fun pt row => fst row = firstn 3 pt /\
                            List.length (fst row) = 3%nat /\ List.length (snd row) = 3%nat))
      in Er; [| intros a b H; apply velodyne_point_inv in H; tauto].
    destruct (decoded_rows Er) as [Hx Hs].
    split; [exact Hx |]. split; [exact F5 |]. split; [exact Hs |].
    intros Hne _. destruct (available_point_time self); [reflexivity |].
    exfalso. destruct Fl as [| pt row l rows Hl _]; [contradiction |].
    inversion F5 as [| ? ? H5 _]; subst. cbn in H5. rewrite H5 in Hl. discriminate Hl.
Qed.

(** A decodable message gives arrays that [savePLY] can convert. *)
Lemma decodable_frame self msg :
  py_in (sensor self) Lidar.list = true ->
  decodable self msg = true ->
  exists cloud pts nrm,
    input_cloud self msg = OK cloud /\
    frame_arrays self msg = OK (pts, nrm) /\
    shapes_fit pts nrm = true.
Proof.
  intros S D. unfold decodable in D.
  destruct (input_cloud self msg) as [cloud |] eqn:Ec; [| discriminate].
  cbv zeta in D. apply andb_true_iff in D. destruct D as [D H3].
  apply andb_true_iff in D. destruct D as [H1 H2].
  assert (F : Forall (fun p => List.length p = List.length (requested_fields self))
                     (kept_points self cloud)).
  { apply Forall_forall. intros p Hp. rewrite forallb_forall in H2.
    apply Nat.eqb_eq, H2, Hp. }
  assert (A : exists pts nrm, frame_arrays self msg = OK (pts, nrm)).
  { unfold frame_arrays, kept_points, requested_fields in *.
    destruct (supported_cases self S) as [E | [E | E]]; rewrite E in *;
      cbn [String.eqb Ascii.eqb Bool.eqb Lidar.HOKUYO Lidar.OUSTER Lidar.VELODYNE] in *.
    - rewrite Ec. unfold rbind, hokuyo_frame. rewrite (hokuyo_rows F).
      eexists. eexists. reflexivity.
    - unfold input_cloud in Ec. rewrite E in Ec.
      cbn [String.eqb Ascii.eqb Bool.eqb Lidar.HOKUYO Lidar.OUSTER] in Ec.
      destruct (msg_cloud msg) as [c |] eqn:Em; [| discriminate]. injection Ec as ->.
      unfold ouster_frame, read_points_list, rbind. rewrite Em, (Point_make_rows _ F).
      destruct (ouster_rows F) as (rows & -> & _).
      eexists. eexists. reflexivity.
    - unfold input_cloud in Ec. rewrite E in Ec.
      cbn [String.eqb Ascii.eqb Bool.eqb Lidar.HOKUYO Lidar.VELODYNE] in Ec.
      destruct (msg_cloud msg) as [c |] eqn:Em; [| discriminate]. injection Ec as ->.
      cbn [implb] in H3. rewrite H3.
      unfold velodyne_frame, read_points_list, rbind. rewrite Em, (Point_make_rows _ F).
      destruct (velodyne_rows_flag_true F) as (rows & -> & _).
      eexists. eexists. reflexivity. }
  destruct A as (pts & nrm & Ea).
  exists cloud, pts, nrm. split; [reflexivity |]. split; [exact Ea |].
  destruct (frame_arrays_inv self msg S Ec Ea) as (_ & _ & Hs & _).
  rewrite Hs. exact H1.
Qed.

(** A message decodes exactly when it is decodable, once the output
    directory is set. *)
Lemma extract_message_decodable self msg w q :
  py_in (sensor self) Lidar.list = true ->
  w_path_save w = Some q ->
  decodable self msg = true ->
  exists cloud pts nrm,
    input_cloud self msg = OK cloud /\
    frame_arrays self msg = OK (pts, nrm) /\
    shapes_fit pts nrm = true /\
    extract_message self msg w
    = (OK tt, after_frame (frame_name self msg)
                          (os_path_join q (frame_name self msg))
                          (saved_cloud pts nrm)
                          (add_log (frame_loads self msg) w)).
Proof.
  intros S Hq D.
  destruct (decodable_frame self msg S D) as (cloud & pts & nrm & Ec & Ea & Hs).
  exists cloud, pts, nrm. split; [exact Ec |]. split; [exact Ea |]. split; [exact Hs |].
  rewrite (extract_message_run self msg w S), Ec, Ea.
  apply frame_step_success; [exact Hq | exact Hs].
Qed.

Lemma extract_message_ok_decodable self msg w w' :
  py_in (sensor self) Lidar.list = true ->
  extract_message self msg w = (OK tt, w') ->
  decodable self msg = true.
Proof.
  intros S H.
  destruct (extract_message_ok self msg w S H) as (cloud & pts & nrm & q & Ec & Ea & _ & Hs & _).
  destruct (frame_arrays_inv self msg S Ec Ea) as (_ & F & Hk & Hv).
  unfold decodable. rewrite Ec. cbv zeta.
  rewrite <- Hk, Hs. cbn [andb].
  apply andb_true_iff. split.
  - apply forallb_forall. intros p Hp. rewrite Forall_forall in F.
    apply Nat.eqb_eq, F, Hp.
  - destruct (sensor self =? Lidar.VELODYNE)%string eqn:Ev; [| reflexivity].
    cbn [implb]. apply Hv; [| apply String.eqb_eq, Ev].
    intros Hn. rewrite Hn in Hk. cbn in Hk. congruence.
Qed.

(** A frame of no point: the name is appended, the conversion of the
    empty array raises and the writer is not called. *)
Lemma empty_frame_raises self msg cloud w q :
  py_in (sensor self) Lidar.list = true ->
  input_cloud self msg = OK cloud ->
  kept_points self cloud = [] ->
  w_path_save w = Some q ->
  extract_message self msg w
  = (Raise not_n_by_3, appended (frame_name self msg) (add_log (frame_loads self msg) w)).
Proof.
  intros S Ec Hk Hq.
  assert (A : exists pts nrm, frame_arrays self msg = OK (pts, nrm)).
  { unfold frame_arrays, kept_points, requested_fields in *.
    destruct (supported_cases self S) as [E | [E | E]]; rewrite E in *;
      cbn [String.eqb Ascii.eqb Bool.eqb Lidar.HOKUYO Lidar.OUSTER Lidar.VELODYNE] in *.
    - rewrite Ec. unfold rbind, hokuyo_frame. rewrite Hk.
      eexists. eexists. reflexivity.
    - unfold input_cloud in Ec. rewrite E in Ec.
      cbn [String.eqb Ascii.eqb Bool.eqb Lidar.HOKUYO Lidar.OUSTER] in Ec.
      destruct (msg_cloud msg) as [c |] eqn:Em; [| discriminate]. injection Ec as ->.
      unfold ouster_frame, read_points_list, rbind. rewrite Em, Hk.
      eexists. eexists. reflexivity.
    - unfold input_cloud in Ec. rewrite E in Ec.
      cbn [String.eqb Ascii.eqb Bool.eqb Lidar.HOKUYO Lidar.VELODYNE] in Ec.
      destruct (msg_cloud msg) as [c |] eqn:Em; [| discriminate]. injection Ec as ->.
      unfold velodyne_frame, read_points_list, rbind. rewrite Em, Hk.
      eexists. eexists. reflexivity. }
  destruct A as (pts & nrm & Ea).
  destruct (frame_arrays_inv self msg S Ec Ea) as (_ & _ & Hs & _).
  rewrite Hk in Hs. cbn in Hs.
  rewrite (extract_message_run self msg w S), Ec, Ea.
  apply (frame_step_misfit _ _ _ (q := q)); [exact Hq | exact Hs].
Qed.

(** C5: with [available_point_time] set, [singleVelodyne] unpacks five
    values from every point and gives it the time offset 0: every row of
    the attribute array is the intensity, the ring and the int 0.  On a
    cloud message with at least one point read, with the output directory
    set, the call returns normally and that array is the one handed to the
    writer; with no point read, the conversion of the empty array raises
    once the name is appended. *)
Theorem velodyne_flag_true_time_offset_zero self msg pts w q :
  available_point_time self = true ->
  read_points_list msg ["x"; "y"; "z"; "intensity"; "ring"] = OK pts ->
  w_path_save w = Some q ->
  exists rows,
    collect (velodyne_point true) pts = OK rows /\
    Forall2 (fun pt row => exists x y z i r,
                 pt = [x; y; z; i; r] /\ row = ([x; y; z], [i; r; VInt 0]))
            pts rows /\
    Forall (fun row => nth_error (snd row) 2 = Some (VInt 0)) rows /\
    (pts <> [] ->
     singleVelodyne self msg w =
     (OK tt,
      after_frame (ply_name (PyMsg msg))
                  (os_path_join q (ply_name (PyMsg msg)))
                  (saved_cloud (np_array (map fst rows)) (np_array (map snd rows)))
                  w)) /\
    (pts = [] ->
     singleVelodyne self msg w
     = (Raise not_n_by_3, appended (ply_name (PyMsg msg)) w)).
Proof.
  intros Hf Hr Hq.
  destruct (read_points_list_inv _ _ Hr) as (cloud & _ & _ & F).
  destruct (velodyne_rows_flag_true F) as (rows & Hc & F2).
  exists rows. split; [exact Hc |]. split; [exact F2 |].
  assert (F3 : Forall (fun r : list value * list value =>
                         List.length (fst r) = 3%nat /\ List.length (snd r) = 3%nat) rows).
  { clear - F2. induction F2 as [| pt row ? ? (x & y & z & i & r & _ & ->) _ IH];
      constructor; [split; reflexivity | exact IH]. }
  pose proof (rows_fit F3) as Hs. rewrite <- (Forall2_length F2) in Hs.
  split; [| split].
  - clear - F2. induction F2 as [| pt row ? ? (x & y & z & i & r & _ & ->) _ IH];
      constructor; [reflexivity | exact IH].
  - intros Hne. rewrite singleVelodyne_run, Hf. unfold velodyne_frame, rbind.
    rewrite Hr, Hc. apply frame_step_success; [exact Hq |].
    rewrite Hs. destruct pts; [contradiction | reflexivity].
  - intros ->. rewrite singleVelodyne_run, Hf. unfold velodyne_frame, rbind.
    rewrite Hr, Hc. apply (frame_step_misfit _ _ _ (q := q)); [exact Hq |].
    rewrite Hs. reflexivity.
Qed.

Lemma filter_map_length {A B : Type} (P : B -> bool) (f : A -> B) (l : list A) :
  List.length (filter P (map f l)) = List.length (filter (fun a => P (f a)) l).
Proof.
  induction l as [| a l IH]; cbn [map filter]; [reflexivity |].
  destruct (P (f a)); cbn [List.length]; rewrite IH; reflexivity.
Qed.

Lemma filter_map_filter {A B : Type} (P : B -> bool) (f : A -> B) (l : list A) :
  filter P (map f (filter (fun a => P (f a)) l)) = filter P (map f l).
Proof.
  induction l as [| a l IH]; cbn [map filter]; [reflexivity |].
  destruct (P (f a)) eqn:E; cbn [map filter]; rewrite ?E, IH; reflexivity.
Qed.

Lemma partition_length {A : Type} (P : A -> bool) (l : list A) :
  List.length l =
  (List.length (filter P l) + List.length (filter (fun a => negb (P a)) l))%nat.
Proof.
  induction l as [| a l IH]; cbn [filter]; [reflexivity |].
  destruct (P a); cbn [negb List.length]; rewrite IH; lia.
Qed.

Lemma read_points_length cloud names :
  List.length (read_points cloud names)
  = List.length (filter (valid_point names cloud) (pc_points cloud)).
Proof.
  unfold read_points, valid_point.
  apply (filter_map_length (fun p => negb (has_nan p))
                           (select_fields (pc_fields cloud) names)).
Qed.

Lemma read_points_drop_invalid cloud names :
  read_points (drop_invalid names cloud) names = read_points cloud names.
Proof.
  unfold read_points, drop_invalid, valid_point. cbn [pc_fields pc_points].
  apply (filter_map_filter (fun p => negb (has_nan p))
                           (select_fields (pc_fields cloud) names)).
Qed.

Lemma read_points_no_nan cloud names :
  Forall (fun p => has_nan p = false) (read_points cloud names).
Proof.
  unfold read_points. apply Forall_forall. intros p Hp.
  apply filter_In in Hp. destruct Hp as [_ H]. apply negb_true_iff in H. exact H.
Qed.

(** C4, as amended: a message is decoded without error exactly when its
    cloud has at least one point with no NaN among the fields the decoder
    requests (x, y, z for Hokuyo; x, y, z, intensity, t, ring for Ouster;
    x, y, z, intensity, ring for Velodyne), every such point having a value
    for each of these fields, and, for Velodyne, the flag is set.  The
    frame then holds exactly these points, in the order of the cloud, each
    with the coordinates read; the other points are dropped, and the frame
    is the one the cloud without them would give. *)
Theorem frame_keeps_the_valid_points self msg cloud w q :
  py_in (sensor self) Lidar.list = true ->
  input_cloud self msg = OK cloud ->
  w_path_save w = Some q ->
  let fields := requested_fields self in
  let kept := read_points cloud fields in
  let n := List.length (filter (valid_point fields cloud) (pc_points cloud)) in
  let m := List.length (filter (fun pt => negb (valid_point fields cloud pt))
                               (pc_points cloud)) in
  (decodable self msg = true <-> exists w', extract_message self msg w = (OK tt, w')) /\
  (forall w',
      extract_message self msg w = (OK tt, w') ->
      exists ply,
        w' = after_frame (frame_name self msg) (os_path_join q (frame_name self msg))
                         ply (add_log (frame_loads self msg) w) /\
        w_disk w' = w_disk w ++ written (os_path_join q (frame_name self msg)) ply /\
        points ply = map point_xyz kept /\
        Forall (fun p => has_nan p = false) kept /\
        List.length (points ply) = n /\
        (1 <= n)%nat /\
        List.length (pc_points cloud) = (n + m)%nat /\
        read_points (drop_invalid fields cloud) fields = kept).
Proof.
  intros S Ec Hq fields kept n m. subst fields kept n m. split.
  - split.
    + intros D.
      destruct (extract_message_decodable self msg w S Hq D) as (c & pts & nrm & _ & _ & _ & H).
      eexists. exact H.
    + intros (w' & H). exact (extract_message_ok_decodable self msg w S H).
  - intros w' H.
    destruct (extract_message_ok self msg w S H)
      as (cloud' & pts & nrm & q' & Ec' & Ea & Hq' & Hs & Hw).
    rewrite Ec in Ec'. injection Ec' as <-. rewrite Hq in Hq'. injection Hq' as <-.
    destruct (frame_arrays_inv self msg S Ec Ea) as (Hp & _ & Hk & _).
    unfold kept_points in Hp, Hk.
    exists (saved_cloud pts nrm).
    destruct (after_frame_fields (frame_name self msg)
                (os_path_join q (frame_name self msg)) (saved_cloud pts nrm)
                (add_log (frame_loads self msg) w)) as (_ & _ & Hd & _).
    assert (Hn : List.length (points (saved_cloud pts nrm))
                 = List.length (filter (valid_point (requested_fields self) cloud)
                                       (pc_points cloud))).
    { cbn [saved_cloud points]. rewrite Hp, length_map. apply read_points_length. }
    split; [exact Hw |]. split; [rewrite Hw; exact Hd |].
    split; [exact Hp |]. split; [apply read_points_no_nan |].
    split; [exact Hn |]. split.
    { rewrite <- read_points_length. rewrite Hs in Hk.
      destruct (read_points cloud (requested_fields self)); [discriminate Hk | cbn; lia]. }
    split; [| apply read_points_drop_invalid].
    apply (partition_length (valid_point (requested_fields self) cloud)).
Qed.

(** With the flag unset, the loop of [singleVelodyne] unpacks six values
    from points that hold five: the first point raises. *)
Lemma velodyne_flag_false_raises self msg pt pts w :
  available_point_time self = false ->
  read_points_list msg ["x"; "y"; "z"; "intensity"; "ring"] = OK (pt :: pts) ->
  singleVelodyne self msg w
  = (Raise (unpack_error 6 5), appended (ply_name (PyMsg msg)) w).
Proof.
  intros Hf Hr.
  destruct (read_points_list_inv _ _ Hr) as (cloud & _ & _ & F).
  inversion F as [| ? ? Hl _]; subst.
  rewrite singleVelodyne_run, Hf. unfold velodyne_frame, rbind. rewrite Hr.
  destruct pt as [| x [| y [| z [| i [| r [| ? ?]]]]]]; try discriminate Hl.
  reflexivity.
Qed.

Lemma frame_step_loads name0 fr w :
  filter is_load (w_log (snd (frame_step name0 fr w))) = filter is_load (w_log w).
Proof.
  unfold frame_step. destruct fr as [[pts nrm] | e].
  - destruct (w_path_save w).
    + destruct (shapes_fit pts nrm).
      * destruct (after_frame_fields name0 (os_path_join s name0) (saved_cloud pts nrm) w)
          as (_ & _ & _ & _ & Hl).
        cbn [snd]. rewrite Hl, filter_app. cbn. apply app_nil_r.
      * cbn. rewrite filter_app. cbn. apply app_nil_r.
    + cbn. rewrite filter_app. cbn. apply app_nil_r.
  - cbn. rewrite filter_app. cbn. apply app_nil_r.
Qed.

(** C2: when the first [loadHokuyo] of a message raises, [singleHokuyo]
    calls [loadHokuyo] exactly once more, on the text in which every
    occurrence of "nan" is replaced by "60" (none is left); when that call
    raises too, its exception leaves [singleHokuyo], nothing having been
    appended or written; when it returns a cloud, the frame is decoded
    from it. *)
Theorem hokuyo_retries_once self msg w e1 :
  loadHokuyo_result (msg_text msg) = Raise e1 ->
  let s := msg_text msg in
  let s' := str_replace "nan" "60" s in
  (forall a b, s' <> (a ++ "nan" ++ b)%string) /\
  filter is_load (w_log (snd (singleHokuyo self msg w)))
  = filter is_load (w_log w) ++ [EvLoadHokuyo s; EvLoadHokuyo s'] /\
  (forall e2,
      loadHokuyo_result s' = Raise e2 ->
      singleHokuyo self msg w
      = (Raise e2, add_log [EvLoadHokuyo s; EvLoadHokuyo s'] w)) /\
  (forall cloud,
      loadHokuyo_result s' = OK cloud ->
      singleHokuyo self msg w
      = frame_step (ply_name (PyStr s')) (hokuyo_frame cloud)
                   (add_log [EvLoadHokuyo s; EvLoadHokuyo s'] w)).
Proof.
  intros H1 s s'. subst s s'.
  split.
  { intros a b E.
    assert (occurs_in "nan" (str_replace "nan" "60" (msg_text msg)) = true) as O
      by (apply occurs_in_spec; exists a, b; exact E).
    rewrite str_replace_no_nan in O. discriminate O. }
  rewrite singleHokuyo_run. cbv zeta. rewrite H1.
  split.
  - destruct (loadHokuyo_result (str_replace "nan" "60" (msg_text msg))).
    + rewrite frame_step_loads. unfold add_log. cbn [w_log].
      rewrite filter_app. reflexivity.
    + unfold add_log. cbn [snd w_log]. rewrite filter_app. reflexivity.
  - split; intros x Hx; rewrite Hx; reflexivity.
Qed.

(** * Further properties of the code *)

(** ** File names *)

Lemma append_length a b : String.length (a ++ b) = (String.length a + String.length b)%nat.
Proof. induction a as [| c a IH]; cbn; [| rewrite IH]; reflexivity. Qed.

Lemma append_cancel_r s : forall a b, (a ++ s)%string = (b ++ s)%string -> a = b.
Proof.
  induction a as [| c a IH]; intros [| d b] H; cbn in H.
  - reflexivity.
  - exfalso. apply (f_equal String.length) in H. cbn in H.
    rewrite append_length in H. lia.
  - exfalso. apply (f_equal String.length) in H. cbn in H.
    rewrite append_length in H. lia.
  - injection H as -> H. f_equal. apply IH. exact H.
Qed.

Lemma to_int_proper z : Z.to_int z <> Decimal.Pos Decimal.Nil /\ Z.to_int z <> Decimal.Neg Decimal.Nil.
Proof.
  destruct z as [| p | p]; cbn; split; try discriminate;
    intros H; injection H as H; apply (Unsigned.to_uint_nonnil _ H).
Qed.

Lemma py_str_int_inj a b : py_str_int a = py_str_int b -> a = b.
Proof.
  unfold py_str_int. intros H.
  apply DecimalZ.to_int_inj.
  destruct (to_int_proper a) as [A1 A2]. destruct (to_int_proper b) as [B1 B2].
  pose proof (NilZero.isi _ A1 A2) as Ia. pose proof (NilZero.isi _ B1 B2) as Ib.
  rewrite H in Ia. congruence.
Qed.

Lemma py_str_int_no_slash z s : prefix "/" (py_str_int z ++ s) = false.
Proof.
  unfold py_str_int. destruct (Z.to_int z) as [d | d]; [| reflexivity].
  destruct d; reflexivity.
Qed.

(** X11: two frames get the same file name exactly when the timestamps
    extracted from their messages are equal. *)
Theorem ply_name_injective o1 o2 :
  ply_name o1 = ply_name o2 <-> msg_to_timestamp o1 = msg_to_timestamp o2.
Proof.
  unfold ply_name. split.
  - intros H. apply py_str_int_inj. eapply append_cancel_r. exact H.
  - intros ->. reflexivity.
Qed.

Lemma prefix_append a b : prefix a (a ++ b) = true.
Proof. apply prefix_spec. exists b. reflexivity. Qed.

Lemma os_path_join_relative q z s :
  os_path_join q (py_str_int z ++ s) = (q ++ path_sep q ++ py_str_int z ++ s)%string.
Proof.
  unfold os_path_join, path_sep. rewrite py_str_int_no_slash.
  destruct (last_char q) as [c |]; [destruct (c =? "/")%char |]; reflexivity.
Qed.

Lemma last_char_none q : last_char q = None -> q = EmptyString.
Proof.
  induction q as [| c q IH]; [reflexivity |].
  intros H. cbn [last_char] in H. destruct q; [discriminate H |].
  apply IH in H. discriminate H.
Qed.

(** X10: the point-cloud file of a frame is written inside the output
    directory, under the name of the frame, which never starts with a
    separator: the path handed to the writer is [path_save] followed by
    the name when [path_save] is empty or ends with "/", and [path_save],
    "/" and the name otherwise. *)
Theorem frame_file_inside_output_directory self msg w w' q :
  py_in (sensor self) Lidar.list = true ->
  w_path_save w = Some q ->
  extract_message self msg w = (OK tt, w') ->
  exists path cloud,
    w_log w' = w_log w ++ frame_loads self msg
               ++ [EvAppend (frame_name self msg); EvWritePLY path] /\
    w_disk w' = w_disk w ++ written path cloud /\
    prefix "/" (frame_name self msg) = false /\
    (q = EmptyString \/ last_char q = Some "/"%char ->
     path = (q ++ frame_name self msg)%string) /\
    (q <> EmptyString /\ last_char q <> Some "/"%char ->
     path = (q ++ "/" ++ frame_name self msg)%string).
Proof.
  intros S Hq H.
  destruct (extract_message_ok self msg w S H)
    as (cloud & pts & nrm & q' & _ & _ & Hq' & _ & ->).
  rewrite Hq in Hq'. injection Hq' as <-.
  destruct (frame_name_shape self msg) as (o & Hn).
  pose proof (os_path_join_relative q (msg_to_timestamp o) ".ply") as Hj.
  rewrite <- Hn in Hj.
  exists (os_path_join q (frame_name self msg)), (saved_cloud pts nrm).
  destruct (after_frame_fields (frame_name self msg)
              (os_path_join q (frame_name self msg)) (saved_cloud pts nrm)
              (add_log (frame_loads self msg) w)) as (_ & _ & Hd & _ & Hl).
  split; [rewrite Hl; unfold add_log; cbn [w_log]; rewrite <- app_assoc; reflexivity |].
  split; [exact Hd |].
  split; [rewrite Hn; apply py_str_int_no_slash |].
  rewrite Hj. unfold path_sep. split.
  - intros [-> | ->]; reflexivity.
  - intros [Hne Hc]. destruct (last_char q) as [c |] eqn:El.
    + destruct (c =? "/")%char eqn:Ec; [| reflexivity].
      apply Ascii.eqb_eq in Ec. subst c. contradiction.
    + apply last_char_none in El. contradiction.
Qed.

(** ** The Hokuyo decoder *)

Lemma frame_step_data name0 fr w :
  w_data (snd (frame_step name0 fr w)) = w_data w ++ [name0].
Proof.
  unfold frame_step. destruct fr as [[pts nrm] | e]; [| reflexivity].
  destruct (w_path_save w); [| reflexivity].
  destruct (shapes_fit pts nrm); [| reflexivity].
  apply after_frame_fields.
Qed.

(** X1: when the first [loadHokuyo] of a message returns a cloud,
    [singleHokuyo] makes no second call and leaves the text as it is: the
    only load is on the text of the message, and the name appended to
    [data] comes from the timestamp of that text. *)
Theorem hokuyo_no_retry_when_first_load_succeeds self msg w cloud :
  loadHokuyo_result (msg_text msg) = OK cloud ->
  filter is_load (w_log (snd (singleHokuyo self msg w)))
  = filter is_load (w_log w) ++ [EvLoadHokuyo (msg_text msg)] /\
  w_data (snd (singleHokuyo self msg w))
  = w_data w ++ [ply_name (PyStr (msg_text msg))].
Proof.
  intros H. rewrite singleHokuyo_run. cbv zeta. rewrite H.
  rewrite frame_step_loads, frame_step_data. unfold add_log. cbn [w_log w_data].
  rewrite filter_app. auto.
Qed.

Lemma replace_absent s :
  occurs_in "nan" s = false -> replace_from 0 "nan" "60" s = s.
Proof.
  induction s as [| c s IH]; [reflexivity |].
  cbn [occurs_in replace_from]. intros H. apply orb_false_iff in H.
  destruct H as [Hp Ho]. rewrite Hp, (IH Ho). reflexivity.
Qed.

(** X2: a text in which "nan" does not occur is unchanged by the
    substitution, so when its load fails the retry is on the same text and
    the same exception leaves [singleHokuyo]; nothing is appended to [data]
    and nothing is written. *)
Theorem hokuyo_failure_without_nan_propagates self msg w e :
  occurs_in "nan" (msg_text msg) = false ->
  loadHokuyo_result (msg_text msg) = Raise e ->
  str_replace "nan" "60" (msg_text msg) = msg_text msg /\
  singleHokuyo self msg w
  = (Raise e, add_log [EvLoadHokuyo (msg_text msg); EvLoadHokuyo (msg_text msg)] w).
Proof.
  intros Hn He.
  assert (R : str_replace "nan" "60" (msg_text msg) = msg_text msg)
    by (apply replace_absent; exact Hn).
  split; [exact R |].
  rewrite singleHokuyo_run. cbv zeta. rewrite R, He. reflexivity.
Qed.

(** ** The Ouster and Velodyne decoders *)

Lemma select_all_ouster_fields (pt : list value) :
  List.length pt = 6%nat ->
  select_fields ["x"; "y"; "z"; "intensity"; "t"; "ring"]
                ["x"; "y"; "z"; "intensity"; "t"; "ring"] pt = pt.
Proof.
  destruct pt as [| x [| y [| z [| i [| t [| r [| ? ?]]]]]]]; try discriminate.
  reflexivity.
Qed.

(** X3: on a cloud whose fields are laid out as x, y, z, intensity, t,
    ring, [singleOuster] keeps the points without a NaN, in their order,
    and makes of each the coordinates x, y, z and the attribute row
    intensity, ring, t, with the time offset taken as it is; with the
    output directory set it returns normally when a point is kept, and
    raises in the conversion of the empty array when none is. *)
Theorem ouster_rows_are_intensity_ring_time self msg cloud w q :
  msg_cloud msg = Some cloud ->
  pc_fields cloud = ["x"; "y"; "z"; "intensity"; "t"; "ring"] ->
  Forall (fun pt => List.length pt = 6%nat) (pc_points cloud) ->
  w_path_save w = Some q ->
  let kept := filter (fun pt => negb (has_nan pt)) (pc_points cloud) in
  exists rows,
    Forall2 (fun pt row => exists x y z i t r,
                 pt = [x; y; z; i; t; r] /\ row = ([x; y; z], [i; r; t]))
            kept rows /\
    (kept <> [] ->
     singleOuster self msg w =
     (OK tt,
      after_frame (ply_name (PyMsg msg))
                  (os_path_join q (ply_name (PyMsg msg)))
                  (saved_cloud (np_array (map fst rows)) (np_array (map snd rows)))
                  w)) /\
    (kept = [] ->
     singleOuster self msg w
     = (Raise not_n_by_3, appended (ply_name (PyMsg msg)) w)).
Proof.
  intros Hm Hf F Hq kept.
  assert (Hk : read_points cloud ["x"; "y"; "z"; "intensity"; "t"; "ring"] = kept).
  { unfold read_points, kept. rewrite Hf. f_equal.
    rewrite <- (map_id (pc_points cloud)) at 2. apply map_ext_in.
    intros pt Hp. rewrite Forall_forall in F. apply select_all_ouster_fields, F, Hp. }
  assert (F6 : Forall (fun pt : list value => List.length pt = 6%nat) kept).
  { apply Forall_forall. intros pt Hp. apply filter_In in Hp.
    rewrite Forall_forall in F. apply F, Hp. }
  assert (Hr : read_points_list msg ["x"; "y"; "z"; "intensity"; "t"; "ring"] = OK kept).
  { unfold read_points_list. rewrite Hm, Hk. apply Point_make_rows. exact F6. }
  destruct (ouster_rows F6) as (rows & Hc & F2).
  exists rows. split; [exact F2 |].
  assert (F3 : Forall (fun r : list value * list value =>
                         List.length (fst r) = 3%nat /\ List.length (snd r) = 3%nat) rows).
  { clear - F2. induction F2 as [| pt row ? ? (x & y & z & i & t & r & _ & ->) _ IH];
      constructor; [split; reflexivity | exact IH]. }
  pose proof (rows_fit F3) as Hs. rewrite <- (Forall2_length F2) in Hs.
  split.
  - intros Hne. rewrite singleOuster_run. unfold ouster_frame, rbind.
    rewrite Hr, Hc. apply frame_step_success; [exact Hq |].
    rewrite Hs. destruct kept; [contradiction | reflexivity].
  - intros He. rewrite singleOuster_run. unfold ouster_frame, rbind.
    rewrite Hr, Hc. apply (frame_step_misfit _ _ _ (q := q)); [exact Hq |].
    rewrite Hs, He. reflexivity.
Qed.

Lemma frame_step_raise name0 fr w w' e :
  frame_step name0 fr w = (Raise e, w') -> w' = appended name0 w.
Proof.
  unfold frame_step. destruct fr as [[pts nrm] | e0].
  - destruct (w_path_save w).
    + destruct (shapes_fit pts nrm); [discriminate |]. intros H. injection H as _ <-. reflexivity.
    + intros H. injection H as _ <-. reflexivity.
  - intros H. injection H as _ <-. reflexivity.
Qed.

(** X4: with [available_point_time] unset, as the constructor leaves
    it, [singleVelodyne] never returns normally and the writer is never
    called: the name of the frame is appended and an exception is raised,
    the ValueError of the unpacking when a point is read, the RuntimeError
    of the conversion of the empty array when none is. *)
Theorem velodyne_default_flag_never_decodes self msg w :
  available_point_time self = false ->
  exists e,
    singleVelodyne self msg w = (Raise e, appended (ply_name (PyMsg msg)) w) /\
    (forall pt pts,
        read_points_list msg ["x"; "y"; "z"; "intensity"; "ring"] = OK (pt :: pts) ->
        e = unpack_error 6 5) /\
    (forall q,
        read_points_list msg ["x"; "y"; "z"; "intensity"; "ring"] = OK [] ->
        w_path_save w = Some q ->
        e = not_n_by_3).
Proof.
  intros Hf. rewrite singleVelodyne_run, Hf. unfold velodyne_frame, rbind.
  destruct (read_points_list msg _) as [l | e] eqn:Hr.
  - destruct l as [| pt l].
    + cbn [collect map np_array]. unfold frame_step.
      destruct (w_path_save w) as [q |].
      * exists not_n_by_3. split; [reflexivity |]. split; [discriminate | reflexivity].
      * exists no_path_save. split; [reflexivity |]. split; discriminate.
    + destruct (read_points_list_inv _ _ Hr) as (cloud & _ & _ & F).
      inversion F as [| ? ? Hl _]; subst.
      destruct pt as [| x [| y [| z [| i [| r [| ? ?]]]]]]; try discriminate Hl.
      exists (unpack_error 6 5). split; [reflexivity |]. split; [reflexivity | discriminate].
  - exists e. split; [reflexivity |]. split; discriminate.
Qed.

(** X5: a message on which a supported decoder raises leaves no file and
    the writer is not called.  When its cloud has been obtained, its name
    is in [data] all the same, the append coming before the points are
    read; a Hokuyo message whose two loads fail leaves nothing but the two
    loads, and the exception is that of the second. *)
Theorem failed_decode_writes_no_file self msg w w' e :
  py_in (sensor self) Lidar.list = true ->
  extract_message self msg w = (Raise e, w') ->
  w_disk w' = w_disk w /\
  filter is_write (w_log w') = filter is_write (w_log w) /\
  (forall cloud,
      input_cloud self msg = OK cloud ->
      w' = appended (frame_name self msg) (add_log (frame_loads self msg) w)) /\
  (forall e0,
      input_cloud self msg = Raise e0 -> sensor self = Lidar.HOKUYO ->
      e = e0 /\ w' = add_log (frame_loads self msg) w) /\
  (sensor self <> Lidar.HOKUYO -> w' = appended (frame_name self msg) w).
Proof.
  intros S H. rewrite (extract_message_run self msg w S) in H.
  assert (L : filter is_write (frame_loads self msg) = []).
  { unfold frame_loads. destruct (sensor self =? Lidar.HOKUYO)%string; [| reflexivity].
    cbv zeta. destruct (loadHokuyo_result (msg_text msg)); reflexivity. }
  assert (N : (sensor self =? Lidar.HOKUYO)%string = false -> frame_loads self msg = []).
  { unfold frame_loads. intros ->. reflexivity. }
  destruct (input_cloud self msg) as [cloud | e0].
  - apply frame_step_raise in H. subst w'.
    unfold appended, data_append, add_log. cbn [snd w_disk w_log].
    split; [reflexivity |].
    split; [rewrite !filter_app, L; cbn [filter is_write]; rewrite !app_nil_r; reflexivity |].
    split; [reflexivity |]. split; [discriminate |].
    intros Hn. apply String.eqb_neq in Hn. rewrite (N Hn).
    cbn [w_path_save w_data w_disk w_stdout w_log]. rewrite app_nil_r. reflexivity.
  - destruct (sensor self =? Lidar.HOKUYO)%string eqn:Eh.
    + injection H as <- <-. unfold add_log. cbn [w_disk w_log].
      split; [reflexivity |].
      split; [rewrite filter_app, L; apply app_nil_r |].
      split; [discriminate |].
      split; [intros e1 E1 _; injection E1 as <-; auto |].
      intros Hn. apply String.eqb_eq in Eh. contradiction.
    + apply frame_step_raise in H. subst w'.
      unfold appended, data_append. cbn [snd w_disk w_log].
      split; [reflexivity |].
      split; [rewrite filter_app; cbn [filter is_write]; apply app_nil_r |].
      split; [discriminate |].
      split; [| reflexivity].
      intros e1 _ Hh. apply String.eqb_neq in Eh. contradiction.
Qed.

(** X12: a write that fails is silent.  When Open3D cannot write the file
    of a frame, the decoder returns normally all the same: the name of the
    frame is in [data], and so in the manifest, and no file of that name
    is on the disk. *)
Theorem failed_write_is_silent self msg w q :
  py_in (sensor self) Lidar.list = true ->
  w_path_save w = Some q ->
  decodable self msg = true ->
  (forall cloud, write_ok (os_path_join q (frame_name self msg)) cloud = false) ->
  exists w',
    extract_message self msg w = (OK tt, w') /\
    w_data w' = w_data w ++ [frame_name self msg] /\
    w_log w' = w_log w ++ frame_loads self msg
               ++ [EvAppend (frame_name self msg);
                   EvWritePLY (os_path_join q (frame_name self msg))] /\
    w_disk w' = w_disk w.
Proof.
  intros S Hq D Hw.
  destruct (extract_message_decodable self msg w S Hq D) as (c & pts & nrm & _ & _ & _ & H).
  eexists. split; [exact H |].
  destruct (after_frame_fields (frame_name self msg)
              (os_path_join q (frame_name self msg)) (saved_cloud pts nrm)
              (add_log (frame_loads self msg) w)) as (_ & Ha & Hd & _ & Hl).
  split; [exact Ha |].
  split; [rewrite Hl; unfold add_log; cbn [w_log]; rewrite <- app_assoc; reflexivity |].
  rewrite Hd. unfold written. rewrite Hw. apply app_nil_r.
Qed.

(** ** The files and the output of a run *)

Lemma forallb_is_ply_app l1 l2 :
  forallb is_ply l1 = true -> forallb is_ply l2 = true -> forallb is_ply (l1 ++ l2) = true.
Proof. intros H1 H2. rewrite forallb_app, H1, H2. reflexivity. Qed.

Lemma last_csv_ply disk l :
  forallb is_ply l = true -> last_csv (disk ++ l) = last_csv disk.
Proof.
  intros H. induction disk as [| [p f] disk IH]; cbn [app last_csv].
  - induction l as [| [p f] l IHl]; [reflexivity |].
    cbn [forallb] in H. apply andb_true_iff in H. destruct H as [Hf Hl].
    cbn [last_csv]. rewrite (IHl Hl).
    unfold is_ply in Hf. cbn [snd] in Hf. destruct f; [reflexivity | discriminate].
  - rewrite IH. reflexivity.
Qed.

Lemma written_is_ply path cloud : forallb is_ply (written path cloud) = true.
Proof. unfold written. destruct (write_ok path cloud); reflexivity. Qed.

Lemma frame_step_effects name0 fr w :
  w_stdout (snd (frame_step name0 fr w)) = w_stdout w /\
  w_path_save (snd (frame_step name0 fr w)) = w_path_save w /\
  exists l, w_disk (snd (frame_step name0 fr w)) = w_disk w ++ l /\ forallb is_ply l = true.
Proof.
  unfold frame_step. destruct fr as [[pts nrm] | e].
  - destruct (w_path_save w) as [q |] eqn:Hq.
    + destruct (shapes_fit pts nrm).
      * destruct (after_frame_fields name0 (os_path_join q name0) (saved_cloud pts nrm) w)
          as (Hp & _ & Hd & Hs & _).
        cbn [snd]. rewrite Hp, Hd, Hs. repeat split; auto.
        eexists. split; [reflexivity | apply written_is_ply].
      * cbn. repeat split; auto. exists []. rewrite app_nil_r. auto.
    + cbn. repeat split; auto. exists []. rewrite app_nil_r. auto.
  - cbn. repeat split; auto. exists []. rewrite app_nil_r. auto.
Qed.

Lemma extract_message_unsupported self msg w :
  py_in (sensor self) Lidar.list = false -> extract_message self msg w = (OK tt, w).
Proof.
  unfold py_in, Lidar.list. cbn [existsb]. rewrite !orb_false_iff.
  intros (H1 & H2 & H3 & _). unfold extract_message. rewrite H1, H2, H3. reflexivity.
Qed.

Lemma extract_message_effects self msg w :
  w_stdout (snd (extract_message self msg w)) = w_stdout w /\
  w_path_save (snd (extract_message self msg w)) = w_path_save w /\
  exists l, w_disk (snd (extract_message self msg w)) = w_disk w ++ l
            /\ forallb is_ply l = true.
Proof.
  destruct (py_in (sensor self) Lidar.list) eqn:S.
  - rewrite (extract_message_run self msg w S).
    destruct (input_cloud self msg).
    + apply (frame_step_effects _ _ (add_log (frame_loads self msg) w)).
    + destruct (sensor self =? Lidar.HOKUYO)%string.
      * cbn. repeat split; auto. exists []. rewrite app_nil_r. auto.
      * apply frame_step_effects.
  - rewrite (extract_message_unsupported self msg w S). cbn.
    repeat split; auto. exists []. rewrite app_nil_r. auto.
Qed.

Lemma messages_effects self msgs :
  forall w,
    w_stdout (snd (for_each (extract_message self) msgs w)) = w_stdout w /\
    w_path_save (snd (for_each (extract_message self) msgs w)) = w_path_save w /\
    exists l, w_disk (snd (for_each (extract_message self) msgs w)) = w_disk w ++ l
              /\ forallb is_ply l = true.
Proof.
  induction msgs as [| m ms IH]; intros w; cbn [for_each].
  - cbn. repeat split; auto. exists []. rewrite app_nil_r. auto.
  - unfold bind.
    destruct (extract_message_effects self m w) as (Hs & Hp & l & Hd & Hl).
    destruct (extract_message self m w) as [[u | e] w1]; cbn [snd] in *.
    + destruct (IH w1) as (Is & Ip & l' & Id & Il).
      rewrite Is, Ip, Id, Hs, Hp, Hd. repeat split; auto.
      exists (l ++ l'). rewrite app_assoc. split; [reflexivity |].
      apply forallb_is_ply_app; assumption.
    + repeat split; auto. exists l. auto.
Qed.

Lemma extract_bag_run self ib w :
  extract_bag self ib w
  = for_each (extract_message self) (read_messages (snd ib) (topic self))
             (snd (print (bag_line self ib) w)).
Proof. destruct ib as [idx bag]. reflexivity. Qed.

Lemma bags_effects self ibs :
  forall w,
    w_path_save (snd (for_each (extract_bag self) ibs w)) = w_path_save w /\
    exists l, w_disk (snd (for_each (extract_bag self) ibs w)) = w_disk w ++ l
              /\ forallb is_ply l = true.
Proof.
  induction ibs as [| ib ibs IH]; intros w; cbn [for_each].
  - cbn. split; auto. exists []. rewrite app_nil_r. auto.
  - unfold bind. rewrite extract_bag_run.
    destruct (messages_effects self (read_messages (snd ib) (topic self))
                               (snd (print (bag_line self ib) w)))
      as (_ & Hp & l & Hd & Hl).
    destruct (for_each (extract_message self) _ _) as [[u | e] w1]; cbn [snd] in *.
    + destruct (IH w1) as (Ip & l' & Id & Il).
      rewrite Ip, Id, Hp, Hd. split; auto.
      exists (l ++ l'). rewrite app_assoc. split; [reflexivity |].
      apply forallb_is_ply_app; assumption.
    + split; auto. exists l. auto.
Qed.

(** X6: a run that raises has written no manifest: what it leaves on the
    disk beyond what was there is point-cloud files only, those of the
    frames written before the failure, so the manifest of the world is the
    one there was before the run. *)
Theorem failed_run_writes_no_manifest self w w' e :
  extract self w = (Raise e, w') ->
  exists files,
    w_disk w' = w_disk w ++ files /\
    forallb is_ply files = true /\
    manifest w' = manifest w.
Proof.
  intros H.
  destruct (isAvailable self) eqn:Av;
    [| rewrite (extract_unavailable self w Av) in H; discriminate].
  rewrite (extract_available self w Av) in H. unfold bind at 1 in H.
  destruct (bags_effects self (numbered_bags self) (started self w))
    as (Hp & l & Hd & Hl).
  destruct (for_each (extract_bag self) (numbered_bags self) (started self w))
    as [[u | e0] w1]; cbn [snd] in *.
  - exfalso. unfold bind, data_get, saveCSV, bind, get_path_save in H.
    cbn [fst snd] in H. rewrite Hp in H. cbn in H. discriminate.
  - injection H as _ <-. exists l. cbn [started w_disk] in Hd.
    split; [exact Hd |]. split; [exact Hl |].
    unfold manifest. rewrite Hd. apply last_csv_ply. exact Hl.
Qed.

Lemma messages_files self q msgs :
  forall w w',
    py_in (sensor self) Lidar.list = true ->
    w_path_save w = Some q ->
    writes_succeed q self msgs ->
    for_each (extract_message self) msgs w = (OK tt, w') ->
    exists files,
      w_disk w' = w_disk w ++ files /\
      Forall2 (frame_file q self) msgs files.
Proof.
  induction msgs as [| m ms IH]; intros w w' S Hq Hw H.
  - cbn in H. injection H as <-. exists []. rewrite app_nil_r. split; [reflexivity | constructor].
  - cbn [for_each] in H. unfold bind in H.
    destruct (extract_message self m w) as [[[] | e] w1] eqn:E; [| discriminate].
    destruct (extract_message_ok self m w S E)
      as (cloud & pts & nrm & q' & _ & _ & Hq' & _ & Hw1).
    rewrite Hq in Hq'. injection Hq' as <-.
    destruct (after_frame_fields (frame_name self m)
                (os_path_join q (frame_name self m)) (saved_cloud pts nrm)
                (add_log (frame_loads self m) w)) as (Hp & _ & Hd & _).
    rewrite <- Hw1 in Hp, Hd. cbn [add_log w_path_save w_disk] in Hp, Hd.
    unfold written in Hd. rewrite (Hw m (saved_cloud pts nrm) (or_introl eq_refl)) in Hd.
    assert (Hq1 : w_path_save w1 = Some q) by congruence.
    assert (Hw' : writes_succeed q self ms).
    { intros m' c Hm'. apply Hw. right. exact Hm'. }
    destruct (IH w1 w' S Hq1 Hw' H) as (files & If & IF).
    exists ((os_path_join q (frame_name self m), PlyFile (saved_cloud pts nrm)) :: files).
    split; [rewrite If, Hd, <- app_assoc; reflexivity |].
    constructor; [exists (saved_cloud pts nrm); reflexivity | exact IF].
Qed.

Lemma bags_files self q ibs :
  forall w w',
    py_in (sensor self) Lidar.list = true ->
    w_path_save w = Some q ->
    writes_succeed q self (flat_map (fun ib => read_messages (snd ib) (topic self)) ibs) ->
    for_each (extract_bag self) ibs w = (OK tt, w') ->
    exists files,
      w_disk w' = w_disk w ++ files /\
      Forall2 (frame_file q self)
              (flat_map (fun ib => read_messages (snd ib) (topic self)) ibs) files.
Proof.
  induction ibs as [| ib ibs IH]; intros w w' S Hq Hw H.
  - cbn in H. injection H as <-. exists []. rewrite app_nil_r. split; [reflexivity | constructor].
  - cbn [for_each] in H. unfold bind in H. rewrite extract_bag_run in H.
    destruct (messages_effects self (read_messages (snd ib) (topic self))
                               (snd (print (bag_line self ib) w)))
      as (_ & Hp & _).
    destruct (for_each (extract_message self) _ _) as [[[] | e] w1] eqn:E; [| discriminate].
    cbn [snd] in Hp. cbn [flat_map] in Hw.
    assert (Hq0 : w_path_save (snd (print (bag_line self ib) w)) = Some q) by exact Hq.
    assert (Hw0 : writes_succeed q self (read_messages (snd ib) (topic self))).
    { intros m c Hm. apply Hw, in_or_app. left. exact Hm. }
    assert (Hw1 : writes_succeed q self
                    (flat_map (fun ib => read_messages (snd ib) (topic self)) ibs)).
    { intros m c Hm. apply Hw, in_or_app. right. exact Hm. }
    edestruct messages_files as (f1 & Hd1 & F1); [exact S | exact Hq0 | exact Hw0 | exact E |].
    assert (Hq1 : w_path_save w1 = Some q) by (rewrite Hp; exact Hq).
    destruct (IH w1 w' S Hq1 Hw1 H) as (f2 & Hd2 & F2).
    exists (f1 ++ f2). split.
    + rewrite Hd2, Hd1. cbn [print snd w_disk]. rewrite app_assoc. reflexivity.
    + cbn [flat_map]. apply Forall2_app; assumption.
Qed.

(** X7: a run of a supported extractor that has messages and returns
    normally, and in which Open3D can write the files of the frames,
    writes one point-cloud file per message, in the order the messages are
    processed, each in the output directory under the name of its frame,
    and then the manifest [data.csv], once, as the last file. *)
Theorem successful_run_writes_frames_then_manifest self w w' :
  py_in (sensor self) Lidar.list = true ->
  isAvailable self = true ->
  writes_succeed (getPathSave self) self (all_messages self) ->
  extract self w = (OK tt, w') ->
  exists files,
    w_disk w' = w_disk w ++ files
                ++ [(os_path_join (getPathSave self) "data.csv",
                     CsvFile (("# " ++ CLOUD_HEADER)%string
                              :: np_sort (map (frame_name self) (all_messages self))))] /\
    Forall2 (frame_file (getPathSave self) self) (all_messages self) files.
Proof.
  intros S Av Hw H.
  pose proof (extract_ok_inv self w Av H) as F.
  destruct (extract_ok S w Av F) as (w'' & H' & M).
  rewrite H in H'. injection H' as <-.
  rewrite (extract_available self w Av) in H. unfold bind at 1 in H.
  destruct (for_each (extract_bag self) (numbered_bags self) (started self w))
    as [[[] | e0] w1] eqn:E; [| discriminate].
  destruct (bags_effects self (numbered_bags self) (started self w)) as (Hp & _).
  rewrite E in Hp. cbn [snd started w_path_save] in Hp.
  assert (Hq0 : w_path_save (started self w) = Some (getPathSave self)) by reflexivity.
  rewrite <- numbered_bags_messages in Hw.
  edestruct bags_files as (files & Hd & FF); [exact S | exact Hq0 | exact Hw | exact E |].
  rewrite numbered_bags_messages in FF.
  unfold bind, data_get, saveCSV, bind, get_path_save, write_file in H.
  cbn [fst snd] in H. rewrite Hp in H. injection H as <-.
  exists files. split; [| exact FF].
  unfold manifest in M. cbn [w_disk] in M |- *.
  rewrite last_csv_app in M. injection M as M.
  unfold np_savetxt_lines in M. rewrite M, Hd. cbn [started w_disk].
  rewrite <- app_assoc. reflexivity.
Qed.

Lemma frame_loads_no_write self msg : filter is_write (frame_loads self msg) = [].
Proof.
  unfold frame_loads. destruct (sensor self =? Lidar.HOKUYO)%string; [| reflexivity].
  cbv zeta. destruct (loadHokuyo_result (msg_text msg)); reflexivity.
Qed.

Lemma messages_decodable self q msgs :
  forall w,
    py_in (sensor self) Lidar.list = true ->
    w_path_save w = Some q ->
    ((exists w', for_each (extract_message self) msgs w = (OK tt, w'))
     <-> forallb (decodable self) msgs = true).
Proof.
  induction msgs as [| m ms IH]; intros w S Hq; cbn [for_each forallb].
  - split; [reflexivity | intros _; eexists; reflexivity].
  - unfold bind. rewrite andb_true_iff.
    destruct (extract_message_effects self m w) as (_ & Hp & _).
    split.
    + intros (w' & H).
      destruct (extract_message self m w) as [[[] | e] w1] eqn:E; [| discriminate].
      cbn [snd] in Hp. split.
      * exact (extract_message_ok_decodable self m w S E).
      * apply (IH w1 S); [congruence | exists w'; exact H].
    + intros [D Ds].
      destruct (extract_message_decodable self m w S Hq D) as (c & pts & nrm & _ & _ & _ & E).
      rewrite E in Hp |- *. cbn [snd] in Hp.
      apply (IH _ S); [congruence | exact Ds].
Qed.

Lemma messages_data_log self q msgs :
  forall w w',
    py_in (sensor self) Lidar.list = true ->
    w_path_save w = Some q ->
    for_each (extract_message self) msgs w = (OK tt, w') ->
    w_data w' = w_data w ++ map (frame_name self) msgs /\
    filter is_write (w_log w')
    = filter is_write (w_log w)
      ++ map (fun m => EvWritePLY (os_path_join q (frame_name self m))) msgs.
Proof.
  induction msgs as [| m ms IH]; intros w w' S Hq H.
  - cbn in H. injection H as <-. cbn [map]. rewrite !app_nil_r. auto.
  - cbn [for_each] in H. unfold bind in H.
    destruct (extract_message self m w) as [[[] | e] w1] eqn:E; [| discriminate].
    destruct (extract_message_ok self m w S E)
      as (cloud & pts & nrm & q' & _ & _ & Hq' & _ & Hw1).
    rewrite Hq in Hq'. injection Hq' as <-.
    destruct (after_frame_fields (frame_name self m)
                (os_path_join q (frame_name self m)) (saved_cloud pts nrm)
                (add_log (frame_loads self m) w)) as (Hp & Ha & _ & _ & Hl).
    rewrite <- Hw1 in Hp, Ha, Hl. cbn [add_log w_path_save w_data w_log] in Hp, Ha, Hl.
    assert (Hq1 : w_path_save w1 = Some q) by congruence.
    destruct (IH w1 w' S Hq1 H) as (Id & Il).
    split; [rewrite Id, Ha, <- app_assoc; reflexivity |].
    rewrite Il, Hl, !filter_app, frame_loads_no_write. cbn [filter is_write map].
    rewrite app_nil_r, <- app_assoc. reflexivity.
Qed.

(** X13: with the output directory set, a supported extractor processes a
    list of messages without error exactly when each of them is decodable.
    It has then appended exactly one name per message to [data], in the
    order of the messages, and called the writer exactly once per message,
    on the file of that name in the output directory; when Open3D can write
    these files, one file per message is on the disk. *)
Theorem one_entry_and_one_write_per_message self msgs w q :
  py_in (sensor self) Lidar.list = true ->
  w_path_save w = Some q ->
  ((exists w', for_each (extract_message self) msgs w = (OK tt, w'))
   <-> forallb (decodable self) msgs = true) /\
  (forall w',
      for_each (extract_message self) msgs w = (OK tt, w') ->
      w_data w' = w_data w ++ map (frame_name self) msgs /\
      List.length (w_data w') = (List.length (w_data w) + List.length msgs)%nat /\
      filter is_write (w_log w')
      = filter is_write (w_log w)
        ++ map (fun m => EvWritePLY (os_path_join q (frame_name self m))) msgs /\
      (writes_succeed q self msgs ->
       exists files,
         w_disk w' = w_disk w ++ files /\
         Forall2 (frame_file q self) msgs files)).
Proof.
  intros S Hq. split; [exact (messages_decodable self msgs w S Hq) |].
  intros w' H.
  destruct (messages_data_log self msgs w S Hq H) as (Hd & Hl).
  split; [exact Hd |].
  split; [rewrite Hd, length_app, length_map; reflexivity |].
  split; [exact Hl |].
  intros Hw. eapply messages_files; eassumption.
Qed.

Lemma bags_stdout self ibs :
  forall w w',
    for_each (extract_bag self) ibs w = (OK tt, w') ->
    w_stdout w' = w_stdout w ++ map (bag_line self) ibs.
Proof.
  induction ibs as [| ib ibs IH]; intros w w' H.
  - cbn in H. injection H as <-. cbn. rewrite app_nil_r. reflexivity.
  - cbn [for_each] in H. unfold bind in H. rewrite extract_bag_run in H.
    destruct (messages_effects self (read_messages (snd ib) (topic self))
                               (snd (print (bag_line self ib) w)))
      as (Hs & _).
    destruct (for_each (extract_message self) _ _) as [[[] | e] w1]; [| discriminate].
    cbn [snd print w_stdout] in Hs.
    rewrite (IH w1 w' H), Hs. cbn [map]. rewrite <- app_assoc. reflexivity.
Qed.

(** X8: a run that has messages and returns normally has printed, by
    its calls of [print], the line ">> Extracting clouds:" and then, for
    each bag in order, one line with the rank of the bag, the number of
    bags and the file name of the bag; the decoders and [savePLY] call
    [print] nowhere. *)
Theorem successful_run_prints_one_line_per_bag self w w' :
  isAvailable self = true ->
  extract self w = (OK tt, w') ->
  w_stdout w' = w_stdout w ++ ">> Extracting clouds:" :: map (bag_line self) (numbered_bags self).
Proof.
  intros Av H.
  rewrite (extract_available self w Av) in H. unfold bind at 1 in H.
  destruct (for_each (extract_bag self) (numbered_bags self) (started self w))
    as [[[] | e0] w1] eqn:E; [| discriminate].
  pose proof (bags_stdout self (numbered_bags self) (started self w) E) as Hs.
  destruct (bags_effects self (numbered_bags self) (started self w)) as (Hp & _).
  rewrite E in Hp. cbn [snd started w_path_save] in Hp.
  unfold bind, data_get, saveCSV, bind, get_path_save, write_file in H.
  cbn [fst snd] in H. rewrite Hp in H. injection H as <-.
  cbn [w_stdout]. rewrite Hs. cbn [started w_stdout]. rewrite <- app_assoc. reflexivity.
Qed.

Lemma bags_unsupported self ibs :
  py_in (sensor self) Lidar.list = false ->
  forall w,
    exists w1,
      for_each (extract_bag self) ibs w = (OK tt, w1) /\
      w_path_save w1 = w_path_save w /\ w_data w1 = w_data w /\ w_disk w1 = w_disk w.
Proof.
  intros S. induction ibs as [| ib ibs IH]; intros w; cbn [for_each].
  - exists w. auto.
  - unfold bind. rewrite extract_bag_run.
    assert (K : forall msgs w0, for_each (extract_message self) msgs w0 = (OK tt, w0)).
    { induction msgs as [| m ms IHm]; intros w0; cbn [for_each]; [reflexivity |].
      unfold bind. rewrite (extract_message_unsupported self m w0 S). apply IHm. }
    rewrite K.
    destruct (IH (snd (print (bag_line self ib) w))) as (w1 & H1 & Hp & Hd & Hk).
    exists w1. auto.
Qed.

(** X9: [extract] has no branch for a sensor outside the three of
    [Lidar.list]: on an extractor whose [sensor] is another string, a run
    that has messages decodes none of them, writes no point-cloud file,
    and writes a manifest that holds the header line only. *)
Theorem unsupported_sensor_is_skipped_silently self w :
  py_in (sensor self) Lidar.list = false ->
  isAvailable self = true ->
  exists w',
    extract self w = (OK tt, w') /\
    w_data w' = [] /\
    w_disk w' = w_disk w ++ [(os_path_join (getPathSave self) "data.csv",
                              CsvFile [("# " ++ CLOUD_HEADER)%string])].
Proof.
  intros S Av. rewrite (extract_available self w Av). unfold bind at 1.
  destruct (bags_unsupported self (numbered_bags self) S (started self w))
    as (w1 & H1 & Hp & Hd & Hk).
  rewrite H1. unfold bind, data_get, saveCSV, bind, get_path_save, write_file.
  cbn [fst snd]. rewrite Hp. cbn [started w_path_save].
  eexists. split; [reflexivity |]. cbn [w_data w_disk].
  rewrite Hd, Hk. cbn [started w_data w_disk]. auto.
Qed.

End Extraction.

(** * Concrete runs

    The extractor with the stand-ins of [Demo] in place of the libraries. *)

Abbreviation demo_loadHokuyo_result :=
  (loadHokuyo_result Demo.yaml_safe_load Demo.yaml_getitem Demo.projectLaser)
  (only parsing).
Abbreviation demo_singleHokuyo :=
  (singleHokuyo Demo.yaml_safe_load Demo.yaml_getitem Demo.projectLaser
                Demo.msg_to_timestamp Demo.write_ok) (only parsing).
Abbreviation demo_singleOuster :=
  (singleOuster Demo.msg_to_timestamp Demo.write_ok) (only parsing).
Abbreviation demo_singleVelodyne :=
  (singleVelodyne Demo.msg_to_timestamp Demo.write_ok) (only parsing).
Abbreviation demo_extract_message :=
  (extract_message Demo.yaml_safe_load Demo.yaml_getitem Demo.projectLaser
                   Demo.msg_to_timestamp Demo.write_ok) (only parsing).
Abbreviation demo_extract :=
  (extract Demo.yaml_safe_load Demo.yaml_getitem Demo.projectLaser
           Demo.msg_to_timestamp Demo.getPathSave Demo.write_ok) (only parsing).
Abbreviation demo_input_cloud :=
  (input_cloud Demo.yaml_safe_load Demo.yaml_getitem Demo.projectLaser) (only parsing).
Abbreviation demo_decodable :=
  (decodable Demo.yaml_safe_load Demo.yaml_getitem Demo.projectLaser) (only parsing).

(** ** The Velodyne time field *)

(** The loop body of [singleVelodyne], given six values, converts a time
    of 0.002 s to 2000000 ns. *)
Example velodyne_point_six_values :
  velodyne_point false [VFloat 1; VFloat 2; VFloat 3; VFloat 9; VInt 4; VFloat Demo.t_2ms]
  = OK ([VFloat 1; VFloat 2; VFloat 3], [VFloat 9; VInt 4; VInt 2000000]).
Proof. vm_compute. reflexivity. Qed.

(** [int] truncates: 1.9e-9 s becomes 1 ns, where rounding gives 2 ns. *)
Example velodyne_point_truncates :
  velodyne_point false [VFloat 1; VFloat 2; VFloat 3; VFloat 9; VInt 4; VFloat Demo.t_1_9ns]
  = OK ([VFloat 1; VFloat 2; VFloat 3], [VFloat 9; VInt 4; VInt 1]).
Proof. vm_compute. reflexivity. Qed.

(** C1: the code at the failing input.  The constructor leaves
    [available_point_time] unset; [singleVelodyne] then asks [read_points]
    for five fields and unpacks six names from each point, so on a message
    whose point has the time 0.002 s it raises a ValueError once the file
    name is appended, and no time offset is computed and no file written. *)
Theorem velodyne_default_flag_raises :
  __init__ "/scan" [] "/tmp" "velodyne" Demo.w_init
  = (OK (Demo.lidar "velodyne" false []), Demo.w_init) /\
  read_points_list Demo.velodyne_msg ["x"; "y"; "z"; "intensity"; "ring"]
  = OK [[VFloat 1; VFloat 2; VFloat 3; VFloat 9; VInt 4]] /\
  demo_singleVelodyne (Demo.lidar "velodyne" false []) Demo.velodyne_msg Demo.w_run
  = (Raise (ValueError "not enough values to unpack (expected 6, got 5)"),
     appended "3.ply" Demo.w_run) /\
  w_disk (appended "3.ply" Demo.w_run) = [].
Proof.
  split; [reflexivity |]. split; [reflexivity |]. split; [| reflexivity].
  rewrite (velodyne_flag_false_raises Demo.msg_to_timestamp Demo.write_ok
             (Demo.lidar "velodyne" false []) Demo.velodyne_msg Demo.w_run
             (pt := [VFloat 1; VFloat 2; VFloat 3; VFloat 9; VInt 4]) (pts := []));
    reflexivity.
Qed.

(** ** A frame of no point *)

(** C10: the code at the failing input.  The only point of the message
    has a NaN coordinate, so no point is read; the name of the frame is
    appended to [data], the conversion of the empty array raises a
    RuntimeError in [savePLY], and the writer is not called: the name has
    no file.  A run stops there: of three messages it leaves two names,
    one file and no manifest. *)
Theorem zero_point_frame_gets_no_file :
  read_points_list Demo.ouster_empty_msg ["x"; "y"; "z"; "intensity"; "t"; "ring"] = OK [] /\
  demo_extract_message (Demo.lidar "ouster" false []) Demo.ouster_empty_msg Demo.w_run
  = (Raise not_n_by_3, appended "9.ply" Demo.w_run) /\
  w_data (appended "9.ply" Demo.w_run) = ["9.ply"] /\
  w_log (appended "9.ply" Demo.w_run) = [EvAppend "9.ply"] /\
  w_disk (appended "9.ply" Demo.w_run) = [] /\
  List.length (all_messages (Demo.lidar "ouster" false [Demo.bag_stop])) = 3%nat /\
  exists w,
    demo_extract (Demo.lidar "ouster" false [Demo.bag_stop]) Demo.w_init
    = (Raise not_n_by_3, w) /\
    w_data w = ["10.ply"; "9.ply"] /\
    w_disk w = [("/tmp/ouster/10.ply",
                 PlyFile {| points := [[1%float; 2%float; 3%float]];
                            normals := Some [[5%float; 7%float; 4%float]] |})] /\
    manifest w = None.
Proof.
  split; [reflexivity |]. split.
  { rewrite (empty_frame_raises Demo.yaml_safe_load Demo.yaml_getitem Demo.projectLaser
               Demo.msg_to_timestamp Demo.getPathSave Demo.write_ok
               (Demo.lidar "ouster" false []) Demo.ouster_empty_msg Demo.w_run
               (q := "out") eq_refl eq_refl eq_refl eq_refl).
    reflexivity. }
  split; [reflexivity |]. split; [reflexivity |]. split; [reflexivity |].
  split; [reflexivity |].
  eexists. split; [vm_compute; reflexivity |].
  split; [reflexivity |]. split; reflexivity.
Qed.

(** ** Applications of the theorems *)

(** [hokuyo_retries_once] on a scan with a not-a-number range: two loads,
    the second on the text with 60 in its place. *)
Lemma hokuyo_retries_once_witness :
  demo_loadHokuyo_result (msg_text Demo.nan_scan)
  = Raise (LibraryError "could not convert string to float") /\
  filter is_load
         (w_log (snd (demo_singleHokuyo (Demo.lidar "hokuyo" false [])
                                         Demo.nan_scan Demo.w_run)))
  = [EvLoadHokuyo (Demo.scan_text "[1.0, nan]");
     EvLoadHokuyo (Demo.scan_text "[1.0, 60]")].
Proof.
  assert (H : demo_loadHokuyo_result (msg_text Demo.nan_scan)
              = Raise (LibraryError "could not convert string to float"))
    by (vm_compute; reflexivity).
  split; [exact H |].
  exact (proj1 (proj2 (hokuyo_retries_once Demo.yaml_safe_load Demo.yaml_getitem
                         Demo.projectLaser Demo.msg_to_timestamp Demo.write_ok
                         (Demo.lidar "hokuyo" false []) Demo.nan_scan Demo.w_run H))).
Defined.

(** A text that is no scan fails twice: the second exception leaves
    [singleHokuyo], after two loads and nothing else. *)
Example hokuyo_second_failure_propagates :
  demo_singleHokuyo (Demo.lidar "hokuyo" false []) Demo.no_scan Demo.w_run
  = (Raise (KeyError "header"),
     add_log [EvLoadHokuyo "ranges: [nan]"; EvLoadHokuyo "ranges: [60]"] Demo.w_run).
Proof. vm_compute. reflexivity. Qed.

(** [manifest_sorted_and_order_invariant] on two runs over the same three
    messages, each of which gives a frame with a point, in opposite orders
    and split differently over the bags. *)
Lemma manifest_sorted_and_order_invariant_witness :
  Permutation (all_messages (Demo.lidar "ouster" false [Demo.bag_a; Demo.bag_b]))
              (all_messages (Demo.lidar "ouster" false [Demo.bag_imu; Demo.bag_ab])) /\
  demo_extract (Demo.lidar "ouster" false [Demo.bag_a; Demo.bag_b]) Demo.w_init
  = (OK tt, snd (demo_extract (Demo.lidar "ouster" false [Demo.bag_a; Demo.bag_b])
                              Demo.w_init)) /\
  w_data (snd (demo_extract (Demo.lidar "ouster" false [Demo.bag_a; Demo.bag_b]) Demo.w_init))
  = ["10.ply"; "7.ply"; "5.ply"] /\
  manifest (snd (demo_extract (Demo.lidar "ouster" false [Demo.bag_a; Demo.bag_b]) Demo.w_init))
  = Some ["# timestamp [ns]"; "10.ply"; "5.ply"; "7.ply"] /\
  exists w2,
    demo_extract (Demo.lidar "ouster" false [Demo.bag_imu; Demo.bag_ab]) Demo.w_init = (OK tt, w2) /\
    w_data w2 = ["5.ply"; "7.ply"; "10.ply"] /\
    manifest w2 = Some ["# timestamp [ns]"; "10.ply"; "5.ply"; "7.ply"].
Proof.
  assert (P : Permutation
                (all_messages (Demo.lidar "ouster" false [Demo.bag_a; Demo.bag_b]))
                (all_messages (Demo.lidar "ouster" false [Demo.bag_imu; Demo.bag_ab]))).
  { change (Permutation [Demo.ouster_msg; Demo.ouster_full_msg; Demo.ouster_mixed_msg]
                        (rev [Demo.ouster_msg; Demo.ouster_full_msg; Demo.ouster_mixed_msg])).
    apply Permutation_rev. }
  assert (H : demo_extract (Demo.lidar "ouster" false [Demo.bag_a; Demo.bag_b]) Demo.w_init
              = (OK tt, snd (demo_extract (Demo.lidar "ouster" false [Demo.bag_a; Demo.bag_b])
                                          Demo.w_init)))
    by (vm_compute; reflexivity).
  assert (M : manifest (snd (demo_extract (Demo.lidar "ouster" false [Demo.bag_a; Demo.bag_b])
                                          Demo.w_init))
              = Some ["# timestamp [ns]"; "10.ply"; "5.ply"; "7.ply"])
    by (vm_compute; reflexivity).
  split; [exact P |]. split; [exact H |].
  split; [vm_compute; reflexivity |]. split; [exact M |].
  destruct (proj1 (manifest_sorted_and_order_invariant
                     Demo.yaml_safe_load Demo.yaml_getitem Demo.projectLaser
                     Demo.msg_to_timestamp Demo.getPathSave Demo.write_ok
                     (Demo.lidar "ouster" false [Demo.bag_a; Demo.bag_b])
                     (Demo.lidar "ouster" false [Demo.bag_imu; Demo.bag_ab])
                     Demo.w_init eq_refl eq_refl eq_refl eq_refl P H))
    as (w2 & H2 & M2).
  exists w2. split; [exact H2 |]. split.
  - assert (E : w2 = snd (demo_extract (Demo.lidar "ouster" false [Demo.bag_imu; Demo.bag_ab])
                                       Demo.w_init))
      by (rewrite H2; reflexivity).
    rewrite E. vm_compute. reflexivity.
  - rewrite M2. exact M.
Defined.

(** [velodyne_flag_true_time_offset_zero] on a cloud of one point. *)
Lemma velodyne_flag_true_time_offset_zero_witness :
  available_point_time (Demo.lidar "velodyne" true []) = true /\
  read_points_list Demo.velodyne_msg ["x"; "y"; "z"; "intensity"; "ring"]
  = OK [[VFloat 1; VFloat 2; VFloat 3; VFloat 9; VInt 4]] /\
  w_path_save Demo.w_run = Some "out" /\
  exists rows,
    collect (velodyne_point true) [[VFloat 1; VFloat 2; VFloat 3; VFloat 9; VInt 4]]
    = OK rows /\
    Forall (fun row => nth_error (snd row) 2 = Some (VInt 0)) rows /\
    demo_singleVelodyne (Demo.lidar "velodyne" true []) Demo.velodyne_msg Demo.w_run
    = (OK tt,
       after_frame Demo.write_ok "3.ply" "out/3.ply"
                   (saved_cloud (np_array (map fst rows)) (np_array (map snd rows)))
                   Demo.w_run).
Proof.
  assert (Hr : read_points_list Demo.velodyne_msg ["x"; "y"; "z"; "intensity"; "ring"]
               = OK [[VFloat 1; VFloat 2; VFloat 3; VFloat 9; VInt 4]])
    by reflexivity.
  split; [reflexivity |]. split; [exact Hr |]. split; [reflexivity |].
  destruct (velodyne_flag_true_time_offset_zero Demo.msg_to_timestamp Demo.write_ok
              (Demo.lidar "velodyne" true []) Demo.velodyne_msg Demo.w_run
              (q := "out") eq_refl Hr eq_refl) as (rows & Hc & _ & F & H & _).
  exists rows. split; [exact Hc |]. split; [exact F |]. apply H. discriminate.
Defined.

(** [normals_written_iff_nonzero] on a point with a nonzero attribute
    row, with an all-zero attribute row, and with the empty attribute array
    of a Hokuyo frame; and on the empty array of points. *)
Lemma normals_written_iff_nonzero_witness :
  w_path_save Demo.w_run = Some "out" /\
  is_n_by_3 [[1%float; 2%float; 0%float]] = true /\
  (exists cloud w',
      savePLY Demo.write_ok (Demo.lidar "ouster" false []) "155.ply"
              [[1%float; 2%float; 0%float]] [[9%float; 4%float; 0%float]] Demo.w_run
      = (OK tt, w') /\
      w_disk w' = [("out/155.ply", PlyFile cloud)] /\
      points cloud = [[1%float; 2%float; 0%float]] /\
      normals cloud = Some [[9%float; 4%float; 0%float]]) /\
  (exists cloud w',
      savePLY Demo.write_ok (Demo.lidar "ouster" false []) "155.ply"
              [[1%float; 2%float; 0%float]] [[0%float; 0%float; 0%float]] Demo.w_run
      = (OK tt, w') /\
      w_disk w' = [("out/155.ply", PlyFile cloud)] /\
      points cloud = [[1%float; 2%float; 0%float]] /\
      normals cloud = None) /\
  (exists cloud w',
      savePLY Demo.write_ok (Demo.lidar "hokuyo" false []) "155.ply"
              [[1%float; 2%float; 0%float]] (np_array []) Demo.w_run
      = (OK tt, w') /\
      w_disk w' = [("out/155.ply", PlyFile cloud)] /\
      points cloud = [[1%float; 2%float; 0%float]] /\
      normals cloud = None) /\
  savePLY Demo.write_ok (Demo.lidar "hokuyo" false []) "155.ply"
          (np_array []) (np_array []) Demo.w_run
  = (Raise not_n_by_3, Demo.w_run).
Proof.
  split; [reflexivity |]. split; [reflexivity |].
  split; [| split; [| split]].
  - destruct (proj1 (normals_written_iff_nonzero
                       Demo.yaml_safe_load Demo.yaml_getitem Demo.projectLaser
                       Demo.msg_to_timestamp Demo.write_ok
                       (Demo.lidar "ouster" false []) "155.ply"
                       [[1%float; 2%float; 0%float]] [[9%float; 4%float; 0%float]]
                       Demo.w_run (q := "out") eq_refl) eq_refl (fun _ => eq_refl))
      as (cloud & w' & H & _ & Hd & Hp & Hs & _ & _).
    exists cloud, w'. split; [exact H |]. split; [exact Hd |]. split; [exact Hp |].
    apply (proj2 Hs). exists [9%float; 4%float; 0%float], 9%float.
    split; [left; reflexivity |]. split; [left; reflexivity | reflexivity].
  - destruct (proj1 (normals_written_iff_nonzero
                       Demo.yaml_safe_load Demo.yaml_getitem Demo.projectLaser
                       Demo.msg_to_timestamp Demo.write_ok
                       (Demo.lidar "ouster" false []) "155.ply"
                       [[1%float; 2%float; 0%float]] [[0%float; 0%float; 0%float]]
                       Demo.w_run (q := "out") eq_refl) eq_refl
                    (fun E : np_any [[0%float; 0%float; 0%float]] = true => eq_refl))
      as (cloud & w' & H & _ & Hd & Hp & _ & Hn & _).
    exists cloud, w'. split; [exact H |]. split; [exact Hd |]. split; [exact Hp |].
    apply (proj2 Hn). intros row x [<- | []] [<- | [<- | [<- | []]]]; reflexivity.
  - destruct (proj1 (normals_written_iff_nonzero
                       Demo.yaml_safe_load Demo.yaml_getitem Demo.projectLaser
                       Demo.msg_to_timestamp Demo.write_ok
                       (Demo.lidar "hokuyo" false []) "155.ply"
                       [[1%float; 2%float; 0%float]] (np_array [])
                       Demo.w_run (q := "out") eq_refl) eq_refl
                    (fun E : np_any (np_array []) = true =>
                       False_ind _ (Bool.diff_false_true E)))
      as (cloud & w' & H & _ & Hd & Hp & _ & _ & He).
    exists cloud, w'. split; [exact H |]. split; [exact Hd |]. split; [exact Hp |].
    exact (He eq_refl).
  - exact (proj1 (proj2 (normals_written_iff_nonzero
                           Demo.yaml_safe_load Demo.yaml_getitem Demo.projectLaser
                           Demo.msg_to_timestamp Demo.write_ok
                           (Demo.lidar "hokuyo" false []) "155.ply"
                           (np_array []) (np_array [])
                           Demo.w_run (q := "out") eq_refl)) eq_refl).
Defined.

(** [init_checks_sensor_type] on a supported and on an unsupported sensor
    type. *)
Lemma init_checks_sensor_type_witness :
  In "ouster" [Lidar.HOKUYO; Lidar.OUSTER; Lidar.VELODYNE] /\
  __init__ "/scan" [] "/tmp" "ouster" Demo.w_init
  = (OK (Demo.lidar "ouster" false []), Demo.w_init) /\
  ~ In "radar" [Lidar.HOKUYO; Lidar.OUSTER; Lidar.VELODYNE] /\
  __init__ "/scan" [] "/tmp" "radar" Demo.w_init
  = (Raise (ValueError (dquote ++ "radar" ++ dquote ++ " lidar sensor type not supported")),
     Demo.w_init).
Proof.
  assert (Hin : In "ouster" [Lidar.HOKUYO; Lidar.OUSTER; Lidar.VELODYNE])
    by (right; left; reflexivity).
  assert (Hout : ~ In "radar" [Lidar.HOKUYO; Lidar.OUSTER; Lidar.VELODYNE])
    by (intros [H | [H | [H | []]]]; discriminate H).
  split; [exact Hin |].
  split; [exact (proj1 (init_checks_sensor_type "/scan" [] "/tmp" "ouster" Demo.w_init) Hin) |].
  split; [exact Hout |].
  exact (proj2 (init_checks_sensor_type "/scan" [] "/tmp" "radar" Demo.w_init) Hout).
Defined.

(** [append_then_write] on an Ouster message. *)
Lemma append_then_write_witness :
  py_in (sensor (Demo.lidar "ouster" false [])) Lidar.list = true /\
  fst (demo_extract_message (Demo.lidar "ouster" false []) Demo.ouster_msg Demo.w_run) = OK tt /\
  precedes (EvAppend "10.ply") (EvWritePLY "out/10.ply")
           (w_log (snd (demo_extract_message (Demo.lidar "ouster" false []) Demo.ouster_msg Demo.w_run))).
Proof.
  split; [reflexivity |]. split; [reflexivity |].
  destruct (append_then_write Demo.yaml_safe_load Demo.yaml_getitem Demo.projectLaser
              Demo.msg_to_timestamp Demo.getPathSave Demo.write_ok
              (Demo.lidar "ouster" false []) Demo.ouster_msg Demo.w_run
              (w' := snd (demo_extract_message (Demo.lidar "ouster" false []) Demo.ouster_msg Demo.w_run))
              eq_refl eq_refl) as (q & Hq & _ & H).
  injection Hq as <-. exact H.
Defined.

(** [extract_skips_when_unavailable] on a bag with no message of the topic. *)
Lemma extract_skips_when_unavailable_witness :
  all_messages (Demo.lidar "ouster" false [Demo.bag_imu]) = [] /\
  demo_extract (Demo.lidar "ouster" false [Demo.bag_imu]) Demo.w_init = (OK tt, Demo.w_init).
Proof.
  split; [reflexivity |].
  apply (extract_skips_when_unavailable Demo.yaml_safe_load Demo.yaml_getitem
           Demo.projectLaser Demo.msg_to_timestamp Demo.getPathSave Demo.write_ok
           (Demo.lidar "ouster" false [Demo.bag_imu]) Demo.w_init).
  reflexivity.
Defined.

(** [frame_keeps_the_valid_points] on a cloud of two points, one of which
    has a NaN coordinate: the message is decodable, and the file holds the
    coordinates of the other point. *)
Lemma frame_keeps_the_valid_points_witness :
  py_in (sensor (Demo.lidar "ouster" false [])) Lidar.list = true /\
  demo_input_cloud (Demo.lidar "ouster" false []) Demo.ouster_msg = OK Demo.ouster_cloud /\
  w_path_save Demo.w_run = Some "out" /\
  demo_decodable (Demo.lidar "ouster" false []) Demo.ouster_msg = true /\
  List.length (pc_points Demo.ouster_cloud) = 2%nat /\
  exists w' ply,
    demo_extract_message (Demo.lidar "ouster" false []) Demo.ouster_msg Demo.w_run = (OK tt, w') /\
    w_disk w' = [("out/10.ply", PlyFile ply)] /\
    points ply = [[1%float; 2%float; 3%float]].
Proof.
  split; [reflexivity |]. split; [reflexivity |]. split; [reflexivity |].
  assert (D : demo_decodable (Demo.lidar "ouster" false []) Demo.ouster_msg = true)
    by (vm_compute; reflexivity).
  split; [exact D |]. split; [reflexivity |].
  destruct (frame_keeps_the_valid_points
              Demo.yaml_safe_load Demo.yaml_getitem Demo.projectLaser
              Demo.msg_to_timestamp Demo.getPathSave Demo.write_ok
              (Demo.lidar "ouster" false []) Demo.ouster_msg Demo.w_run
              (cloud := Demo.ouster_cloud) (q := "out") eq_refl eq_refl eq_refl)
    as [Hiff Hall].
  destruct (proj1 Hiff D) as (w' & H).
  destruct (Hall w' H) as (ply & _ & Hd & Hp & _).
  exists w', ply. split; [exact H |].
  split; [vm_compute in Hd; exact Hd | vm_compute in Hp; exact Hp].
Defined.

(** ** Inputs on which claims of the specification fail *)

(** C4, as stated, fails: an Ouster point with all three coordinates
    present and a NaN intensity is dropped, so a message with two points
    whose coordinates are all present (N = 2, M = 0) gives a frame of one
    point. *)
Lemma ouster_nan_intensity_point_dropped :
  List.length (filter (valid_point ["x"; "y"; "z"] Demo.ouster_mixed_cloud)
                      (pc_points Demo.ouster_mixed_cloud)) = 2%nat /\
  List.length (filter (fun pt => negb (valid_point ["x"; "y"; "z"] Demo.ouster_mixed_cloud pt))
                      (pc_points Demo.ouster_mixed_cloud)) = 0%nat /\
  demo_extract_message (Demo.lidar "ouster" false []) Demo.ouster_mixed_msg Demo.w_run
  = (OK tt,
     after_frame Demo.write_ok "5.ply" "out/5.ply"
                 {| points := [[1%float; 2%float; 3%float]];
                    normals := Some [[5%float; 7%float; 4%float]] |} Demo.w_run) /\
  w_disk (after_frame Demo.write_ok "5.ply" "out/5.ply"
                      {| points := [[1%float; 2%float; 3%float]];
                         normals := Some [[5%float; 7%float; 4%float]] |} Demo.w_run)
  = [("out/5.ply", PlyFile {| points := [[1%float; 2%float; 3%float]];
                              normals := Some [[5%float; 7%float; 4%float]] |})] /\
  List.length (points {| points := [[1%float; 2%float; 3%float]];
                         normals := Some [[5%float; 7%float; 4%float]] |}) <> 2%nat.
Proof.
  split; [reflexivity |]. split; [reflexivity |]. split; [vm_compute; reflexivity |].
  split; [reflexivity |]. cbn. discriminate.
Qed.

(** C8, as stated, fails: on a message that decodes, the append to [data]
    comes first and the write of the file second, and the write does not
    precede the append. *)
Lemma ouster_append_precedes_write :
  fst (demo_extract_message (Demo.lidar "ouster" false []) Demo.ouster_msg Demo.w_run) = OK tt /\
  w_log (snd (demo_extract_message (Demo.lidar "ouster" false []) Demo.ouster_msg Demo.w_run))
  = [EvAppend "10.ply"; EvWritePLY "out/10.ply"] /\
  ~ precedes (EvWritePLY "out/10.ply") (EvAppend "10.ply")
      (w_log (snd (demo_extract_message (Demo.lidar "ouster" false []) Demo.ouster_msg Demo.w_run))).
Proof.
  split; [reflexivity |]. split; [reflexivity |].
  change (w_log (snd (demo_extract_message (Demo.lidar "ouster" false []) Demo.ouster_msg Demo.w_run)))
    with [EvAppend "10.ply"; EvWritePLY "out/10.ply"].
  intros (a & b & c & H).
  destruct a as [| x [| y a]]; cbn [app] in H.
  - discriminate H.
  - inversion H as [[Hx Hb]]. destruct b; discriminate Hb.
  - inversion H as [[Hx Hy Ha]]. destruct a; discriminate Ha.
Qed.

(** ** Applications of the further properties *)

(** [hokuyo_no_retry_when_first_load_succeeds] on a scan whose ranges are
    numbers. *)
Lemma hokuyo_no_retry_when_first_load_succeeds_witness :
  demo_loadHokuyo_result (msg_text Demo.good_scan) = OK Demo.scan_cloud /\
  filter is_load (w_log (snd (demo_singleHokuyo (Demo.lidar "hokuyo" false [])
                                                Demo.good_scan Demo.w_run)))
  = [EvLoadHokuyo (Demo.scan_text "[1.0, 2.0]")] /\
  w_data (snd (demo_singleHokuyo (Demo.lidar "hokuyo" false []) Demo.good_scan Demo.w_run))
  = ["156.ply"].
Proof.
  assert (H : demo_loadHokuyo_result (msg_text Demo.good_scan) = OK Demo.scan_cloud)
    by (vm_compute; reflexivity).
  split; [exact H |].
  exact (hokuyo_no_retry_when_first_load_succeeds
           Demo.yaml_safe_load Demo.yaml_getitem Demo.projectLaser Demo.msg_to_timestamp
           Demo.write_ok (Demo.lidar "hokuyo" false []) Demo.good_scan Demo.w_run H).
Defined.

(** [hokuyo_failure_without_nan_propagates] on a text that is no scan and
    has no not-a-number token. *)
Lemma hokuyo_failure_without_nan_propagates_witness :
  occurs_in "nan" (msg_text Demo.bad_scan) = false /\
  demo_loadHokuyo_result (msg_text Demo.bad_scan) = Raise (KeyError "header") /\
  demo_singleHokuyo (Demo.lidar "hokuyo" false []) Demo.bad_scan Demo.w_run
  = (Raise (KeyError "header"),
     add_log [EvLoadHokuyo "ranges: [1.0]"; EvLoadHokuyo "ranges: [1.0]"] Demo.w_run).
Proof.
  assert (Hn : occurs_in "nan" (msg_text Demo.bad_scan) = false) by reflexivity.
  assert (He : demo_loadHokuyo_result (msg_text Demo.bad_scan) = Raise (KeyError "header"))
    by (vm_compute; reflexivity).
  split; [exact Hn |]. split; [exact He |].
  exact (proj2 (hokuyo_failure_without_nan_propagates
                  Demo.yaml_safe_load Demo.yaml_getitem Demo.projectLaser
                  Demo.msg_to_timestamp Demo.write_ok
                  (Demo.lidar "hokuyo" false []) Demo.bad_scan Demo.w_run Hn He)).
Defined.

(** [ouster_rows_are_intensity_ring_time] on a cloud of two points, one of
    which is kept. *)
Lemma ouster_rows_are_intensity_ring_time_witness :
  msg_cloud Demo.ouster_msg = Some Demo.ouster_cloud /\
  pc_fields Demo.ouster_cloud = ["x"; "y"; "z"; "intensity"; "t"; "ring"] /\
  Forall (fun pt => List.length pt = 6%nat) (pc_points Demo.ouster_cloud) /\
  w_path_save Demo.w_run = Some "out" /\
  exists rows,
    Forall2 (fun pt row => exists x y z i t r,
                 pt = [x; y; z; i; t; r] /\ row = ([x; y; z], [i; r; t]))
            [[VFloat 1; VFloat 2; VFloat 3; VFloat 5; VInt 4; VInt 7]] rows /\
    demo_singleOuster (Demo.lidar "ouster" false []) Demo.ouster_msg Demo.w_run
    = (OK tt,
       after_frame Demo.write_ok "10.ply" "out/10.ply"
                   (saved_cloud (np_array (map fst rows)) (np_array (map snd rows)))
                   Demo.w_run).
Proof.
  assert (F : Forall (fun pt : list value => List.length pt = 6%nat)
                     (pc_points Demo.ouster_cloud))
    by (repeat constructor).
  split; [reflexivity |]. split; [reflexivity |]. split; [exact F |].
  split; [reflexivity |].
  destruct (ouster_rows_are_intensity_ring_time Demo.msg_to_timestamp Demo.write_ok
              (Demo.lidar "ouster" false []) Demo.ouster_msg Demo.w_run
              (cloud := Demo.ouster_cloud) (q := "out") eq_refl eq_refl F eq_refl)
    as (rows & F2 & H & _).
  exists rows. split; [exact F2 |]. apply H. discriminate.
Defined.

(** [velodyne_default_flag_never_decodes] on a cloud whose only point has
    a NaN coordinate. *)
Lemma velodyne_default_flag_never_decodes_witness :
  available_point_time (Demo.lidar "velodyne" false []) = false /\
  read_points_list Demo.velodyne_empty_msg ["x"; "y"; "z"; "intensity"; "ring"] = OK [] /\
  demo_singleVelodyne (Demo.lidar "velodyne" false []) Demo.velodyne_empty_msg Demo.w_run
  = (Raise not_n_by_3, appended "2.ply" Demo.w_run).
Proof.
  split; [reflexivity |]. split; [reflexivity |].
  destruct (velodyne_default_flag_never_decodes Demo.msg_to_timestamp Demo.write_ok
              (Demo.lidar "velodyne" false []) Demo.velodyne_empty_msg Demo.w_run eq_refl)
    as (e & H & _ & He).
  rewrite (He "out" eq_refl eq_refl) in H. exact H.
Defined.

(** [failed_decode_writes_no_file] on a Velodyne message with a readable
    point, the flag unset, and on a Hokuyo text that is no scan. *)
Lemma failed_decode_writes_no_file_witness :
  py_in (sensor (Demo.lidar "velodyne" false [])) Lidar.list = true /\
  fst (demo_extract_message (Demo.lidar "velodyne" false []) Demo.velodyne_msg Demo.w_run)
  = Raise (ValueError "not enough values to unpack (expected 6, got 5)") /\
  snd (demo_extract_message (Demo.lidar "velodyne" false []) Demo.velodyne_msg Demo.w_run)
  = appended "3.ply" Demo.w_run /\
  py_in (sensor (Demo.lidar "hokuyo" false [])) Lidar.list = true /\
  fst (demo_extract_message (Demo.lidar "hokuyo" false []) Demo.bad_scan Demo.w_run)
  = Raise (KeyError "header") /\
  snd (demo_extract_message (Demo.lidar "hokuyo" false []) Demo.bad_scan Demo.w_run)
  = add_log [EvLoadHokuyo "ranges: [1.0]"; EvLoadHokuyo "ranges: [1.0]"] Demo.w_run.
Proof.
  assert (H1 : demo_extract_message (Demo.lidar "velodyne" false []) Demo.velodyne_msg Demo.w_run
               = (Raise (ValueError "not enough values to unpack (expected 6, got 5)"),
                  snd (demo_extract_message (Demo.lidar "velodyne" false [])
                                            Demo.velodyne_msg Demo.w_run)))
    by (vm_compute; reflexivity).
  assert (H2 : demo_extract_message (Demo.lidar "hokuyo" false []) Demo.bad_scan Demo.w_run
               = (Raise (KeyError "header"),
                  snd (demo_extract_message (Demo.lidar "hokuyo" false [])
                                            Demo.bad_scan Demo.w_run)))
    by (vm_compute; reflexivity).
  assert (E : demo_input_cloud (Demo.lidar "hokuyo" false []) Demo.bad_scan
              = Raise (KeyError "header"))
    by (vm_compute; reflexivity).
  destruct (failed_decode_writes_no_file
              Demo.yaml_safe_load Demo.yaml_getitem Demo.projectLaser
              Demo.msg_to_timestamp Demo.getPathSave Demo.write_ok
              (Demo.lidar "velodyne" false []) Demo.velodyne_msg Demo.w_run
              eq_refl H1) as (_ & _ & _ & _ & Ha).
  destruct (failed_decode_writes_no_file
              Demo.yaml_safe_load Demo.yaml_getitem Demo.projectLaser
              Demo.msg_to_timestamp Demo.getPathSave Demo.write_ok
              (Demo.lidar "hokuyo" false []) Demo.bad_scan Demo.w_run
              eq_refl H2) as (_ & _ & _ & Hb & _).
  split; [reflexivity |]. split; [vm_compute; reflexivity |].
  split; [apply Ha; discriminate |].
  split; [reflexivity |]. split; [vm_compute; reflexivity |].
  exact (proj2 (Hb _ E eq_refl)).
Defined.

(** [failed_run_writes_no_manifest] on an Ouster run whose second message
    gives a frame of no point: the file of the first frame stays, no
    manifest is written. *)
Lemma failed_run_writes_no_manifest_witness :
  fst (demo_extract (Demo.lidar "ouster" false [Demo.bag_stop]) Demo.w_init)
  = Raise not_n_by_3 /\
  exists files,
    w_disk (snd (demo_extract (Demo.lidar "ouster" false [Demo.bag_stop]) Demo.w_init))
    = files /\
    List.length files = 1%nat /\
    forallb is_ply files = true /\
    manifest (snd (demo_extract (Demo.lidar "ouster" false [Demo.bag_stop]) Demo.w_init))
    = None.
Proof.
  assert (H : demo_extract (Demo.lidar "ouster" false [Demo.bag_stop]) Demo.w_init
              = (Raise not_n_by_3,
                 snd (demo_extract (Demo.lidar "ouster" false [Demo.bag_stop]) Demo.w_init)))
    by (vm_compute; reflexivity).
  split; [vm_compute; reflexivity |].
  destruct (failed_run_writes_no_manifest
              Demo.yaml_safe_load Demo.yaml_getitem Demo.projectLaser
              Demo.msg_to_timestamp Demo.getPathSave Demo.write_ok
              (Demo.lidar "ouster" false [Demo.bag_stop]) Demo.w_init H)
    as (files & Hd & Hp & Hm).
  assert (L : List.length (w_disk (snd (demo_extract (Demo.lidar "ouster" false [Demo.bag_stop])
                                                     Demo.w_init))) = 1%nat)
    by (vm_compute; reflexivity).
  rewrite Hd in L.
  exists files. split; [exact Hd |]. split; [exact L |]. split; [exact Hp | exact Hm].
Defined.

(** [successful_run_writes_frames_then_manifest] on a Hokuyo run over a bag
    of two scans. *)
Lemma successful_run_writes_frames_then_manifest_witness :
  py_in (sensor (Demo.lidar "hokuyo" false [Demo.bag_scans])) Lidar.list = true /\
  isAvailable (Demo.lidar "hokuyo" false [Demo.bag_scans]) = true /\
  fst (demo_extract (Demo.lidar "hokuyo" false [Demo.bag_scans]) Demo.w_init) = OK tt /\
  exists files,
    w_disk (snd (demo_extract (Demo.lidar "hokuyo" false [Demo.bag_scans]) Demo.w_init))
    = files ++ [("/tmp/hokuyo/data.csv",
                 CsvFile ["# timestamp [ns]"; "155.ply"; "156.ply"])] /\
    List.length files = 2%nat.
Proof.
  split; [reflexivity |]. split; [reflexivity |]. split; [vm_compute; reflexivity |].
  assert (H : demo_extract (Demo.lidar "hokuyo" false [Demo.bag_scans]) Demo.w_init
              = (OK tt, snd (demo_extract (Demo.lidar "hokuyo" false [Demo.bag_scans])
                                          Demo.w_init)))
    by (vm_compute; reflexivity).
  assert (W : writes_succeed Demo.yaml_safe_load Demo.yaml_getitem Demo.projectLaser
                             Demo.msg_to_timestamp Demo.write_ok
                             (Demo.getPathSave (Demo.lidar "hokuyo" false [Demo.bag_scans]))
                             (Demo.lidar "hokuyo" false [Demo.bag_scans])
                             (all_messages (Demo.lidar "hokuyo" false [Demo.bag_scans]))).
  { intros m c [<- | [<- | []]]; vm_compute; reflexivity. }
  destruct (successful_run_writes_frames_then_manifest
              Demo.getPathSave (self := Demo.lidar "hokuyo" false [Demo.bag_scans])
              Demo.w_init eq_refl eq_refl W H) as (files & Hd & F).
  exists files. split.
  - vm_compute in Hd. vm_compute. exact Hd.
  - apply Forall2_length in F. rewrite <- F. reflexivity.
Defined.

(** [successful_run_prints_one_line_per_bag] on an Ouster run over two
    bags. *)
Lemma successful_run_prints_one_line_per_bag_witness :
  isAvailable (Demo.lidar "ouster" false [Demo.bag_a; Demo.bag_b]) = true /\
  fst (demo_extract (Demo.lidar "ouster" false [Demo.bag_a; Demo.bag_b]) Demo.w_init)
  = OK tt /\
  w_stdout (snd (demo_extract (Demo.lidar "ouster" false [Demo.bag_a; Demo.bag_b])
                              Demo.w_init))
  = [">> Extracting clouds:"; "1/2: a.bag"; "2/2: b.bag"].
Proof.
  split; [reflexivity |]. split; [vm_compute; reflexivity |].
  assert (H : demo_extract (Demo.lidar "ouster" false [Demo.bag_a; Demo.bag_b]) Demo.w_init
              = (OK tt, snd (demo_extract (Demo.lidar "ouster" false [Demo.bag_a; Demo.bag_b])
                                          Demo.w_init)))
    by (vm_compute; reflexivity).
  pose proof (successful_run_prints_one_line_per_bag
                Demo.yaml_safe_load Demo.yaml_getitem Demo.projectLaser
                Demo.msg_to_timestamp Demo.getPathSave Demo.write_ok
                (Demo.lidar "ouster" false [Demo.bag_a; Demo.bag_b]) Demo.w_init
                eq_refl H) as R.
  vm_compute in R. vm_compute. exact R.
Defined.

(** [unsupported_sensor_is_skipped_silently] on an extractor whose sensor
    is "radar". *)
Lemma unsupported_sensor_is_skipped_silently_witness :
  py_in (sensor (Demo.lidar "radar" false [Demo.bag_a])) Lidar.list = false /\
  isAvailable (Demo.lidar "radar" false [Demo.bag_a]) = true /\
  exists w',
    demo_extract (Demo.lidar "radar" false [Demo.bag_a]) Demo.w_init = (OK tt, w') /\
    w_data w' = [] /\
    w_disk w' = [("/tmp/radar/data.csv", CsvFile ["# timestamp [ns]"])].
Proof.
  split; [reflexivity |]. split; [reflexivity |].
  exact (unsupported_sensor_is_skipped_silently
           Demo.yaml_safe_load Demo.yaml_getitem Demo.projectLaser
           Demo.msg_to_timestamp Demo.getPathSave Demo.write_ok
           (Demo.lidar "radar" false [Demo.bag_a]) Demo.w_init eq_refl eq_refl).
Defined.

(** [frame_file_inside_output_directory] on an Ouster message, the output
    directory being "out". *)
Lemma frame_file_inside_output_directory_witness :
  py_in (sensor (Demo.lidar "ouster" false [])) Lidar.list = true /\
  w_path_save Demo.w_run = Some "out" /\
  fst (demo_extract_message (Demo.lidar "ouster" false []) Demo.ouster_msg Demo.w_run)
  = OK tt /\
  exists cloud,
    w_disk (snd (demo_extract_message (Demo.lidar "ouster" false [])
                                      Demo.ouster_msg Demo.w_run))
    = [("out/10.ply", PlyFile cloud)].
Proof.
  split; [reflexivity |]. split; [reflexivity |]. split; [reflexivity |].
  destruct (frame_file_inside_output_directory
              Demo.yaml_safe_load Demo.yaml_getitem Demo.projectLaser
              Demo.msg_to_timestamp Demo.getPathSave Demo.write_ok
              (Demo.lidar "ouster" false []) Demo.ouster_msg Demo.w_run
              (w' := snd (demo_extract_message (Demo.lidar "ouster" false [])
                                               Demo.ouster_msg Demo.w_run))
              (q := "out") eq_refl eq_refl eq_refl)
    as (path & cloud & _ & Hd & _ & _ & Hp).
  assert (E : path = "out/10.ply").
  { rewrite Hp; [reflexivity |]. split; discriminate. }
  subst path. exists cloud. exact Hd.
Defined.

(** [failed_write_is_silent] on an Ouster message, the output directory
    being one that cannot be written. *)
Lemma failed_write_is_silent_witness :
  py_in (sensor (Demo.lidar "ouster" false [])) Lidar.list = true /\
  w_path_save Demo.w_ro = Some "/ro/out" /\
  demo_decodable (Demo.lidar "ouster" false []) Demo.ouster_msg = true /\
  (forall cloud, Demo.write_ok "/ro/out/10.ply" cloud = false) /\
  exists w',
    demo_extract_message (Demo.lidar "ouster" false []) Demo.ouster_msg Demo.w_ro = (OK tt, w') /\
    w_data w' = ["10.ply"] /\
    w_disk w' = [].
Proof.
  assert (D : demo_decodable (Demo.lidar "ouster" false []) Demo.ouster_msg = true)
    by (vm_compute; reflexivity).
  assert (W : forall cloud, Demo.write_ok "/ro/out/10.ply" cloud = false)
    by (intros cloud; reflexivity).
  split; [reflexivity |]. split; [reflexivity |]. split; [exact D |]. split; [exact W |].
  destruct (failed_write_is_silent
              Demo.yaml_safe_load Demo.yaml_getitem Demo.projectLaser
              Demo.msg_to_timestamp Demo.getPathSave Demo.write_ok
              (Demo.lidar "ouster" false []) Demo.ouster_msg Demo.w_ro
              (q := "/ro/out") eq_refl eq_refl D W) as (w' & H & Ha & _ & Hd).
  exists w'. split; [exact H |]. split; [exact Ha | exact Hd].
Defined.

(** [one_entry_and_one_write_per_message] on two Hokuyo scans, the second
    of which has a not-a-number range. *)
Lemma one_entry_and_one_write_per_message_witness :
  py_in (sensor (Demo.lidar "hokuyo" false [])) Lidar.list = true /\
  w_path_save Demo.w_run = Some "out" /\
  forallb (demo_decodable (Demo.lidar "hokuyo" false [])) [Demo.good_scan; Demo.nan_scan]
  = true /\
  exists w',
    for_each (demo_extract_message (Demo.lidar "hokuyo" false []))
             [Demo.good_scan; Demo.nan_scan] Demo.w_run = (OK tt, w') /\
    w_data w' = ["156.ply"; "155.ply"] /\
    filter is_write (w_log w') = [EvWritePLY "out/156.ply"; EvWritePLY "out/155.ply"].
Proof.
  assert (D : forallb (demo_decodable (Demo.lidar "hokuyo" false []))
                      [Demo.good_scan; Demo.nan_scan] = true)
    by (vm_compute; reflexivity).
  split; [reflexivity |]. split; [reflexivity |]. split; [exact D |].
  destruct (one_entry_and_one_write_per_message
              Demo.yaml_safe_load Demo.yaml_getitem Demo.projectLaser
              Demo.msg_to_timestamp Demo.getPathSave Demo.write_ok
              (Demo.lidar "hokuyo" false []) [Demo.good_scan; Demo.nan_scan] Demo.w_run
              (q := "out") eq_refl eq_refl) as [Hiff Hall].
  destruct (proj2 Hiff D) as (w' & H).
  destruct (Hall w' H) as (Ha & _ & Hl & _).
  exists w'. split; [exact H |].
  split; [vm_compute in Ha; exact Ha | vm_compute in Hl; exact Hl].
Defined.
